(** * Saarthi real-estate backend: a shallow embedding of its controllers

    The Express handlers of the repository are embedded as pure functions over
    an explicit database state.  Every handler takes the collections it reads,
    the request (query string, body, authenticated principal) and the values
    the runtime supplies (clock, fresh identifier, salt), and returns the new
    state together with the HTTP reply.  A thrown exception is an explicit
    error value that the handler's [catch] block turns into a reply.

    Numbers.  A stored [Number] and the result of [parseFloat] are IEEE
    doubles ([float]); the result of [parseInt] is the integer it denotes
    ([option Z], [None] for NaN), which is the double itself below 2^53,
    and [JS.number] rounds it to the double it is in general.  Strings are
    sequences of bytes.

    Collaborators.  The document engine, the regular-expression search and
    the bcrypt library are not code of the repository: the engine is the
    small model of module [Mongo] (documents in insertion order, a stable
    sort), the search is a parameter, bcrypt an interface.  The database is
    taken to answer; a lost connection rejects the awaited call and sends
    every handler to its catch-all 500 branch.

    Layout: JavaScript built-ins, the document engine, the schemas, the
    controllers and the server routes come first; the theorems follow. *)

From Stdlib Require Import ZArith List String Ascii Bool Lia DecimalString.
From Stdlib Require Import Permutation Sorted.
From Stdlib Require Import Floats.
Import ListNotations.

Local Open Scope string_scope.
Local Open Scope Z_scope.

(* ================================================================== *)
(** ** JavaScript built-ins used by the handlers *)
(* ================================================================== *)

Module JS.

(** A query-string or body field: [None] is [undefined]. *)
Definition field := option string.

(** ToBoolean on a string-or-undefined value: only [undefined] and the
    empty string are falsy. *)
Definition truthy (v : field) : bool :=
  match v with
  | None => false
  | Some s => negb (s =? "")%string
  end.

(** Destructuring default [x = d]: applies to [undefined] only. *)
Definition orDefault (v : field) (d : string) : string :=
  match v with
  | None => d
  | Some s => s
  end.

(** WhiteSpace and LineTerminator code points below 128. *)
Definition isWhite (c : ascii) : bool :=
  let n := nat_of_ascii c in
  ((n =? 32) || (n =? 9) || (n =? 10) || (n =? 11) || (n =? 12) || (n =? 13))%nat.

Fixpoint trimStart (s : string) : string :=
  match s with
  | String c r => if isWhite c then trimStart r else s
  | EmptyString => EmptyString
  end.

Fixpoint rev_string (s acc : string) : string :=
  match s with
  | EmptyString => acc
  | String c r => rev_string r (String c acc)
  end.

(** String.prototype.trim *)
Definition trim (s : string) : string :=
  rev_string (trimStart (rev_string (trimStart s) "")) "".

Definition lowerChar (c : ascii) : ascii :=
  let n := nat_of_ascii c in
  if ((65 <=? n) && (n <=? 90))%nat then ascii_of_nat (n + 32) else c.

(** String.prototype.toLowerCase on the ASCII range. *)
Fixpoint toLowerCase (s : string) : string :=
  match s with
  | EmptyString => EmptyString
  | String c r => String (lowerChar c) (toLowerCase r)
  end.

Definition decDigit (c : ascii) : option Z :=
  let n := nat_of_ascii c in
  if ((48 <=? n) && (n <=? 57))%nat then Some (Z.of_nat (n - 48)) else None.

Definition hexDigit (c : ascii) : option Z :=
  let n := nat_of_ascii c in
  if ((48 <=? n) && (n <=? 57))%nat then Some (Z.of_nat (n - 48))
  else if ((97 <=? n) && (n <=? 102))%nat then Some (Z.of_nat (n - 87))
  else if ((65 <=? n) && (n <=? 70))%nat then Some (Z.of_nat (n - 55))
  else None.

(** The longest prefix of digits in the given radix: its value, how many
    digits it has, and the rest of the string. *)
Fixpoint digitsPrefix (digit : ascii -> option Z) (radix : Z)
         (s : string) (acc : Z) (n : nat) : Z * nat * string :=
  match s with
  | EmptyString => (acc, n, s)
  | String c r =>
      match digit c with
      | Some d => digitsPrefix digit radix r (acc * radix + d) (S n)
      | None => (acc, n, s)
      end
  end.

(** Splits an optional sign off the front: [true] is a minus. *)
Definition signPrefix (s : string) : bool * string :=
  match s with
  | String "-" r => (true, r)
  | String "+" r => (false, r)
  | _ => (false, s)
  end.

(** [parseInt(s)] with no radix argument.  [None] is NaN.  The result is
    the mathematical integer, which is what the double holds below 2^53. *)
Definition parseInt (s : string) : option Z :=
  let (neg, body) := signPrefix (trimStart s) in
  let '(v, n, _) :=
    match body with
    | String "0" (String "x" r) => digitsPrefix hexDigit 16 r 0 0%nat
    | String "0" (String "X" r) => digitsPrefix hexDigit 16 r 0 0%nat
    | _ => digitsPrefix decDigit 10 body 0 0%nat
    end in
  match n with
  | O => None
  | S _ => Some (if neg then - v else v)
  end.

(** A positive integer of at most 53 bits as a double, bit by bit: every
    step is exact. *)
Fixpoint exactOfPos (p : positive) : float :=
  match p with
  | xH => 1%float
  | xO q => (2 * exactOfPos q)%float
  | xI q => (2 * exactOfPos q + 1)%float
  end.

(** The double nearest a positive integer, ties to even.  An integer of
    more than 53 bits is cut to its 53 leading bits, rounded on the bits
    cut off, and scaled back by doubling, which is exact until it overflows
    to Infinity. *)
Definition floatOfPos (p : positive) : float :=
  let k := Z.log2 (Zpos p) + 1 - 53 in
  if (k <=? 0)%Z then exactOfPos p
  else
    let m := Z.shiftr (Zpos p) k in
    let r := Z.land (Zpos p) (Z.ones k) in
    let half := Z.shiftl 1 (k - 1) in
    let m' := if ((half <? r) || ((half =? r) && Z.odd m))%bool then m + 1 else m in
    match m' with
    | Zpos q => Z.iter k (fun x => 2 * x)%float (exactOfPos q)
    | _ => 0%float
    end.

Definition floatOfZ (z : Z) : float :=
  match z with
  | Z0 => 0%float
  | Zpos p => floatOfPos p
  | Zneg p => (- floatOfPos p)%float
  end.

(** A [parseInt] result as the Number it is. *)
Definition number (v : option Z) : float :=
  match v with
  | Some z => floatOfZ z
  | None => nan
  end.

(** [Math.max(a, b)] and [Math.min(a, b)]: NaN as soon as an argument is
    NaN, and +0 counts as larger than -0. *)
Definition mathMax (a b : float) : float :=
  if (is_nan a || is_nan b)%bool then nan
  else if (a <? b)%float then b
  else if (b <? a)%float then a
  else if get_sign a then b else a.

Definition mathMin (a b : float) : float :=
  if (is_nan a || is_nan b)%bool then nan
  else if (a <? b)%float then a
  else if (b <? a)%float then b
  else if get_sign a then a else b.

Fixpoint pow10 (k : nat) : float :=
  match k with
  | O => 1%float
  | S j => (10 * pow10 j)%float
  end.

(** [m * 10^e] as a double: one rounding when [m < 2^53] and [|e| <= 22]. *)
Definition scale10 (m : Z) (e : Z) : float :=
  if (0 <=? e)%Z then (floatOfZ m * pow10 (Z.to_nat e))%float
  else (floatOfZ m / pow10 (Z.to_nat (- e)))%float.

Definition startsWith (p s : string) : bool :=
  (substring 0 (String.length p) s =? p)%string.

(** The ExponentPart of a decimal literal, 0 when there is none. *)
Definition exponentPart (s : string) : Z :=
  match s with
  | String c r =>
      if ((c =? "e") || (c =? "E"))%char then
        let (neg, ds) := signPrefix r in
        let '(v, n, _) := digitsPrefix decDigit 10 ds 0 0%nat in
        match n with
        | O => 0
        | S _ => if neg then - v else v
        end
      else 0
  | EmptyString => 0
  end.

(** [parseFloat(s)]: the longest prefix that is a StrDecimalLiteral. *)
Definition parseFloat (s : string) : float :=
  let (neg, body) := signPrefix (trimStart s) in
  let v :=
    if startsWith "Infinity" body then infinity
    else
      let '(ip, ni, r1) := digitsPrefix decDigit 10 body 0 0%nat in
      let '(m, nf, r2) :=
        match r1 with
        | String "." r => digitsPrefix decDigit 10 r ip 0%nat
        | _ => (ip, 0%nat, r1)
        end in
      match (ni + nf)%nat with
      | O => nan
      | S _ => scale10 m (exponentPart r2 - Z.of_nat nf)
      end in
  if neg then (- v)%float else v.

End JS.

(* ================================================================== *)
(** ** Exceptions, replies and the document engine *)
(* ================================================================== *)

(** What a rejected promise carries, as far as the [catch] blocks look:
    [error.name], [error.code], [error.errors] and [error.message]. *)
Inductive Exn : Type :=
| ValidationError (model : string) (errors : list (string * string))
| CastError (path : string)
| DuplicateKey                      (* error.code === 11000 *)
| TypeError (what : string)
| DriverError (what : string).

(** The outcome of an awaited call. *)
Inductive Result (A : Type) : Type :=
| Ok (a : A)
| Throw (e : Exn).
Arguments Ok {A} a.
Arguments Throw {A} e.

Definition bind {A B} (r : Result A) (k : A -> Result B) : Result B :=
  match r with
  | Ok a => k a
  | Throw e => Throw e
  end.

Notation "x <- r ;; k" := (bind r (fun x => k))
  (at level 61, r at next level, right associativity).
Notation "r ;; k" := (bind r (fun _ => k))
  (at level 61, right associativity).

(** [Object.values(error.errors).map(err => err.message)] *)
Definition errorMessages (errors : list (string * string)) : list string :=
  map snd errors.

(** [messages.join(', ')] *)
Definition joinMessages (msgs : list string) : string :=
  String.concat ", " msgs.

(** [error.message] *)
Definition exnMessage (e : Exn) : string :=
  match e with
  | ValidationError model errors =>
      model ++ " validation failed: " ++
      String.concat ", " (map (fun pm => fst pm ++ ": " ++ snd pm) errors)
  | CastError path => "Cast failed at path " ++ path
  | DuplicateKey => "E11000 duplicate key error"
  | TypeError what => what
  | DriverError what => what
  end.

(** The JSON body of a reply: the envelope [{success, message, data}], or
    the bare [{error}] two routes of the server send. *)
Inductive Body (A : Type) : Type :=
| Envelope (success : bool) (message : option string) (data : option A)
| ErrorOnly (error : string).
Arguments Envelope {A} success message data.
Arguments ErrorOnly {A} error.

Record Reply (A : Type) : Type := mkReply { status : Z; body : Body A }.
Arguments mkReply {A} status body.
Arguments status {A} r.
Arguments body {A} r.

(** [res.status(code).json({ success: false, message })] *)
Definition failure {A} (code : Z) (msg : string) : Reply A :=
  mkReply code (Envelope false (Some msg) None).

(** The payload of a successful reply, if it has one. *)
Definition payload {A} (r : Reply A) : option A :=
  match body r with
  | Envelope true _ d => d
  | _ => None
  end.

(** An ObjectId, written as its 24 lowercase hexadecimal digits. *)
Definition ObjectId := string.

Fixpoint allHex (s : string) : bool :=
  match s with
  | EmptyString => true
  | String c r =>
      match JS.hexDigit c with
      | Some _ => allHex r
      | None => false
      end
  end.

(** The cast of a route or body parameter to an ObjectId. *)
Definition castObjectId (path : string) (s : string) : Result ObjectId :=
  if ((String.length s =? 24)%nat && allHex s)%bool
  then Ok (JS.toLowerCase s)
  else Throw (CastError path).

Module Mongo.

Section Collection.
Context {A : Type}.

(** [find(filter)]: the matching documents in natural order. *)
Definition find (matches : A -> bool) (docs : list A) : list A :=
  filter matches docs.

(** [findOne(filter)] *)
Definition findOne (matches : A -> bool) (docs : list A) : option A :=
  List.find matches docs.

(** [countDocuments(filter)] *)
Definition countDocuments (matches : A -> bool) (docs : list A) : Z :=
  Z.of_nat (List.length (filter matches docs)).

(** Removes the first matching document. *)
Fixpoint deleteOne (matches : A -> bool) (docs : list A) : list A :=
  match docs with
  | [] => []
  | d :: r => if matches d then r else d :: deleteOne matches r
  end.

(** [deleteMany(filter)]: what is left, and [deletedCount]. *)
Definition deleteMany (matches : A -> bool) (docs : list A) : list A * Z :=
  (filter (fun d => negb (matches d)) docs,
   Z.of_nat (List.length (filter matches docs))).

(** Replaces the first matching document. *)
Fixpoint updateOne (matches : A -> bool) (f : A -> A) (docs : list A) : list A :=
  match docs with
  | [] => []
  | d :: r => if matches d then f d :: r else d :: updateOne matches f r
  end.

Fixpoint insertSorted (le : A -> A -> bool) (x : A) (l : list A) : list A :=
  match l with
  | [] => [x]
  | y :: r => if le x y then x :: l else y :: insertSorted le x r
  end.

(** [sort(spec)]: a stable insertion sort along the order [le]. *)
Fixpoint sort (le : A -> A -> bool) (l : list A) : list A :=
  match l with
  | [] => []
  | x :: r => insertSorted le x (sort le r)
  end.

(** [limit(n)]: 0 means no limit, a negative [n] is read as [-n]. *)
Definition limit (n : Z) (l : list A) : list A :=
  if n =? 0 then l else firstn (Z.to_nat (Z.abs n)) l.

(** [skip(s).limit(n)] as the server runs them; [None] is NaN.  The
    server refuses a NaN or a negative skip and a NaN limit. *)
Definition skipLimit (s n : option Z) (l : list A) : Result (list A) :=
  match s, n with
  | Some s, Some n =>
      if s <? 0 then Throw (DriverError "skip must be non-negative")
      else Ok (limit n (skipn (Z.to_nat s) l))
  | _, _ => Throw (DriverError "skip and limit must be numbers")
  end.

End Collection.

End Mongo.

(* ================================================================== *)
(** ** Schemas *)
(* ================================================================== *)

(** A value of a [Mixed] or [Object] path, or of a key outside the schema. *)
Inductive Value : Type :=
| VUndefined
| VNum (x : float)
| VStr (s : string)
| VBool (b : bool)
| VDate (t : Z)
| VObject.

(** What a path of a schema makes of a key of a JSON body: the key is
    missing (or [null], for a String path); its value casts to the type of
    the path; or it does not cast, and [reason] is the message of the
    CastError. *)
Inductive Sent (T : Type) : Type :=
| Missing
| Cast (v : T)
| NoCast (reason : string).
Arguments Missing {T}.
Arguments Cast {T} v.
Arguments NoCast {T} reason.

Module User.

Inductive Provider := google | manual.
Inductive Role := user | agent | admin.

Record t : Type := mk {
  _id : ObjectId;
  googleId : option string;
  name : string;
  email : string;
  password : option string;
  avatar : option string;
  provider : Provider;
  role : Role;
  lastLogin : Z
}.

Definition isAdminRole (r : Role) : bool :=
  match r with admin => true | _ => false end.

(** The [lowercase] and [trim] setters of the email path; Mongoose runs
    them on a stored value and on a filter value alike. *)
Definition emailSetter (s : string) : string :=
  JS.toLowerCase (JS.trim s).

End User.

Module Property.

(** The [owner] path ([type: Object]): an ObjectId or a nested object. *)
Inductive OwnerRef := OwnerId (i : ObjectId) | OwnerEmbedded.

Record t : Type := mk {
  _id : ObjectId;
  title : string;
  description : option string;
  propertyType : option string;
  city : option string;
  location : Value;
  bedrooms : Value;
  area : option float;
  price : float;
  amenities : list string;
  possession : option string;
  furnishing : Value;
  isFeatured : Value;
  owner : option OwnerRef;
  status : string;
  createdAt : Z
}.

End Property.

Module Favorite.

Record t : Type := mk {
  user : ObjectId;
  property : ObjectId;
  addedAt : Z;
  notes : option string
}.

End Favorite.

Module Contact.

Record t : Type := mk {
  name : string;
  email : string;
  phone : option string;
  subject : option string;
  message : string;
  propertyInterest : option string;
  createdAt : option Z
}.

End Contact.

(** The collections of the database. *)
Record Db : Type := mkDb {
  users : list User.t;
  properties : list Property.t;
  favorites : list Favorite.t;
  contacts : list Contact.t
}.

(* ================================================================== *)
(** ** middleware/auth.js *)
(* ================================================================== *)

Module Auth.

(** A middleware either calls [next()] with the principal or replies. *)
Inductive Gate : Type :=
| next (u : User.t)
| stop (r : Reply unit).

(** [req.isAuthenticated()]: the session resolved to a principal. *)
Definition isAuthenticated (principal : option User.t) : Gate :=
  match principal with
  | Some u => next u
  | None => stop (failure 401 "Please login with Google to access this resource")
  end.

(** [req.user && req.user.role === 'admin'] *)
Definition isAdmin (principal : option User.t) : Gate :=
  match principal with
  | Some u =>
      if User.isAdminRole (User.role u) then next u
      else stop (failure 403 "Admin access required")
  | None => stop (failure 403 "Admin access required")
  end.

End Auth.

(* ================================================================== *)
(** ** controllers/propertyController.js *)
(* ================================================================== *)

Module Query.

(** A repeated query-string key arrives as an array. *)
Inductive Multi := one (s : string) | many (l : list string).

(** [req.query] of the listing endpoint.  The scalar keys are read as
    strings; [amenities] is the key the handler also accepts repeated. *)
Record t : Type := mk {
  search : JS.field;
  location : JS.field;
  propertyType : JS.field;
  minPrice : JS.field;
  maxPrice : JS.field;
  bedrooms : JS.field;
  furnishing : JS.field;
  possession : JS.field;
  amenities : option Multi;
  minArea : JS.field;
  maxArea : JS.field;
  page : JS.field;
  limit : JS.field;
  sort : JS.field;
  order : JS.field
}.

(** ToBoolean of the amenities key: an array is truthy even when empty. *)
Definition truthyMulti (v : option Multi) : bool :=
  match v with
  | None => false
  | Some (one s) => negb (s =? "")%string
  | Some (many _) => true
  end.

(** The request with no query string. *)
Definition empty : t :=
  mk None None None None None None None None None None None None None None None.

End Query.

Module PropertyController.

(** The filter object [query] the handler builds, one field per key it can
    set; [None] is an absent key.  For the numeric operands produced by
    [parseInt], the inner [None] is NaN. *)
Record Filter : Type := mkFilter {
  status_eq : string;
  or_regex : option string;
  city_regex : option string;
  propertyType_eq : option string;
  price_gte : option float;
  price_lte : option float;
  bedrooms_gte : option (option Z);
  furnishing_eq : option string;
  possession_eq : option string;
  area_gte : option (option Z);
  area_lte : option (option Z);
  amenities_in : option (list string)
}.

(** [if (x) ...]: the value when it is truthy. *)
Definition supplied (v : JS.field) : option string :=
  if JS.truthy v then v else None.

Definition crore : float := 10000000%float.

Definition buildQuery (q : Query.t) : Filter :=
  let priceKey := (JS.truthy (Query.minPrice q) || JS.truthy (Query.maxPrice q))%bool in
  let areaKey := (JS.truthy (Query.minArea q) || JS.truthy (Query.maxArea q))%bool in
  {| status_eq := "active";
     or_regex := supplied (Query.search q);
     city_regex := supplied (Query.location q);
     propertyType_eq := supplied (Query.propertyType q);
     price_gte :=
       if priceKey
       then option_map (fun s => (JS.parseFloat s * crore)%float) (supplied (Query.minPrice q))
       else None;
     price_lte :=
       if priceKey
       then option_map (fun s => (JS.parseFloat s * crore)%float) (supplied (Query.maxPrice q))
       else None;
     bedrooms_gte := option_map JS.parseInt (supplied (Query.bedrooms q));
     furnishing_eq := supplied (Query.furnishing q);
     possession_eq := supplied (Query.possession q);
     area_gte :=
       if areaKey then option_map JS.parseInt (supplied (Query.minArea q)) else None;
     area_lte :=
       if areaKey then option_map JS.parseInt (supplied (Query.maxArea q)) else None;
     amenities_in :=
       if Query.truthyMulti (Query.amenities q)
       then match Query.amenities q with
            | Some (Query.many l) => Some l
            | Some (Query.one s) => Some [s]
            | None => None
            end
       else None |}.

(** Mongoose casts the operands of the [Number] paths [price] and [area]
    before the filter is sent, and refuses NaN. *)
Definition castFilter (f : Filter) : Result Filter :=
  let nanF (o : option float) :=
    match o with Some x => is_nan x | None => false end in
  let nanZ (o : option (option Z)) :=
    match o with Some None => true | _ => false end in
  if (nanF (price_gte f) || nanF (price_lte f))%bool then Throw (CastError "price")
  else if (nanZ (area_gte f) || nanZ (area_lte f))%bool then Throw (CastError "area")
  else Ok f.

Section Matching.
(** [regexTest pattern options subject]: the engine's regular-expression
    search, for [{ $regex: pattern, $options: options }]. *)
Variable regexTest : string -> string -> string -> bool.

(** [$options: 'i']: the handler asks for case-insensitive matching. *)
Definition options : string := "i".

Definition regexOpt (pat : string) (v : option string) : bool :=
  match v with Some s => regexTest pat options s | None => false end.

(** A [$regex] only matches a string value. *)
Definition regexValue (pat : string) (v : Value) : bool :=
  match v with VStr s => regexTest pat options s | _ => false end.

Definition eqOpt (want : string) (v : option string) : bool :=
  match v with Some s => (s =? want)%string | None => false end.

Definition eqValue (want : string) (v : Value) : bool :=
  match v with VStr s => (s =? want)%string | _ => false end.

(** [$gte] and [$lte] against a numeric operand; a value of another
    type never matches, and a NaN operand matches only NaN. *)
Definition gteNum (bound : float) (x : float) : bool := (bound <=? x)%float.
Definition lteNum (bound : float) (x : float) : bool := (x <=? bound)%float.

Definition gteInt (bound : option Z) (x : float) : bool :=
  match bound with
  | Some n => gteNum (JS.floatOfZ n) x
  | None => is_nan x
  end.

Definition lteInt (bound : option Z) (x : float) : bool :=
  match bound with
  | Some n => lteNum (JS.floatOfZ n) x
  | None => is_nan x
  end.

Definition gteValue (bound : option Z) (v : Value) : bool :=
  match v with VNum x => gteInt bound x | _ => false end.

(** [$in] on an array path: some element is one of the operands. *)
Definition inAny (wanted : list string) (have : list string) : bool :=
  existsb (fun a => existsb (String.eqb a) wanted) have.

(** A key of the filter that is absent constrains nothing. *)
Definition whenSet {A} (key : option A) (test : A -> bool) : bool :=
  match key with Some k => test k | None => true end.

(** Whether a stored property satisfies the filter: the keys of a
    filter object are conjoined, the members of [$or] disjoined. *)
Definition matches (f : Filter) (p : Property.t) : bool :=
  (Property.status p =? status_eq f)%string
  && whenSet (or_regex f) (fun pat =>
       regexTest pat options (Property.title p)
       || regexOpt pat (Property.description p)
       || regexValue pat (Property.location p))
  && whenSet (city_regex f) (fun pat => regexOpt pat (Property.city p))
  && whenSet (propertyType_eq f) (fun s => eqOpt s (Property.propertyType p))
  && whenSet (price_gte f) (fun b => gteNum b (Property.price p))
  && whenSet (price_lte f) (fun b => lteNum b (Property.price p))
  && whenSet (bedrooms_gte f) (fun b => gteValue b (Property.bedrooms p))
  && whenSet (furnishing_eq f) (fun s => eqValue s (Property.furnishing p))
  && whenSet (possession_eq f) (fun s => eqOpt s (Property.possession p))
  && whenSet (area_gte f) (fun b =>
       match Property.area p with Some a => gteInt b a | None => false end)
  && whenSet (area_lte f) (fun b =>
       match Property.area p with Some a => lteInt b a | None => false end)
  && whenSet (amenities_in f) (fun l => inAny l (Property.amenities p)).

End Matching.

(** The value a sort key reads; a key the record does not carry, or an
    array, reads as missing. *)
Definition optStr (o : option string) : Value :=
  match o with Some s => VStr s | None => VUndefined end.

Definition sortKey (field : string) (p : Property.t) : Value :=
  if (field =? "createdAt")%string then VDate (Property.createdAt p)
  else if (field =? "price")%string then VNum (Property.price p)
  else if (field =? "title")%string then VStr (Property.title p)
  else if (field =? "area")%string then
    match Property.area p with Some a => VNum a | None => VUndefined end
  else if (field =? "bedrooms")%string then Property.bedrooms p
  else if (field =? "city")%string then optStr (Property.city p)
  else if (field =? "status")%string then VStr (Property.status p)
  else if (field =? "propertyType")%string then optStr (Property.propertyType p)
  else if (field =? "possession")%string then optStr (Property.possession p)
  else if (field =? "description")%string then optStr (Property.description p)
  else if (field =? "location")%string then Property.location p
  else if (field =? "furnishing")%string then Property.furnishing p
  else if (field =? "isFeatured")%string then Property.isFeatured p
  else VUndefined.

(** The engine's comparison order across types. *)
Definition typeRank (v : Value) : Z :=
  match v with
  | VUndefined => 0
  | VNum _ => 1
  | VStr _ => 2
  | VObject => 3
  | VBool _ => 4
  | VDate _ => 5
  end.

Definition valueLe (a b : Value) : bool :=
  match a, b with
  | VNum x, VNum y =>
      if is_nan x then true else if is_nan y then false else (x <=? y)%float
  | VStr s, VStr u => String.leb s u
  | VBool x, VBool y => implb x y
  | VDate t, VDate u => t <=? u
  | _, _ => typeRank a <=? typeRank b
  end.

(** [sortObj[sort] = sortOrder]: ascending for 1, descending for -1. *)
Definition sortLe (field : string) (sortOrder : Z) (a b : Property.t) : bool :=
  if sortOrder =? 1 then valueLe (sortKey field a) (sortKey field b)
  else valueLe (sortKey field b) (sortKey field a).

(** The body of a listing reply; a NaN number is serialised as null. *)
Record Listing : Type := mkListing {
  count : Z;
  total : Z;
  totalPages : option Z;
  currentPage : option Z;
  data : list Property.t
}.

(** [Math.ceil(total / perPage)]; a division by 0 or by NaN gives no
    finite number. *)
Definition ceilDiv (total : Z) (perPage : option Z) : option Z :=
  match perPage with
  | Some n => if n =? 0 then None else Some (- ((- total) / n))
  | None => None
  end.

(** [(currentPage - 1) * perPage] *)
Definition skipOf (currentPage perPage : option Z) : option Z :=
  match currentPage, perPage with
  | Some c, Some n => Some ((c - 1) * n)
  | _, _ => None
  end.

Section Handlers.
Variable regexTest : string -> string -> string -> bool.

(** The two awaited calls of [getProperties].  [populate('owner', ...)]
    decorates the documents found and selects none; it is left out. *)
Definition runListing (q : Query.t) (docs : list Property.t) : Result Listing :=
  let query := buildQuery q in
  let sortOrder := if (JS.orDefault (Query.order q) "desc" =? "desc")%string then -1 else 1 in
  let sort := JS.orDefault (Query.sort q) "createdAt" in
  let currentPage := JS.parseInt (JS.orDefault (Query.page q) "1") in
  let perPage := JS.parseInt (JS.orDefault (Query.limit q) "12") in
  let skip := skipOf currentPage perPage in
  f <- castFilter query ;;
  properties <-
    Mongo.skipLimit skip perPage
      (Mongo.sort (sortLe sort sortOrder) (Mongo.find (matches regexTest f) docs)) ;;
  let total := Mongo.countDocuments (matches regexTest f) docs in
  Ok {| count := Z.of_nat (List.length properties);
        total := total;
        totalPages := ceilDiv total perPage;
        currentPage := currentPage;
        data := properties |}.

Definition getProperties (q : Query.t) (db : Db) : Reply Listing :=
  match runListing q (properties db) with
  | Ok l => mkReply 200 (Envelope true None (Some l))
  | Throw _ => failure 500 "Error fetching properties"
  end.

End Handlers.

(** [Property.findById(id)]: the id is cast first. *)
Definition findById (id : string) (docs : list Property.t) : Result (option Property.t) :=
  i <- castObjectId "_id" id ;;
  Ok (Mongo.findOne (fun p => (Property._id p =? i)%string) docs).

(** [req.body] of an update, a JSON object: one key for every path of
    [Property.t] but [_id], which the engine does not let an update
    change.  A key that is [None] is not in the body; for a path that may
    be empty, [Some None] sends [null] ([owner := Some None] is
    [owner: null]).  A number that is NaN stands for a value that does not
    cast to a Number. *)
Record Patch : Type := mkPatch {
  set_title : option string;
  set_description : option (option string);
  set_propertyType : option (option string);
  set_city : option (option string);
  set_location : option Value;
  set_bedrooms : option Value;
  set_area : option (option float);
  set_price : option float;
  set_amenities : option (list string);
  set_possession : option (option string);
  set_furnishing : option Value;
  set_isFeatured : option Value;
  set_owner : option (option Property.OwnerRef);
  set_status : option string;
  set_createdAt : option Z
}.

Definition setOr {A} (new : option A) (old : A) : A :=
  match new with Some v => v | None => old end.

Definition applyPatch (b : Patch) (p : Property.t) : Property.t :=
  {| Property._id := Property._id p;
     Property.title := setOr (set_title b) (Property.title p);
     Property.description := setOr (set_description b) (Property.description p);
     Property.propertyType := setOr (set_propertyType b) (Property.propertyType p);
     Property.city := setOr (set_city b) (Property.city p);
     Property.location := setOr (set_location b) (Property.location p);
     Property.bedrooms := setOr (set_bedrooms b) (Property.bedrooms p);
     Property.area := setOr (set_area b) (Property.area p);
     Property.price := setOr (set_price b) (Property.price p);
     Property.amenities := setOr (set_amenities b) (Property.amenities p);
     Property.possession := setOr (set_possession b) (Property.possession p);
     Property.furnishing := setOr (set_furnishing b) (Property.furnishing p);
     Property.isFeatured := setOr (set_isFeatured b) (Property.isFeatured p);
     Property.owner := setOr (set_owner b) (Property.owner p);
     Property.status := setOr (set_status b) (Property.status p);
     Property.createdAt := setOr (set_createdAt b) (Property.createdAt p) |}.

(** [findByIdAndUpdate(id, body, { new: true, runValidators: true })]:
    the update is cast (a number that is NaN is refused), the validators
    of the paths it sets run (a title may not be empty), then the document
    is replaced.  Returns the collection and the updated document. *)
Definition findByIdAndUpdate (id : string) (b : Patch) (docs : list Property.t)
  : Result (list Property.t * option Property.t) :=
  i <- castObjectId "_id" id ;;
  match set_area b with
  | Some (Some x) => if is_nan x then Throw (CastError "area") else Ok tt
  | _ => Ok tt
  end ;;
  match set_price b with
  | Some x => if is_nan x then Throw (CastError "price") else Ok tt
  | None => Ok tt
  end ;;
  match set_title b with
  | Some "" => Throw (ValidationError "Property" [("title", "Path `title` is required.")])
  | _ => Ok tt
  end ;;
  let hit := fun p => (Property._id p =? i)%string in
  Ok (Mongo.updateOne hit (applyPatch b) docs,
      option_map (applyPatch b) (Mongo.findOne hit docs)).

(** [findByIdAndDelete(id)] *)
Definition findByIdAndDelete (id : string) (docs : list Property.t)
  : Result (list Property.t) :=
  i <- castObjectId "_id" id ;;
  Ok (Mongo.deleteOne (fun p => (Property._id p =? i)%string) docs).

Definition ownerToString (o : Property.OwnerRef) : string :=
  match o with
  | Property.OwnerId i => i
  | Property.OwnerEmbedded => "[object Object]"
  end.

(** [property.owner.toString() !== req.user._id.toString() &&
    req.user.role !== 'admin']; reading [toString] of a missing owner
    throws before the role is looked at. *)
Definition notAuthorized (u : User.t) (p : Property.t) : Result bool :=
  match Property.owner p with
  | None => Throw (TypeError "Cannot read properties of undefined (reading 'toString')")
  | Some o =>
      Ok (negb (ownerToString o =? User._id u)%string
          && negb (User.isAdminRole (User.role u)))%bool
  end.

Definition setProperties (db : Db) (l : list Property.t) : Db :=
  {| users := users db; properties := l;
     favorites := favorites db; contacts := contacts db |}.

(** The [try] block of [updateProperty]: the new state and the reply. *)
Definition tryUpdate (u : User.t) (id : string) (b : Patch) (db : Db)
  : Result (Db * Reply Property.t) :=
  found <- findById id (properties db) ;;
  match found with
  | None => Ok (db, failure 404 "Property not found")
  | Some property =>
      denied <- notAuthorized u property ;;
      if denied then Ok (db, failure 403 "Not authorized to update this property")
      else
        r <- findByIdAndUpdate id b (properties db) ;;
        Ok (setProperties db (fst r),
            mkReply 200 (Envelope true (Some "Property updated successfully") (snd r)))
  end.

Definition updateProperty (u : User.t) (id : string) (b : Patch) (db : Db)
  : Db * Reply Property.t :=
  match tryUpdate u id b db with
  | Ok r => r
  | Throw (ValidationError _ errors) =>
      (db, failure 400 (joinMessages (errorMessages errors)))
  | Throw (CastError _) => (db, failure 400 "Invalid property ID")
  | Throw _ => (db, failure 500 "Error updating property")
  end.

(** The [try] block of [deleteProperty]. *)
Definition tryDelete (u : User.t) (id : string) (db : Db) : Result (Db * Reply unit) :=
  found <- findById id (properties db) ;;
  match found with
  | None => Ok (db, failure 404 "Property not found")
  | Some property =>
      denied <- notAuthorized u property ;;
      if denied then Ok (db, failure 403 "Not authorized to delete this property")
      else
        l <- findByIdAndDelete id (properties db) ;;
        Ok (setProperties db l,
            mkReply 200 (Envelope true (Some "Property deleted successfully") None))
  end.

Definition deleteProperty (u : User.t) (id : string) (db : Db) : Db * Reply unit :=
  match tryDelete u id db with
  | Ok r => r
  | Throw (CastError _) => (db, failure 400 "Invalid property ID")
  | Throw _ => (db, failure 500 "Error deleting property")
  end.

(** The filter [{ status: 'active', isFeatured: true }]. *)
Definition featured (p : Property.t) : bool :=
  ((Property.status p =? "active")%string
   && match Property.isFeatured p with VBool true => true | _ => false end)%bool.

Record Featured : Type := mkFeatured {
  featuredCount : Z;
  featuredData : list Property.t
}.

Definition getFeaturedProperties (db : Db) : Reply Featured :=
  let properties :=
    Mongo.limit 8 (Mongo.sort (sortLe "createdAt" (-1)) (Mongo.find featured (properties db))) in
  mkReply 200 (Envelope true None
    (Some {| featuredCount := Z.of_nat (List.length properties);
             featuredData := properties |})).

End PropertyController.

(* ================================================================== *)
(** ** utils/helpers.js *)
(* ================================================================== *)

Module Helpers.

Record Pagination : Type := mkPagination {
  currentPage : float;
  perPage : float;
  skip : float
}.

(** [getPagination(page = 1, limit = 10)], in the doubles the code
    computes with. *)
Definition getPagination (page limit : JS.field) : Pagination :=
  let currentPage := JS.mathMax 1 (JS.number (JS.parseInt (JS.orDefault page "1"))) in
  let perPage :=
    JS.mathMin 50 (JS.mathMax 1 (JS.number (JS.parseInt (JS.orDefault limit "10")))) in
  {| currentPage := currentPage;
     perPage := perPage;
     skip := ((currentPage - 1) * perPage)%float |}.

End Helpers.

(* ================================================================== *)
(** ** controllers/favoriteController.js *)
(* ================================================================== *)

Module FavoriteController.

Definition setFavorites (db : Db) (l : list Favorite.t) : Db :=
  {| users := users db; properties := properties db;
     favorites := l; contacts := contacts db |}.

(** The filter [{ user, property }]. *)
Definition isPair (u p : ObjectId) (f : Favorite.t) : bool :=
  ((Favorite.user f =? u)%string && (Favorite.property f =? p)%string)%bool.

(** The filter [{ user }]. *)
Definition ofUser (u : ObjectId) (f : Favorite.t) : bool :=
  (Favorite.user f =? u)%string.

(** [Favorite.create(doc)]: the [maxlength] validator of [notes], then
    the insert, which the unique index on (user, property) can refuse. *)
Definition create (f : Favorite.t) (docs : list Favorite.t) : Result (list Favorite.t) :=
  match Favorite.notes f with
  | Some n =>
      if (500 <? String.length n)%nat
      then Throw (ValidationError "Favorite" [("notes", "Notes cannot exceed 500 characters")])
      else Ok tt
  | None => Ok tt
  end ;;
  if existsb (isPair (Favorite.user f) (Favorite.property f)) docs
  then Throw DuplicateKey
  else Ok (docs ++ [f])%list.

(** [getFavorites]: the user's favorites, newest first. *)
Definition getFavorites (u : User.t) (db : Db) : Reply (list Favorite.t) :=
  let favs :=
    Mongo.sort (fun a b => Favorite.addedAt b <=? Favorite.addedAt a)
               (Mongo.find (ofUser (User._id u)) (favorites db)) in
  mkReply 200 (Envelope true None (Some favs)).

(** The [try] block of [addFavorite]; [now] is the clock's [Date.now]. *)
Definition tryAdd (u : User.t) (propertyId : string) (notes : option string)
           (now : Z) (db : Db) : Result (Db * Reply Favorite.t) :=
  found <- PropertyController.findById propertyId (properties db) ;;
  match found with
  | None => Ok (db, failure 404 "Property not found")
  | Some _ =>
      pid <- castObjectId "property" propertyId ;;
      match Mongo.findOne (isPair (User._id u) pid) (favorites db) with
      | Some _ => Ok (db, failure 400 "Property already in favorites")
      | None =>
          let favorite :=
            {| Favorite.user := User._id u; Favorite.property := pid;
               Favorite.addedAt := now; Favorite.notes := notes |} in
          l <- create favorite (favorites db) ;;
          Ok (setFavorites db l,
              mkReply 201 (Envelope true (Some "Property added to favorites") (Some favorite)))
      end
  end.

Definition addFavorite (u : User.t) (propertyId : string) (notes : option string)
           (now : Z) (db : Db) : Db * Reply Favorite.t :=
  match tryAdd u propertyId notes now db with
  | Ok r => r
  | Throw DuplicateKey => (db, failure 400 "Property already in favorites")
  | Throw _ => (db, failure 500 "Error adding to favorites")
  end.

(** [Favorite.findOneAndDelete({ user, property })] *)
Definition findOneAndDelete (u : ObjectId) (propertyId : string) (docs : list Favorite.t)
  : Result (list Favorite.t * option Favorite.t) :=
  pid <- castObjectId "property" propertyId ;;
  Ok (Mongo.deleteOne (isPair u pid) docs, Mongo.findOne (isPair u pid) docs).

Definition removeFavorite (u : User.t) (propertyId : string) (db : Db) : Db * Reply unit :=
  match findOneAndDelete (User._id u) propertyId (favorites db) with
  | Ok (l, Some _) =>
      (setFavorites db l,
       mkReply 200 (Envelope true (Some "Property removed from favorites") None))
  | Ok (_, None) => (db, failure 404 "Favorite not found")
  | Throw _ => (db, failure 500 "Error removing from favorites")
  end.

(** [checkFavorite]: the payload is [isFavorite]. *)
Definition checkFavorite (u : User.t) (propertyId : string) (db : Db) : Reply bool :=
  match castObjectId "property" propertyId with
  | Ok pid =>
      mkReply 200 (Envelope true None
        (Some (existsb (isPair (User._id u) pid) (favorites db))))
  | Throw _ => failure 500 "Error checking favorite status"
  end.

(** The decimal numeral a template literal prints for an integer. *)
Definition showZ (n : Z) : string :=
  DecimalString.NilZero.string_of_int (Z.to_int n).

Definition clearAllFavorites (u : User.t) (db : Db) : Db * Reply unit :=
  let (l, deletedCount) := Mongo.deleteMany (ofUser (User._id u)) (favorites db) in
  (setFavorites db l,
   mkReply 200 (Envelope true (Some ("Cleared " ++ showZ deletedCount ++ " favorites")) None)).

End FavoriteController.

(* ================================================================== *)
(** ** models/User.js and models/Contact.js as the routes use them *)
(* ================================================================== *)

Module UserModel.

(** [User.findOne({ email })]: the filter value goes through the setters
    of the path; [undefined] matches no document. *)
Definition findOneByEmail (email : JS.field) (docs : list User.t) : option User.t :=
  match email with
  | Some e => Mongo.findOne (fun u => (User.email u =? User.emailSetter e)%string) docs
  | None => None
  end.

(** [User.findOne({ googleId })] *)
Definition findOneByGoogleId (gid : string) (docs : list User.t) : option User.t :=
  Mongo.findOne
    (fun u => match User.googleId u with
              | Some g => (g =? gid)%string
              | None => false
              end) docs.

(** The setters and defaults applied when a document is built. *)
Definition normalize (u : User.t) : User.t :=
  {| User._id := User._id u;
     User.googleId := User.googleId u;
     User.name := JS.trim (User.name u);
     User.email := User.emailSetter (User.email u);
     User.password := User.password u;
     User.avatar := match User.avatar u with None => Some "" | a => a end;
     User.provider := User.provider u;
     User.role := User.role u;
     User.lastLogin := User.lastLogin u |}.

Definition requiredErrors (u : User.t) : list (string * string) :=
  (if (User.name u =? "")%string then [("name", "Path `name` is required.")] else [])
  ++ (if (User.email u =? "")%string then [("email", "Path `email` is required.")] else []).

Definition sameGoogleId (a b : User.t) : bool :=
  match User.googleId a, User.googleId b with
  | Some x, Some y => (x =? y)%string
  | _, _ => false
  end.

(** [User.create(doc)]: setters, validators, then the insert under the
    unique indexes on [email] and (sparse) [googleId]. *)
Definition create (doc : User.t) (docs : list User.t) : Result (list User.t * User.t) :=
  let u := normalize doc in
  match requiredErrors u with
  | [] =>
      if existsb (fun v => (User.email v =? User.email u)%string || sameGoogleId v u)%bool docs
      then Throw DuplicateKey
      else Ok ((docs ++ [u])%list, u)
  | errors => Throw (ValidationError "User" errors)
  end.

(** [doc.save()] of a loaded document: the stored document with the same
    [_id] is replaced. *)
Definition save (u : User.t) (docs : list User.t) : list User.t :=
  Mongo.updateOne (fun v => (User._id v =? User._id u)%string) (fun _ => u) docs.

End UserModel.

Module ContactModel.

(** [req.body] of the contact route, a JSON object, as the paths of
    [contactSchema] read it, its keys taken in the order of the schema.  A
    [createdAt] of [null] is [Cast None].  The schema is not strict: a key
    outside it is stored too, and is not followed here. *)
Record Body : Type := mkBody {
  name : Sent string;
  email : Sent string;
  phone : Sent string;
  subject : Sent string;
  message : Sent string;
  propertyInterest : Sent string;
  createdAt : Sent (option Z)
}.

Definition given {T} (v : Sent T) : option T :=
  match v with
  | Cast x => Some x
  | _ => None
  end.

Definition castError {T} (path : string) (v : Sent T) : list (string * string) :=
  match v with
  | NoCast reason => [(path, reason)]
  | _ => []
  end.

Definition requiredMessage (path : string) : list (string * string) :=
  [(path, "Path `" ++ path ++ "` is required.")].

(** The [required] validator on a path that was never set. *)
Definition unset (path : string) (v : Sent string) : list (string * string) :=
  match v with
  | Missing => requiredMessage path
  | _ => []
  end.

(** The [required] validator on a path that was set: a String path may
    not hold the empty string. *)
Definition emptied (path : string) (v : Sent string) : list (string * string) :=
  match v with
  | Cast "" => requiredMessage path
  | _ => []
  end.

(** The cast errors, recorded while the document is built. *)
Definition castErrors (b : Body) : list (string * string) :=
  (castError "name" (name b) ++ castError "email" (email b)
   ++ castError "phone" (phone b) ++ castError "subject" (subject b)
   ++ castError "message" (message b)
   ++ castError "propertyInterest" (propertyInterest b)
   ++ castError "createdAt" (createdAt b))%list.

(** The required paths that were never set; the schema lists its required
    paths last to first. *)
Definition unsetErrors (b : Body) : list (string * string) :=
  (unset "message" (message b) ++ unset "email" (email b) ++ unset "name" (name b))%list.

(** The validators of the paths that were set. *)
Definition setErrors (b : Body) : list (string * string) :=
  (emptied "name" (name b) ++ emptied "email" (email b)
   ++ emptied "message" (message b))%list.

(** [error.errors] of the ValidationError, in the order the entries are
    added. *)
Definition errors (b : Body) : list (string * string) :=
  (castErrors b ++ unsetErrors b ++ setErrors b)%list.

(** [Contact.create(req.body)]: [createdAt] defaults to the clock when
    the body has no such key. *)
Definition create (b : Body) (now : Z) (docs : list Contact.t) : Result (list Contact.t) :=
  match errors b with
  | [] =>
      Ok (docs ++ [ {| Contact.name := JS.orDefault (given (name b)) "";
                       Contact.email := JS.orDefault (given (email b)) "";
                       Contact.phone := given (phone b);
                       Contact.subject := given (subject b);
                       Contact.message := JS.orDefault (given (message b)) "";
                       Contact.propertyInterest := given (propertyInterest b);
                       Contact.createdAt :=
                         match createdAt b with
                         | Cast t => t
                         | _ => Some now
                         end |} ])%list
  | errors => Throw (ValidationError "Contact" errors)
  end.

End ContactModel.

(* ================================================================== *)
(** ** server.js: authentication and contact routes *)
(* ================================================================== *)

(** What bcrypt reads of a password: its first 72 bytes. *)
Definition bcryptKey (password : string) : string := substring 0 72 password.

(** The two calls made into the bcrypt library.  [hash] takes the salt the
    library draws for the call. *)
Class Bcrypt : Type := {
  hash : string -> string -> string;
  compare : string -> string -> bool
}.

Module Server.

(** The environment the server starts in.  [mongoUri]: whether
    [process.env.MONGODB_URI] is set; the models are loaded only then, and
    [User] and [Contact] are [undefined] otherwise.  [googleOAuth]: whether
    [GOOGLE_CLIENT_ID] and [GOOGLE_CLIENT_SECRET] are both set; the block
    that registers the strategy, the session serializers and the
    [passport.initialize()] and [passport.session()] middleware runs only
    then. *)
Record Config : Type := mkConfig {
  mongoUri : bool;
  googleOAuth : bool
}.

Definition setUsers (db : Db) (l : list User.t) : Db :=
  {| users := l; properties := properties db;
     favorites := favorites db; contacts := contacts db |}.

Definition setContacts (db : Db) (l : list Contact.t) : Db :=
  {| users := users db; properties := properties db;
     favorites := favorites db; contacts := l |}.

Fixpoint digitsSum (s : string) : Z :=
  match s with
  | EmptyString => 0
  | String c r =>
      match JS.decDigit c with
      | Some d => d + digitsSum r
      | None => digitsSum r
      end
  end.

(** [calculateEmailDigitsSum(email).totalDigitsSum] *)
Definition calculateEmailDigitsSum (email : string) : Z := digitsSum email.

Record Credentials : Type := mkCredentials {
  name : JS.field;
  email : JS.field;
  password : JS.field
}.

Section Passwords.
Context {B : Bcrypt}.

(** [hashPassword]: [bcrypt.hash(password, 12)]. *)
Definition hashPassword (password salt : string) : string := hash password salt.

(** [comparePassword]: bcrypt refuses a missing argument. *)
Definition comparePassword (plain : JS.field) (hashed : string) : Result bool :=
  match plain with
  | Some p => Ok (compare p hashed)
  | None => Throw (DriverError "Error comparing password")
  end.

(** The [try] block of [POST /api/auth/register].  The run time
    supplies the salt, the clock and the new document's id. *)
Definition tryRegister (cfg : Config) (b : Credentials) (salt : string) (now : Z)
           (newId : ObjectId) (db : Db) : Result (Db * Reply (User.t * Z)) :=
  if (negb (JS.truthy (name b)) || negb (JS.truthy (email b))
      || negb (JS.truthy (password b)))%bool
  then Ok (db, failure 400 "Missing fields")
  else if mongoUri cfg then
    match UserModel.findOneByEmail (email b) (users db) with
    | Some _ => Ok (db, failure 400 "Email already exists")
    | None =>
        let hashedPassword := hashPassword (JS.orDefault (password b) "") salt in
        let emailAnalysis := calculateEmailDigitsSum (JS.orDefault (email b) "") in
        r <- UserModel.create
               {| User._id := newId; User.googleId := None;
                  User.name := JS.orDefault (name b) "";
                  User.email := JS.orDefault (email b) "";
                  User.password := Some hashedPassword;
                  User.avatar := None; User.provider := User.manual;
                  User.role := User.user; User.lastLogin := now |}
               (users db) ;;
        Ok (setUsers db (fst r),
            mkReply 201 (Envelope true (Some "Registration successful")
                           (Some (snd r, emailAnalysis))))
    end
  else Ok (db, failure 500 "Database not connected").

Definition register (cfg : Config) (b : Credentials) (salt : string) (now : Z)
           (newId : ObjectId) (db : Db) : Db * Reply (User.t * Z) :=
  match tryRegister cfg b salt now newId db with
  | Ok r => r
  | Throw e => (db, failure 500 (exnMessage e))
  end.

Record LoginData : Type := mkLoginData {
  id : ObjectId;
  loginName : string;
  loginEmail : string;
  loginAvatar : option string;
  emailAnalysis : Z
}.

(** [passport.serializeUser]: the session keeps the id only. *)
Definition serializeUser (u : User.t) : ObjectId := User._id u.

(** How [req.login] ends in the session layer: the principal is stored,
    or the callback receives an error and the session holds [kept] by then
    (what a failed login leaves in the session is the session layer's
    business, not the route's). *)
Inductive SessionOutcome : Type :=
| Stored
| Refused (kept : option ObjectId).

(** The [try] block of [POST /api/auth/login].  The state it changes is
    the session's principal.  Without the passport middleware the request
    has no [login] method and the call throws. *)
Definition tryLogin (cfg : Config) (b : Credentials) (outcome : SessionOutcome)
           (session : option ObjectId) (db : Db)
  : Result (option ObjectId * Reply LoginData) :=
  if negb (mongoUri cfg) then Ok (session, failure 500 "Database not connected")
  else
    match UserModel.findOneByEmail (email b) (users db) with
    | None => Ok (session, failure 401 "Invalid credentials")
    | Some u =>
        if negb (JS.truthy (User.password u))
        then Ok (session, failure 401 "Invalid credentials")
        else
          isMatch <- comparePassword (password b) (JS.orDefault (User.password u) "") ;;
          if negb isMatch then Ok (session, failure 401 "Invalid credentials")
          else if negb (googleOAuth cfg)
          then Throw (TypeError "req.login is not a function")
          else
            match outcome with
            | Refused kept => Ok (kept, failure 500 "Session error")
            | Stored =>
                Ok (Some (serializeUser u),
                    mkReply 200 (Envelope true None
                      (Some {| id := User._id u; loginName := User.name u;
                               loginEmail := User.email u;
                               loginAvatar := User.avatar u;
                               emailAnalysis :=
                                 calculateEmailDigitsSum (User.email u) |})))
            end
    end.

Definition login (cfg : Config) (b : Credentials) (outcome : SessionOutcome)
           (session : option ObjectId) (db : Db) : option ObjectId * Reply LoginData :=
  match tryLogin cfg b outcome session db with
  | Ok r => r
  | Throw e => (session, failure 500 (exnMessage e))
  end.

End Passwords.

(** The profile passport hands to the verify callback. *)
Record Profile : Type := mkProfile {
  profileId : string;
  displayName : string;
  emails : list string;
  photos : list string
}.

(** [profile.photos[0]?.value] *)
Definition firstPhoto (p : Profile) : option string := hd_error (photos p).

(** [profile.emails[0].value] *)
Definition firstEmail (p : Profile) : Result string :=
  match emails p with
  | e :: _ => Ok e
  | [] => Throw (TypeError "Cannot read properties of undefined (reading 'value')")
  end.

Definition touch (now : Z) (avatar : option string) (u : User.t) : User.t :=
  {| User._id := User._id u; User.googleId := User.googleId u;
     User.name := User.name u; User.email := User.email u;
     User.password := User.password u; User.avatar := avatar;
     User.provider := User.provider u; User.role := User.role u;
     User.lastLogin := now |}.

Definition link (gid : string) (avatar : option string) (u : User.t) : User.t :=
  {| User._id := User._id u; User.googleId := Some gid;
     User.name := User.name u; User.email := User.email u;
     User.password := User.password u; User.avatar := avatar;
     User.provider := User.google; User.role := User.role u;
     User.lastLogin := User.lastLogin u |}.

Definition fromProfile (p : Profile) (email : string) (now : Z) (newId : ObjectId) : User.t :=
  {| User._id := newId; User.googleId := Some (profileId p);
     User.name := displayName p; User.email := email;
     User.password := None; User.avatar := firstPhoto p;
     User.provider := User.google; User.role := User.user;
     User.lastLogin := now |}.

(** The [try] block of the GoogleStrategy verify callback: the new state
    and the user handed to [done]. *)
Definition tryVerify (cfg : Config) (p : Profile) (now : Z) (newId : ObjectId) (db : Db)
  : Result (Db * User.t) :=
  email <- firstEmail p ;;
  if negb (mongoUri cfg) then Throw (DriverError "Database not connected")
  else
    match UserModel.findOneByGoogleId (profileId p) (users db) with
    | Some u =>
        let u' := touch now (firstPhoto p) u in
        Ok (setUsers db (UserModel.save u' (users db)), u')
    | None =>
        match UserModel.findOneByEmail (Some email) (users db) with
        | Some existingUser =>
            let u' := link (profileId p) (firstPhoto p) existingUser in
            Ok (setUsers db (UserModel.save u' (users db)), u')
        | None =>
            r <- UserModel.create (fromProfile p email now newId) (users db) ;;
            Ok (setUsers db (fst r), snd r)
        end
    end.

(** The verify callback: [done(null, user)] is [Ok user], and passport
    then logs that user in; [done(error, null)] is [Throw error]. *)
Definition verify (cfg : Config) (p : Profile) (now : Z) (newId : ObjectId) (db : Db)
  : Db * Result User.t :=
  match tryVerify cfg p now newId db with
  | Ok (db', u) => (db', Ok u)
  | Throw e => (db, Throw e)
  end.

(** [POST /api/contact] *)
Definition contact (cfg : Config) (b : ContactModel.Body) (now : Z) (db : Db)
  : Db * Reply unit :=
  let sent := mkReply 200 (Envelope true (Some "Message sent") None) in
  if mongoUri cfg then
    match ContactModel.create b now (contacts db) with
    | Ok l => (setContacts db l, sent)
    | Throw e => (db, mkReply 500 (ErrorOnly (exnMessage e)))
    end
  else (db, sent).

End Server.

(* ================================================================== *)
(** ** config/passport.js: the strategy module beside the server's own *)
(* ================================================================== *)

Module PassportConfig.

Definition linkOnly (gid : string) (avatar : option string) (u : User.t) : User.t :=
  {| User._id := User._id u; User.googleId := Some gid;
     User.name := User.name u; User.email := User.email u;
     User.password := User.password u; User.avatar := avatar;
     User.provider := User.provider u; User.role := User.role u;
     User.lastLogin := User.lastLogin u |}.

Definition tryVerify (p : Server.Profile) (now : Z) (newId : ObjectId) (db : Db)
  : Result (Db * User.t) :=
  match UserModel.findOneByGoogleId (Server.profileId p) (users db) with
  | Some u => Ok (db, u)
  | None =>
      email <- Server.firstEmail p ;;
      match UserModel.findOneByEmail (Some email) (users db) with
      | Some existingUser =>
          let u' := linkOnly (Server.profileId p) (Server.firstPhoto p) existingUser in
          Ok (Server.setUsers db (UserModel.save u' (users db)), u')
      | None =>
          r <- UserModel.create (Server.fromProfile p email now newId) (users db) ;;
          Ok (Server.setUsers db (fst r), snd r)
      end
  end.

Definition verify (p : Server.Profile) (now : Z) (newId : ObjectId) (db : Db)
  : Db * Result User.t :=
  match tryVerify p now newId db with
  | Ok (db', u) => (db', Ok u)
  | Throw e => (db, Throw e)
  end.

End PassportConfig.

(* ================================================================== *)
(** ** Invariants and sample data *)
(* ================================================================== *)

(** At most one Favorite per (user, property) pair. *)
Definition uniquePairs (l : list Favorite.t) : Prop :=
  NoDup (map (fun f => (Favorite.user f, Favorite.property f)) l).

(** The requester is the property's owner or an admin. *)
Definition mayChange (u : User.t) (p : Property.t) : Prop :=
  (exists o, Property.owner p = Some o
             /\ PropertyController.ownerToString o = User._id u)
  \/ User.role u = User.admin.

(** The contract of the bcrypt library the login route relies on: a hash
    is a non-empty string, and it verifies against exactly the candidates
    that agree with the hashed password on the bytes bcrypt reads. *)
Class BcryptSpec (B : Bcrypt) : Prop := {
  hash_nonempty : forall password salt, hash password salt <> "";
  compare_hash : forall password salt candidate,
      compare candidate (hash password salt) = true
      <-> bcryptKey candidate = bcryptKey password
}.

(** What the listing endpoint promises about a returned property, one
    conjunct per filter of the request; a parameter is supplied when it is
    present and not empty. *)
Module Spec.

Section Listing.
Variable regexTest : string -> string -> string -> bool.

Definition searchHolds (q : Query.t) (p : Property.t) : Prop :=
  forall s, Query.search q = Some s -> s <> "" ->
    regexTest s "i" (Property.title p) = true
    \/ (exists d, Property.description p = Some d /\ regexTest s "i" d = true)
    \/ (exists x, Property.location p = VStr x /\ regexTest s "i" x = true).

Definition cityHolds (q : Query.t) (p : Property.t) : Prop :=
  forall s, Query.location q = Some s -> s <> "" ->
    exists c, Property.city p = Some c /\ regexTest s "i" c = true.

Definition exactHolds (q : Query.t) (p : Property.t) : Prop :=
  (forall s, Query.propertyType q = Some s -> s <> "" ->
     Property.propertyType p = Some s)
  /\ (forall s, Query.furnishing q = Some s -> s <> "" ->
     Property.furnishing p = VStr s)
  /\ (forall s, Query.possession q = Some s -> s <> "" ->
     Property.possession p = Some s).

Definition bedroomsHolds (q : Query.t) (p : Property.t) : Prop :=
  forall s n, Query.bedrooms q = Some s -> JS.parseInt s = Some n ->
    exists x, Property.bedrooms p = VNum x /\ (JS.floatOfZ n <=? x)%float = true.

Definition amenitiesHolds (q : Query.t) (p : Property.t) : Prop :=
  (forall s, Query.amenities q = Some (Query.one s) -> s <> "" ->
     In s (Property.amenities p))
  /\ (forall l, Query.amenities q = Some (Query.many l) ->
     exists a, In a l /\ In a (Property.amenities p)).

Definition priceHolds (q : Query.t) (p : Property.t) : Prop :=
  (forall s, Query.minPrice q = Some s -> s <> "" ->
     (JS.parseFloat s * 10000000 <=? Property.price p)%float = true)
  /\ (forall s, Query.maxPrice q = Some s -> s <> "" ->
     (Property.price p <=? JS.parseFloat s * 10000000)%float = true).

Definition areaHolds (q : Query.t) (p : Property.t) : Prop :=
  (forall s n, Query.minArea q = Some s -> JS.parseInt s = Some n ->
     exists a, Property.area p = Some a /\ (JS.floatOfZ n <=? a)%float = true)
  /\ (forall s n, Query.maxArea q = Some s -> JS.parseInt s = Some n ->
     exists a, Property.area p = Some a /\ (a <=? JS.floatOfZ n)%float = true).

(** Active and priced within [10000000, 20000000]. *)
Definition activeOneToTwoCrore (p : Property.t) : bool :=
  ((Property.status p =? "active")%string
   && (10000000 <=? Property.price p)%float
   && (Property.price p <=? 20000000)%float)%bool.

Definition meetsFilters (q : Query.t) (p : Property.t) : Prop :=
  Property.status p = "active"
  /\ searchHolds q p /\ cityHolds q p /\ exactHolds q p
  /\ bedroomsHolds q p /\ amenitiesHolds q p
  /\ priceHolds q p /\ areaHolds q p.

End Listing.

End Spec.

(** A small database the statements below are exercised on. *)
Module Sample.

Definition aliceId : ObjectId := "aaaaaaaaaaaaaaaaaaaaaaaa".
Definition bobId : ObjectId := "bbbbbbbbbbbbbbbbbbbbbbbb".
Definition flatId : ObjectId := "0123456789abcdef01234567".
Definition villaId : ObjectId := "89abcdef0123456789abcdef".

Definition alice : User.t :=
  {| User._id := aliceId; User.googleId := None; User.name := "Alice";
     User.email := "alice@x.com"; User.password := None;
     User.avatar := Some ""; User.provider := User.manual;
     User.role := User.user; User.lastLogin := 0 |}.

Definition bob : User.t :=
  {| User._id := bobId; User.googleId := Some "g-bob"; User.name := "Bob";
     User.email := "bob@x.com"; User.password := None;
     User.avatar := Some "old.png"; User.provider := User.google;
     User.role := User.user; User.lastLogin := 0 |}.

Definition flat : Property.t :=
  {| Property._id := flatId; Property.title := "Sea view flat";
     Property.description := Some "Two bedroom flat";
     Property.propertyType := Some "apartment";
     Property.city := Some "Mumbai"; Property.location := VStr "Bandra";
     Property.bedrooms := VNum 2; Property.area := Some 900%float;
     Property.price := 15000000%float;
     Property.amenities := ["gym"; "pool"];
     Property.possession := Some "ready";
     Property.furnishing := VStr "furnished";
     Property.isFeatured := VBool true;
     Property.owner := Some (Property.OwnerId aliceId);
     Property.status := "active"; Property.createdAt := 10 |}.

(** A listing that carries no owner. *)
Definition villa : Property.t :=
  {| Property._id := villaId; Property.title := "Hill villa";
     Property.description := None; Property.propertyType := Some "villa";
     Property.city := Some "Pune"; Property.location := VObject;
     Property.bedrooms := VStr "4"; Property.area := None;
     Property.price := 42000000%float; Property.amenities := [];
     Property.possession := None; Property.furnishing := VUndefined;
     Property.isFeatured := VUndefined; Property.owner := None;
     Property.status := "active"; Property.createdAt := 20 |}.

Definition db : Db :=
  {| users := [alice; bob]; properties := [flat; villa];
     favorites := []; contacts := [] |}.

(** A stand-in for the engine's search: the pattern is looked for as a
    prefix, case-insensitively under the option [i]. *)
Definition regexTest (pat opts s : string) : bool :=
  if (opts =? "i")%string
  then JS.startsWith (JS.toLowerCase pat) (JS.toLowerCase s)
  else JS.startsWith pat s.

(** [?minPrice=1&maxPrice=2] *)
Definition oneToTwoCrore : Query.t :=
  {| Query.search := None; Query.location := None; Query.propertyType := None;
     Query.minPrice := Some "1"; Query.maxPrice := Some "2";
     Query.bedrooms := None; Query.furnishing := None;
     Query.possession := None; Query.amenities := None;
     Query.minArea := None; Query.maxArea := None;
     Query.page := None; Query.limit := None;
     Query.sort := None; Query.order := None |}.

(** [?page=0] *)
Definition pageZero : Query.t :=
  {| Query.search := None; Query.location := None; Query.propertyType := None;
     Query.minPrice := None; Query.maxPrice := None;
     Query.bedrooms := None; Query.furnishing := None;
     Query.possession := None; Query.amenities := None;
     Query.minArea := None; Query.maxArea := None;
     Query.page := Some "0"; Query.limit := None;
     Query.sort := None; Query.order := None |}.

(** [?page=p&limit=n] *)
Definition pageOf (p n : string) : Query.t :=
  {| Query.search := None; Query.location := None; Query.propertyType := None;
     Query.minPrice := None; Query.maxPrice := None;
     Query.bedrooms := None; Query.furnishing := None;
     Query.possession := None; Query.amenities := None;
     Query.minArea := None; Query.maxArea := None;
     Query.page := Some p; Query.limit := Some n;
     Query.sort := None; Query.order := None |}.

(** A stand-in for the bcrypt library: the hash is what bcrypt reads of
    the password behind a fixed prefix, whatever the salt. *)
Definition toyBcrypt : Bcrypt :=
  {| hash := fun password _ => "$2b$12$" ++ bcryptKey password;
     compare := fun candidate hashed =>
                  (hashed =? "$2b$12$" ++ bcryptKey candidate)%string |}.

Definition carolId : ObjectId := "cccccccccccccccccccccccc".

(** The body [{ name: "Carol", email: " Carol@X.com", password: "s3cret" }]. *)
Definition carol : Server.Credentials :=
  {| Server.name := Some "Carol"; Server.email := Some " Carol@X.com";
     Server.password := Some "s3cret" |}.

(** A registration under Alice's address, in capitals. *)
Definition impostor : Server.Credentials :=
  {| Server.name := Some "Eve"; Server.email := Some "ALICE@X.COM";
     Server.password := Some "hunter2" |}.

(** The Google profile of Bob, with a new photo. *)
Definition bobProfile : Server.Profile :=
  {| Server.profileId := "g-bob"; Server.displayName := "Bob B.";
     Server.emails := ["bob@x.com"]; Server.photos := ["new.png"] |}.

(** The Google profile of Alice, who registered with a password. *)
Definition aliceProfile : Server.Profile :=
  {| Server.profileId := "g-alice"; Server.displayName := "Alice A.";
     Server.emails := ["Alice@X.com"]; Server.photos := [] |}.

(** The Google profile of somebody new. *)
Definition daveProfile : Server.Profile :=
  {| Server.profileId := "g-dave"; Server.displayName := " Dave ";
     Server.emails := ["Dave@X.com"]; Server.photos := ["dave.png"] |}.

(** The body [{}] of an update. *)
Definition noChange : PropertyController.Patch :=
  {| PropertyController.set_title := None;
     PropertyController.set_description := None;
     PropertyController.set_propertyType := None;
     PropertyController.set_city := None;
     PropertyController.set_location := None;
     PropertyController.set_bedrooms := None;
     PropertyController.set_area := None;
     PropertyController.set_price := None;
     PropertyController.set_amenities := None;
     PropertyController.set_possession := None;
     PropertyController.set_furnishing := None;
     PropertyController.set_isFeatured := None;
     PropertyController.set_owner := None;
     PropertyController.set_status := None;
     PropertyController.set_createdAt := None |}.

(** The body [{ owner: null }] of an update. *)
Definition disown : PropertyController.Patch :=
  {| PropertyController.set_title := None;
     PropertyController.set_description := None;
     PropertyController.set_propertyType := None;
     PropertyController.set_city := None;
     PropertyController.set_location := None;
     PropertyController.set_bedrooms := None;
     PropertyController.set_area := None;
     PropertyController.set_price := None;
     PropertyController.set_amenities := None;
     PropertyController.set_possession := None;
     PropertyController.set_furnishing := None;
     PropertyController.set_isFeatured := None;
     PropertyController.set_owner := Some None;
     PropertyController.set_status := None;
     PropertyController.set_createdAt := None |}.

(** The body [{ title: "Renamed" }] of an update. *)
Definition retitle : PropertyController.Patch :=
  {| PropertyController.set_title := Some "Renamed";
     PropertyController.set_description := None;
     PropertyController.set_propertyType := None;
     PropertyController.set_city := None;
     PropertyController.set_location := None;
     PropertyController.set_bedrooms := None;
     PropertyController.set_area := None;
     PropertyController.set_price := None;
     PropertyController.set_amenities := None;
     PropertyController.set_possession := None;
     PropertyController.set_furnishing := None;
     PropertyController.set_isFeatured := None;
     PropertyController.set_owner := None;
     PropertyController.set_status := None;
     PropertyController.set_createdAt := None |}.

(** The body [{ title: "Renamed", createdAt: <day 99> }] of an update. *)
Definition redate : PropertyController.Patch :=
  {| PropertyController.set_title := Some "Renamed";
     PropertyController.set_description := None;
     PropertyController.set_propertyType := None;
     PropertyController.set_city := None;
     PropertyController.set_location := None;
     PropertyController.set_bedrooms := None;
     PropertyController.set_area := None;
     PropertyController.set_price := None;
     PropertyController.set_amenities := None;
     PropertyController.set_possession := None;
     PropertyController.set_furnishing := None;
     PropertyController.set_isFeatured := None;
     PropertyController.set_owner := None;
     PropertyController.set_status := None;
     PropertyController.set_createdAt := Some 99 |}.

(** The body [{ name: "A", email: "a@x.com", message: "hi" }]. *)
Definition message : ContactModel.Body :=
  {| ContactModel.name := Cast "A"; ContactModel.email := Cast "a@x.com";
     ContactModel.phone := Missing; ContactModel.subject := Missing;
     ContactModel.message := Cast "hi";
     ContactModel.propertyInterest := Missing;
     ContactModel.createdAt := Missing |}.

(** The same body without its [message]. *)
Definition noMessage : ContactModel.Body :=
  {| ContactModel.name := Cast "A"; ContactModel.email := Cast "a@x.com";
     ContactModel.phone := Missing; ContactModel.subject := Missing;
     ContactModel.message := Missing;
     ContactModel.propertyInterest := Missing;
     ContactModel.createdAt := Missing |}.

(** The first body with [phone: {}], which does not cast to a string. *)
Definition badPhone : ContactModel.Body :=
  {| ContactModel.name := Cast "A"; ContactModel.email := Cast "a@x.com";
     ContactModel.phone := NoCast "Cast to string failed";
     ContactModel.subject := Missing;
     ContactModel.message := Cast "hi";
     ContactModel.propertyInterest := Missing;
     ContactModel.createdAt := Missing |}.

(** The first body with a [createdAt] of its own. *)
Definition dated : ContactModel.Body :=
  {| ContactModel.name := Cast "A"; ContactModel.email := Cast "a@x.com";
     ContactModel.phone := Missing; ContactModel.subject := Missing;
     ContactModel.message := Cast "hi";
     ContactModel.propertyInterest := Missing;
     ContactModel.createdAt := Cast (Some 3) |}.

(** A server started with the database and the Google credentials. *)
Definition connected : Server.Config :=
  {| Server.mongoUri := true; Server.googleOAuth := true |}.

(** A server started with the database but without Google credentials. *)
Definition withoutGoogle : Server.Config :=
  {| Server.mongoUri := true; Server.googleOAuth := false |}.

(** A server started without a database. *)
Definition offline : Server.Config :=
  {| Server.mongoUri := false; Server.googleOAuth := true |}.

(** Two passwords of 73 bytes that differ in the last one only. *)
Definition seventyTwo : string := string_of_list_ascii (repeat "a"%char 72).

Definition dora : Server.Credentials :=
  {| Server.name := Some "Dora"; Server.email := Some "dora@x.com";
     Server.password := Some (seventyTwo ++ "1") |}.

Definition doraOther : Server.Credentials :=
  {| Server.name := None; Server.email := Some "dora@x.com";
     Server.password := Some (seventyTwo ++ "2") |}.

(** [?search=SEA&propertyType=apartment&minPrice=1&maxPrice=2&bedrooms=2
    &amenities=gym] *)
Definition request : Query.t :=
  {| Query.search := Some "SEA"; Query.location := None;
     Query.propertyType := Some "apartment";
     Query.minPrice := Some "1"; Query.maxPrice := Some "2";
     Query.bedrooms := Some "2"; Query.furnishing := None;
     Query.possession := None; Query.amenities := Some (Query.one "gym");
     Query.minArea := None; Query.maxArea := None;
     Query.page := None; Query.limit := None;
     Query.sort := None; Query.order := None |}.

End Sample.

(* ================================================================== *)
(** ** utils/helpers.js: slugs and validators *)
(* ================================================================== *)

(** Strings are read as sequences of code units below 256. *)
Module Utils.

Definition between (lo hi : nat) (c : ascii) : bool :=
  ((lo <=? nat_of_ascii c) && (nat_of_ascii c <=? hi))%nat.

(** [\d] *)
Definition isDigit (c : ascii) : bool := between 48 57 c.
(** [a-z] and [A-Z] *)
Definition isLower (c : ascii) : bool := between 97 122 c.
Definition isUpper (c : ascii) : bool := between 65 90 c.
(** [\s]: the white space of [JS.isWhite] and the no-break space. *)
Definition isSpace (c : ascii) : bool :=
  (JS.isWhite c || (nat_of_ascii c =? 160)%nat)%bool.
Definition isHyphen (c : ascii) : bool := (c =? "-")%char.

(** [replace(/[^...]/g, '')] for a character class: the characters in the
    class are removed. *)
Fixpoint keepChars (keep : ascii -> bool) (s : string) : string :=
  match s with
  | EmptyString => EmptyString
  | String c r => if keep c then String c (keepChars keep r) else keepChars keep r
  end.

(** [replace(/X+/g, '-')]: every maximal run of characters of the class is
    replaced by one hyphen.  [inRun] tells that the previous character was
    of the class. *)
Fixpoint collapseRuns (cls : ascii -> bool) (inRun : bool) (s : string) : string :=
  match s with
  | EmptyString => EmptyString
  | String c r =>
      if cls c then
        if inRun then collapseRuns cls true r
        else String "-" (collapseRuns cls true r)
      else String c (collapseRuns cls false r)
  end.

(** The class of [/[^a-zA-Z0-9\s]/], complemented. *)
Definition slugKeep (c : ascii) : bool :=
  (isLower c || isUpper c || isDigit c || isSpace c)%bool.

(** [generateSlug(title, id)] *)
Definition generateSlug (title id : string) : string :=
  substring 0 50
    (JS.trim
       (collapseRuns isHyphen false
          (collapseRuns isSpace false
             (keepChars slugKeep (JS.toLowerCase title)))))
  ++ "-" ++ id.

Fixpoint allDigits (s : string) : bool :=
  match s with
  | EmptyString => true
  | String c r => (isDigit c && allDigits r)%bool
  end.

(** [/^[1-9][0-9]{5}$/.test(pincode)] *)
Definition validatePincode (pincode : string) : bool :=
  match pincode with
  | String c r =>
      (between 49 57 c && (String.length r =? 5)%nat && allDigits r)%bool
  | EmptyString => false
  end.

(** The ways [(\+91[\-\s]?)?] can match at the front: what is left. *)
Definition afterCountryCode (s : string) : list string :=
  s :: match s with
       | String c1 (String c2 (String c3 r)) =>
           if ((c1 =? "+")%char && (c2 =? "9")%char && (c3 =? "1")%char)%bool
           then r :: match r with
                     | String c r' => if (isHyphen c || isSpace c)%bool then [r'] else []
                     | EmptyString => []
                     end
           else []
       | _ => []
       end.

(** [[0]?] *)
Definition afterTrunkZero (s : string) : list string :=
  s :: match s with
       | String c r => if (c =? "0")%char then [r] else []
       | EmptyString => []
       end.

(** [(91)?] *)
Definition afterBare91 (s : string) : list string :=
  s :: match s with
       | String c1 (String c2 r) =>
           if ((c1 =? "9")%char && (c2 =? "1")%char)%bool then [r] else []
       | _ => []
       end.

(** [[789]\d{9}$] *)
Definition mobileNumber (s : string) : bool :=
  match s with
  | String c r => (between 55 57 c && (String.length r =? 9)%nat && allDigits r)%bool
  | EmptyString => false
  end.

(** [/^(\+91[\-\s]?)?[0]?(91)?[789]\d{9}$/.test(phone)]: some way of
    matching the three optional parts leaves a mobile number. *)
Definition validatePhone (phone : string) : bool :=
  existsb mobileNumber
    (flat_map afterBare91 (flat_map afterTrunkZero (afterCountryCode phone))).

(** Every character of the string is of the class. *)
Fixpoint allChars (cls : ascii -> bool) (s : string) : bool :=
  match s with
  | EmptyString => true
  | String c r => (cls c && allChars cls r)%bool
  end.

(** No two hyphens stand side by side. *)
Fixpoint noDoubleHyphen (s : string) : bool :=
  match s with
  | String c1 ((String c2 _) as r) =>
      (negb (isHyphen c1 && isHyphen c2) && noDoubleHyphen r)%bool
  | _ => true
  end.

Definition startsWithHyphen (s : string) : bool :=
  match s with
  | String c _ => isHyphen c
  | EmptyString => false
  end.

(** The characters a slug is made of: [a-z], [0-9] and the hyphen. *)
Definition slugChar (c : ascii) : bool :=
  (isLower c || isDigit c || isHyphen c)%bool.

End Utils.

(* ================================================================== *)
(** ** server.js: the email analysis, sessions *)
(* ================================================================== *)

Module EmailDigits.

(** [email.match(/\d+/g) || []]: the maximal runs of digits, in order. *)
Fixpoint numberGroups (s : string) : list string :=
  match s with
  | EmptyString => []
  | String c r =>
      if Utils.isDigit c then
        match r with
        | String c' _ =>
            if Utils.isDigit c' then
              match numberGroups r with
              | g :: gs => String c g :: gs
              | [] => [String c ""]
              end
            else String c "" :: numberGroups r
        | EmptyString => [String c ""]
        end
      else numberGroups r
  end.

(** [numberGroup.split('').map(digit => parseInt(digit))] on a group,
    which holds digits only. *)
Fixpoint digitsOf (g : string) : list Z :=
  match g with
  | EmptyString => []
  | String c r =>
      match JS.decDigit c with
      | Some d => d :: digitsOf r
      | None => digitsOf r
      end
  end.

(** [digits.reduce((sum, digit) => sum + digit, 0)] *)
Definition sumOf (ds : list Z) : Z := fold_left Z.add ds 0.

Record Calculation : Type := mkCalculation {
  numberGroup : string;
  digits : list Z;
  digitsSum : Z;
  calculation : string
}.

(** One entry of [digitCalculations]. *)
Definition calculate (g : string) : Calculation :=
  let ds := digitsOf g in
  {| numberGroup := g;
     digits := ds;
     digitsSum := sumOf ds;
     calculation :=
       String.concat "+" (map FavoriteController.showZ ds)
       ++ " = " ++ FavoriteController.showZ (sumOf ds) |}.

Record Analysis : Type := mkAnalysis {
  hasNumbers : bool;
  groups : list string;
  individualDigits : list Z;
  digitCalculations : list Calculation;
  totalDigitsSum : Z;
  numberGroupCount : Z;
  totalDigitsCount : Z
}.

(** [calculateEmailDigitsSum(email)] with all the fields it returns. *)
Definition calculateEmailDigitsSum (email : string) : Analysis :=
  let numbers := numberGroups email in
  let calcs := map calculate numbers in
  let allDigits := flat_map digits calcs in
  {| hasNumbers := (0 <? List.length numbers)%nat;
     groups := numbers;
     individualDigits := allDigits;
     digitCalculations := calcs;
     totalDigitsSum := fold_left (fun total c => total + digitsSum c) calcs 0;
     numberGroupCount := Z.of_nat (List.length numbers);
     totalDigitsCount := Z.of_nat (List.length allDigits) |}.

End EmailDigits.

Module Session.

(** [User.findById(id)] *)
Definition findById (id : string) (docs : list User.t) : Result (option User.t) :=
  i <- castObjectId "_id" id ;;
  Ok (Mongo.findOne (fun u => (User._id u =? i)%string) docs).

(** [passport.deserializeUser]: the stored user for the id the session
    keeps, [null] when the models are not loaded. *)
Definition deserializeUser (cfg : Server.Config) (id : ObjectId) (db : Db)
  : Result (option User.t) :=
  if Server.mongoUri cfg then findById id (users db) else Ok None.

(** [req.user] of a request: the session's id, deserialized by
    [passport.session()], which the server installs together with the
    Google strategy. *)
Definition principal (cfg : Server.Config) (session : option ObjectId) (db : Db)
  : Result (option User.t) :=
  if Server.googleOAuth cfg then
    match session with
    | Some id => deserializeUser cfg id db
    | None => Ok None
    end
  else Ok None.

(** The body of [GET /api/auth/check] besides [success]. *)
Record Status : Type := mkStatus {
  isAuthenticated : bool;
  user : option (User.t * Z)
}.

(** [GET /api/auth/check] *)
Definition check (reqUser : option User.t) : Reply Status :=
  match reqUser with
  | Some u =>
      mkReply 200 (Envelope true None
        (Some {| isAuthenticated := true;
                 user := Some (u, Server.calculateEmailDigitsSum (User.email u)) |}))
  | None =>
      mkReply 200 (Envelope true None
        (Some {| isAuthenticated := false; user := None |}))
  end.

(** [POST /api/auth/logout]: the session is destroyed. *)
Definition logout (session : option ObjectId) : option ObjectId * Reply unit :=
  (None, mkReply 200 (Envelope true (Some "Logged out") None)).

End Session.

(* ================================================================== *)
(** ** middleware/trackingMiddleware.js *)
(* ================================================================== *)

Module Tracking.

(** What the middleware reads of a request. *)
Record Request : Type := mkRequest {
  userAgent : JS.field;          (* req.headers['user-agent'] *)
  ip : JS.field;                 (* req.ip *)
  remoteAddress : JS.field;      (* req.connection.remoteAddress *)
  reqUser : option User.t;       (* req.user *)
  originalUrl : string
}.

(** A stored [UserInteraction]. *)
Record Interaction : Type := mkInteraction {
  user : ObjectId;
  sessionId : string;
  action : string;
  details : list (string * JS.field)
}.

(** What the middleware changes: [req.session.sessionId] and the
    collection of interactions. *)
Record State : Type := mkState {
  sessionKey : JS.field;
  interactions : list Interaction
}.

(** [a || b] on strings-or-undefined. *)
Definition orElse (a b : JS.field) : JS.field :=
  if JS.truthy a then a else b.

(** A value inside a template literal. *)
Definition show (v : JS.field) : string :=
  match v with Some s => s | None => "undefined" end.

(** Assigning a key of an object literal: an existing key keeps its
    place, a new one goes last. *)
Fixpoint assign (k : string) (v : JS.field) (o : list (string * JS.field))
  : list (string * JS.field) :=
  match o with
  | [] => [(k, v)]
  | (k', v') :: r => if (k' =? k)%string then (k, v) :: r else (k', v') :: assign k v r
  end.

Section Hashing.
(** [crypto.createHash('md5').update(s).digest('hex')] *)
Variable md5 : string -> string.

(** [generateSessionId(req)] at the clock value [now]. *)
Definition generateSessionId (req : Request) (now : Z) : string :=
  let userAgent := JS.orDefault (orElse (userAgent req) (Some "")) "" in
  let ip := orElse (ip req) (remoteAddress req) in
  md5 (userAgent ++ "-" ++ show ip ++ "-" ++ FavoriteController.showZ now).

(** [trackInteraction(req, action, details)].  [saveFails] tells that
    [interaction.save()] rejects; the [catch] block only logs. *)
Definition trackInteraction (req : Request) (action : string)
           (details : list (string * JS.field)) (now : Z) (saveFails : bool)
           (st : State) : State :=
  match reqUser req with
  | None => st
  | Some u =>
      let sessionId :=
        JS.orDefault (orElse (sessionKey st) (Some (generateSessionId req now))) "" in
      let interaction :=
        {| user := User._id u;
           sessionId := sessionId;
           action := action;
           details :=
             assign "ip" (orElse (ip req) (remoteAddress req))
               (assign "userAgent" (userAgent req) details) |} in
      {| sessionKey := Some sessionId;
         interactions :=
           if saveFails then interactions st
           else (interactions st ++ [interaction])%list |}
  end.

(** [trackPageView(pageName)]: the middleware it returns; [next()] is
    called whatever happens. *)
Definition trackPageView (pageName : string) (req : Request) (now : Z)
           (saveFails : bool) (st : State) : State :=
  match reqUser req with
  | Some _ =>
      trackInteraction req "page_view"
        [("page", Some pageName); ("url", Some (originalUrl req))] now saveFails st
  | None => st
  end.

End Hashing.

End Tracking.

(* ================================================================== *)
(** ** Invariants of the collections *)
(* ================================================================== *)

(** No two stored properties, and no two stored users, share an [_id]. *)
Definition uniquePropertyIds (l : list Property.t) : Prop :=
  NoDup (map Property._id l).

Definition uniqueUserIds (l : list User.t) : Prop :=
  NoDup (map User._id l).

(** The unique index on [email]. *)
Definition uniqueEmails (l : list User.t) : Prop :=
  NoDup (map User.email l).

(** The sparse unique index on [googleId]: the ids that are present. *)
Definition googleIds (l : list User.t) : list string :=
  flat_map (fun u => match User.googleId u with Some g => [g] | None => [] end) l.

Definition uniqueGoogleIds (l : list User.t) : Prop :=
  NoDup (googleIds l).

(** An id in the form the cast returns: 24 lowercase hexadecimal digits. *)
Definition validId (i : ObjectId) : Prop :=
  castObjectId "_id" i = Ok i.

(** Sign of a number that is not NaN. *)
Definition signed (s : bool) (x : spec_float) : Prop :=
  match x with
  | S754_zero s' | S754_infinity s' | S754_finite s' _ _ => s' = s
  | S754_nan => False
  end.

(** A key whose value casts, or that is missing. *)
Definition castable {T} (v : Sent T) : bool :=
  match v with
  | NoCast _ => false
  | _ => true
  end.

(** A key that holds a string which is not empty. *)
Definition present (v : Sent string) : bool :=
  match v with
  | Cast s => negb (s =? "")%string
  | _ => false
  end.

(** A contact body with its three required strings and nothing that
    fails to cast. *)
Definition completeContact (b : ContactModel.Body) : bool :=
  (present (ContactModel.name b) && present (ContactModel.email b)
   && present (ContactModel.message b)
   && castable (ContactModel.phone b) && castable (ContactModel.subject b)
   && castable (ContactModel.propertyInterest b)
   && castable (ContactModel.createdAt b))%bool.

(** A body whose numbers cast. *)
Definition castablePatch (b : PropertyController.Patch) : Prop :=
  (forall x, PropertyController.set_price b = Some x -> is_nan x = false)
  /\ (forall x, PropertyController.set_area b = Some (Some x) -> is_nan x = false).

(** A body the cast and the update validators accept. *)
Definition acceptablePatch (b : PropertyController.Patch) : Prop :=
  PropertyController.set_title b <> Some "" /\ castablePatch b.

(** Two user documents that stand for the same account: everything but
    the avatar, the provider tag and the time of the last login agrees. *)
Definition sameAccount (a b : User.t) : Prop :=
  User._id a = User._id b /\ User.googleId a = User.googleId b
  /\ User.name a = User.name b /\ User.email a = User.email b
  /\ User.password a = User.password b /\ User.role a = User.role b.

(** What a login may not alter in a stored user. *)
Definition sameCredentials (a b : User.t) : Prop :=
  User._id a = User._id b /\ User.name a = User.name b
  /\ User.email a = User.email b /\ User.password a = User.password b
  /\ User.role a = User.role b.

(** More sample data. *)
Module Sample2.

(** A stand-in for MD5 that returns its input. *)
Definition md5 (s : string) : string := s.

End Sample2.

(* ================================================================== *)
(** * Properties of the engine *)
(* ================================================================== *)

Section EngineFacts.
Context {A : Type}.
Implicit Types (l : list A) (x : A).

Lemma insertSorted_perm le x l :
  Permutation (Mongo.insertSorted le x l) (x :: l).
Proof.
  induction l as [|y r IH]; simpl.
  - apply Permutation_refl.
  - destruct (le x y).
    + apply Permutation_refl.
    + eapply perm_trans; [apply perm_skip, IH | apply perm_swap].
Qed.

Lemma sort_perm le l : Permutation (Mongo.sort le l) l.
Proof.
  induction l as [|x r IH]; simpl.
  - constructor.
  - eapply perm_trans; [apply insertSorted_perm | apply perm_skip, IH].
Qed.

Lemma sort_In le l x : In x (Mongo.sort le l) <-> In x l.
Proof.
  split; apply Permutation_in;
    [apply sort_perm | apply Permutation_sym, sort_perm].
Qed.

Lemma sort_length le l : List.length (Mongo.sort le l) = List.length l.
Proof. apply Permutation_length, sort_perm. Qed.

Lemma limit_In n l x : In x (Mongo.limit n l) -> In x l.
Proof.
  unfold Mongo.limit. destruct (n =? 0); [tauto|].
  intros H. rewrite <- (firstn_skipn (Z.to_nat (Z.abs n)) l).
  apply in_or_app. now left.
Qed.

Lemma limit_length n l :
  0 < n -> Z.of_nat (List.length (Mongo.limit n l)) <= n.
Proof.
  intros Hn. unfold Mongo.limit.
  destruct (Z.eqb_spec n 0); [lia|].
  pose proof (firstn_le_length (Z.to_nat (Z.abs n)) l). lia.
Qed.

Lemma skipn_In k l x : In x (skipn k l) -> In x l.
Proof.
  intros H. rewrite <- (firstn_skipn k l). apply in_or_app. now right.
Qed.

Lemma skipLimit_In s n l r x :
  Mongo.skipLimit s n l = Ok r -> In x r -> In x l.
Proof.
  unfold Mongo.skipLimit.
  destruct s as [s|]; [|discriminate].
  destruct n as [n|]; [|discriminate].
  destruct (s <? 0); [discriminate|].
  intros E Hx. injection E as <-.
  eapply skipn_In, limit_In, Hx.
Qed.

Lemma find_In f l x : In x (Mongo.find f l) <-> In x l /\ f x = true.
Proof. apply filter_In. Qed.

(** Sorting along a total, transitive order yields a sorted list. *)
Section Sorting.
Variable le : A -> A -> bool.
Hypothesis le_total : forall a b, le a b = false -> le b a = true.
Hypothesis le_trans : forall a b c, le a b = true -> le b c = true -> le a c = true.

Lemma insertSorted_sorted x l :
  StronglySorted (fun a b => le a b = true) l ->
  StronglySorted (fun a b => le a b = true) (Mongo.insertSorted le x l).
Proof.
  induction 1 as [|y r Hs IH Hall]; simpl.
  - constructor; constructor.
  - destruct (le x y) eqn:E.
    + constructor.
      * now constructor.
      * constructor; [exact E|].
        eapply Forall_impl; [|exact Hall].
        intros z Hz. eapply le_trans; [exact E | exact Hz].
    + constructor; [exact IH|].
      apply Forall_forall. intros z Hz.
      apply (Permutation_in _ (insertSorted_perm le x r)) in Hz.
      destruct Hz as [<-|Hz].
      * now apply le_total.
      * rewrite Forall_forall in Hall. now apply Hall.
Qed.

Lemma sort_sorted l : StronglySorted (fun a b => le a b = true) (Mongo.sort le l).
Proof.
  induction l as [|x r IH]; simpl.
  - constructor.
  - now apply insertSorted_sorted.
Qed.
End Sorting.

Lemma StronglySorted_firstn (R : A -> A -> Prop) k l :
  StronglySorted R l -> StronglySorted R (firstn k l).
Proof.
  intros H. revert k.
  induction H as [|y r Hs IH Hall]; intros [|k]; simpl; try constructor.
  - apply IH.
  - apply Forall_forall. intros z Hz.
    rewrite Forall_forall in Hall. apply Hall.
    rewrite <- (firstn_skipn k r). apply in_or_app. now left.
Qed.

Lemma StronglySorted_impl (R S : A -> A -> Prop) l :
  (forall a b, R a b -> S a b) -> StronglySorted R l -> StronglySorted S l.
Proof.
  intros HRS. induction 1 as [|y r Hs IH Hall]; constructor; trivial.
  eapply Forall_impl; [|exact Hall]. intros z. apply HRS.
Qed.

Lemma limit_sorted (R : A -> A -> Prop) n l :
  StronglySorted R l -> StronglySorted R (Mongo.limit n l).
Proof.
  intros H. unfold Mongo.limit. destruct (n =? 0); [exact H|].
  now apply StronglySorted_firstn.
Qed.

Lemma deleteOne_incl f l x : In x (Mongo.deleteOne f l) -> In x l.
Proof.
  induction l as [|y r IH]; simpl; [tauto|].
  destruct (f y); simpl; intuition.
Qed.

End EngineFacts.

(* ================================================================== *)
(** * Featured properties *)
(* ================================================================== *)

Lemma sortLe_createdAt_desc (a b : Property.t) :
  PropertyController.sortLe "createdAt" (-1) a b
  = (Property.createdAt b <=? Property.createdAt a).
Proof. reflexivity. Qed.

Lemma featured_spec (p : Property.t) :
  PropertyController.featured p = true <->
  Property.status p = "active" /\ Property.isFeatured p = VBool true.
Proof.
  unfold PropertyController.featured. rewrite andb_true_iff, String.eqb_eq.
  split; intros [Hs Hf]; split; trivial.
  - destruct (Property.isFeatured p) as [| | |[|]| |]; congruence.
  - now rewrite Hf.
Qed.

(** C10. The featured-properties endpoint always answers 200 with at most
    8 properties; each of them has status 'active' and isFeatured true, the
    reported count is their number, and they are ordered by creation time,
    newest first. *)
Theorem getFeaturedProperties_at_most_8_active_newest_first (db : Db) :
  exists l : PropertyController.Featured,
    PropertyController.getFeaturedProperties db
      = mkReply 200 (Envelope true None (Some l))
    /\ (List.length (PropertyController.featuredData l) <= 8)%nat
    /\ PropertyController.featuredCount l
       = Z.of_nat (List.length (PropertyController.featuredData l))
    /\ Forall (fun p => Property.status p = "active"
                        /\ Property.isFeatured p = VBool true)
              (PropertyController.featuredData l)
    /\ StronglySorted (fun a b => Property.createdAt b <= Property.createdAt a)
                      (PropertyController.featuredData l).
Proof.
  eexists. split; [reflexivity|]. cbn [PropertyController.featuredData
    PropertyController.featuredCount].
  split; [|split; [reflexivity|split]].
  - pose proof (limit_length 8
      (Mongo.sort (PropertyController.sortLe "createdAt" (-1))
         (Mongo.find PropertyController.featured (properties db))) eq_refl).
    lia.
  - apply Forall_forall. intros p Hp.
    apply limit_In, sort_In, find_In in Hp.
    now apply featured_spec.
  - apply limit_sorted.
    apply StronglySorted_impl
      with (R := fun a b => PropertyController.sortLe "createdAt" (-1) a b = true).
    + intros a b. rewrite sortLe_createdAt_desc. apply Z.leb_le.
    + apply sort_sorted.
      * intros a b. rewrite !sortLe_createdAt_desc, Z.leb_gt, Z.leb_le. lia.
      * intros a b c. rewrite !sortLe_createdAt_desc, !Z.leb_le. lia.
Qed.

(* ================================================================== *)
(** * Favorites *)
(* ================================================================== *)

(** C9. Clearing all favorites of a user deletes exactly the Favorite
    records whose user field is the requester's id and reports how many
    were deleted; the favorites of every other user stay, in their order,
    and the User, Property and Contact records are unchanged. *)
Theorem clearAllFavorites_deletes_exactly_own (u : User.t) (db : Db) :
  let db' := fst (FavoriteController.clearAllFavorites u db) in
  let reply := snd (FavoriteController.clearAllFavorites u db) in
  let own := filter (fun f => (Favorite.user f =? User._id u)%string) (favorites db) in
  favorites db'
    = filter (fun f => negb (Favorite.user f =? User._id u)%string) (favorites db)
  /\ (forall f, In f (favorites db') <->
                In f (favorites db) /\ Favorite.user f <> User._id u)
  /\ (List.length (favorites db)
      = List.length (favorites db') + List.length own)%nat
  /\ reply = mkReply 200
       (Envelope true
          (Some ("Cleared "
                 ++ FavoriteController.showZ (Z.of_nat (List.length own))
                 ++ " favorites"))
          None)
  /\ users db' = users db
  /\ properties db' = properties db
  /\ contacts db' = contacts db.
Proof.
  cbv zeta. unfold FavoriteController.clearAllFavorites, Mongo.deleteMany,
    FavoriteController.ofUser. cbn [fst snd FavoriteController.setFavorites
    favorites users properties contacts].
  split; [reflexivity|]. split; [|split; [|repeat split]].
  - intros f. rewrite filter_In, negb_true_iff, String.eqb_neq. tauto.
  - induction (favorites db) as [|f r IH]; simpl; trivial.
    destruct (Favorite.user f =? User._id u)%string; simpl; lia.
Qed.

Lemma isPair_spec u p f :
  FavoriteController.isPair u p f = true <->
  Favorite.user f = u /\ Favorite.property f = p.
Proof.
  unfold FavoriteController.isPair.
  now rewrite andb_true_iff, !String.eqb_eq.
Qed.

Lemma uniquePairs_filter g l : uniquePairs l -> uniquePairs (filter g l).
Proof.
  unfold uniquePairs. induction l as [|f r IH]; simpl; trivial.
  intros H. inversion H as [|? ? Hnin Hnd]; subst.
  destruct (g f); simpl; [constructor|]; auto.
  intros Hin. apply Hnin.
  apply in_map_iff in Hin. destruct Hin as [f' [E Hf']].
  apply in_map_iff. exists f'. split; trivial.
  apply filter_In in Hf'. tauto.
Qed.

Lemma uniquePairs_deleteOne g l : uniquePairs l -> uniquePairs (Mongo.deleteOne g l).
Proof.
  unfold uniquePairs. induction l as [|f r IH]; simpl; trivial.
  intros H. inversion H as [|? ? Hnin Hnd]; subst.
  destruct (g f); simpl; trivial.
  constructor; auto.
  intros Hin. apply Hnin.
  apply in_map_iff in Hin. destruct Hin as [f' [E Hf']].
  apply in_map_iff. exists f'. split; trivial.
  eapply deleteOne_incl, Hf'.
Qed.

Lemma uniquePairs_snoc l f :
  uniquePairs l ->
  existsb (FavoriteController.isPair (Favorite.user f) (Favorite.property f)) l = false ->
  uniquePairs (l ++ [f]).
Proof.
  unfold uniquePairs. intros Hnd Hex.
  rewrite map_app. simpl.
  assert (Hnin : ~ In (Favorite.user f, Favorite.property f)
                      (map (fun f => (Favorite.user f, Favorite.property f)) l)).
  { intros Hin. apply in_map_iff in Hin. destruct Hin as [g [E Hg]].
    injection E as Eu Ep.
    assert (existsb (FavoriteController.isPair (Favorite.user f) (Favorite.property f)) l = true).
    { apply existsb_exists. exists g. split; trivial. now apply isPair_spec. }
    congruence. }
  clear Hex. induction (map (fun f => (Favorite.user f, Favorite.property f)) l) as [|a r IH];
    simpl.
  - constructor; [intros []|constructor].
  - inversion Hnd as [|? ? Ha Hr]; subst. constructor.
    + intros Hin. apply in_app_or in Hin. destruct Hin as [Hin|[E|[]]]; [tauto|].
      apply Hnin. now left.
    + apply IH; trivial. intros Hin. apply Hnin. now right.
Qed.

Lemma create_inserts f l l' :
  FavoriteController.create f l = Ok l' ->
  l' = (l ++ [f])%list
  /\ existsb (FavoriteController.isPair (Favorite.user f) (Favorite.property f)) l = false.
Proof.
  unfold FavoriteController.create.
  destruct (match Favorite.notes f with
            | Some n => if (500 <? String.length n)%nat then _ else _
            | None => _ end) as [[]|e]; cbn [bind]; [|discriminate].
  destruct (existsb _ l) eqn:E; [discriminate|].
  intros H. injection H as <-. now split.
Qed.

Lemma create_uniquePairs f l l' :
  uniquePairs l -> FavoriteController.create f l = Ok l' -> uniquePairs l'.
Proof.
  intros Hu Hc. apply create_inserts in Hc. destruct Hc as [-> Hex].
  now apply uniquePairs_snoc.
Qed.

Lemma findOne_some_iff {A} (g : A -> bool) (l : list A) :
  (exists x, In x l /\ g x = true) -> exists y, Mongo.findOne g l = Some y.
Proof.
  intros [x [Hin Hg]]. unfold Mongo.findOne.
  destruct (List.find g l) eqn:E; [eauto|].
  now rewrite (find_none _ _ E x Hin) in Hg.
Qed.

Lemma findById_found id docs p :
  PropertyController.findById id docs = Ok (Some p) ->
  castObjectId "_id" id = Ok (Property._id p).
Proof.
  unfold PropertyController.findById, castObjectId.
  destruct (_ && _)%bool; cbn [bind]; [|discriminate].
  intros H. injection H as H. apply find_some in H.
  destruct H as [_ H]. apply String.eqb_eq in H. now rewrite H.
Qed.

Lemma castObjectId_path path path' s i :
  castObjectId path s = Ok i -> castObjectId path' s = Ok i.
Proof.
  unfold castObjectId. destruct (_ && _)%bool; [trivial|discriminate].
Qed.

(** C6. When a Favorite for the pair (user, property) exists and the
    property exists, adding it again answers 400 and leaves the database
    as it was; in particular the request that has just succeeded is refused
    when repeated.  Adding, removing and clearing all keep at most one
    Favorite per (user, property) pair. *)
Theorem addFavorite_rejects_duplicate_and_pairs_stay_unique (u : User.t) (db : Db) :
  (forall propertyId notes now p f,
      PropertyController.findById propertyId (properties db) = Ok (Some p) ->
      In f (favorites db) ->
      Favorite.user f = User._id u ->
      Favorite.property f = Property._id p ->
      FavoriteController.addFavorite u propertyId notes now db
      = (db, failure 400 "Property already in favorites"))
  /\ (forall propertyId notes now notes' now',
      status (snd (FavoriteController.addFavorite u propertyId notes now db)) = 201 ->
      let db1 := fst (FavoriteController.addFavorite u propertyId notes now db) in
      FavoriteController.addFavorite u propertyId notes' now' db1
      = (db1, failure 400 "Property already in favorites"))
  /\ (uniquePairs (favorites db) ->
      (forall propertyId notes now,
          uniquePairs (favorites
            (fst (FavoriteController.addFavorite u propertyId notes now db))))
      /\ (forall propertyId,
          uniquePairs (favorites
            (fst (FavoriteController.removeFavorite u propertyId db))))
      /\ uniquePairs (favorites (fst (FavoriteController.clearAllFavorites u db)))).
Proof.
  assert (Hdup : forall db0 propertyId notes now p f,
      PropertyController.findById propertyId (properties db0) = Ok (Some p) ->
      In f (favorites db0) ->
      Favorite.user f = User._id u ->
      Favorite.property f = Property._id p ->
      FavoriteController.addFavorite u propertyId notes now db0
      = (db0, failure 400 "Property already in favorites")).
  { intros db0 propertyId notes now p f Hp Hin Hu Hpr.
    unfold FavoriteController.addFavorite, FavoriteController.tryAdd.
    rewrite Hp. cbn [bind].
    rewrite (castObjectId_path _ "property" _ _ (findById_found _ _ _ Hp)). cbn [bind].
    destruct (findOne_some_iff (FavoriteController.isPair (User._id u) (Property._id p))
                (favorites db0)) as [y ->]; [|reflexivity].
    exists f. split; trivial. now apply isPair_spec. }
  split; [apply Hdup|]. split.
  - intros propertyId notes now notes' now'.
    unfold FavoriteController.addFavorite at 1 2, FavoriteController.tryAdd.
    destruct (PropertyController.findById propertyId (properties db)) as [[p|]|e] eqn:Hp;
      cbn [bind]; try (destruct e; cbn; discriminate); [|cbn; discriminate].
    rewrite (castObjectId_path _ "property" _ _ (findById_found _ _ _ Hp)). cbn [bind].
    destruct (Mongo.findOne _ (favorites db)); [cbn; discriminate|].
    destruct (FavoriteController.create _ (favorites db)) as [l|e] eqn:Hc; cbn [bind];
      [|destruct e; cbn; discriminate].
    intros _. cbn [fst snd].
    apply create_inserts in Hc. destruct Hc as [-> _].
    eapply Hdup with (p := p);
      [exact Hp | apply in_or_app; right; left; reflexivity | reflexivity | reflexivity].
  - intros Hu. split; [|split].
    + intros propertyId notes now.
      unfold FavoriteController.addFavorite, FavoriteController.tryAdd.
      destruct (PropertyController.findById propertyId (properties db)) as [[p|]|e];
        cbn [bind]; try (destruct e; exact Hu); [|exact Hu].
      destruct (castObjectId "property" propertyId) as [pid|e]; cbn [bind];
        [|destruct e; exact Hu].
      destruct (Mongo.findOne _ (favorites db)); [exact Hu|].
      destruct (FavoriteController.create _ (favorites db)) as [l|e] eqn:Hc; cbn [bind];
        [|destruct e; exact Hu].
      cbn. eapply create_uniquePairs; eassumption.
    + intros propertyId. unfold FavoriteController.removeFavorite,
        FavoriteController.findOneAndDelete.
      destruct (castObjectId "property" propertyId) as [pid|e]; cbn [bind]; [|exact Hu].
      destruct (Mongo.findOne _ (favorites db)); [|exact Hu].
      cbn. now apply uniquePairs_deleteOne.
    + unfold FavoriteController.clearAllFavorites, Mongo.deleteMany. cbn.
      now apply uniquePairs_filter.
Qed.

Lemma addFavorite_rejects_duplicate_witness :
  let db1 := fst (FavoriteController.addFavorite Sample.alice Sample.flatId None 1 Sample.db) in
  FavoriteController.addFavorite Sample.alice Sample.flatId (Some "again") 2 db1
  = (db1, failure 400 "Property already in favorites")
  /\ uniquePairs (favorites db1).
Proof.
  destruct (addFavorite_rejects_duplicate_and_pairs_stay_unique Sample.alice Sample.db)
    as [_ [Htwice Hinv]].
  split.
  - apply (Htwice Sample.flatId None 1 (Some "again") 2). reflexivity.
  - apply Hinv. constructor.
Defined.

(* ================================================================== *)
(** * The listing endpoint *)
(* ================================================================== *)

Section ListingFacts.
Variable regexTest : string -> string -> string -> bool.

Lemma castFilter_ok f f' : PropertyController.castFilter f = Ok f' -> f' = f.
Proof.
  unfold PropertyController.castFilter.
  destruct (_ || _)%bool; [discriminate|].
  destruct (_ || _)%bool; [discriminate|].
  congruence.
Qed.

(** A returned property is a stored one that satisfies the built filter. *)
Lemma listing_matches q db l p :
  payload (PropertyController.getProperties regexTest q db) = Some l ->
  In p (PropertyController.data l) ->
  In p (properties db)
  /\ PropertyController.matches regexTest (PropertyController.buildQuery q) p = true.
Proof.
  unfold PropertyController.getProperties.
  destruct (PropertyController.runListing regexTest q (properties db)) as [l'|e] eqn:E;
    [|discriminate].
  cbn. intros H. injection H as ->.
  unfold PropertyController.runListing in E.
  destruct (PropertyController.castFilter _) as [f|e] eqn:Ef; cbn [bind] in E;
    [|discriminate].
  apply castFilter_ok in Ef. subst f.
  destruct (Mongo.skipLimit _ _ _) as [r|e] eqn:Er; cbn [bind] in E; [|discriminate].
  injection E as <-. cbn. intros Hp.
  eapply skipLimit_In in Hp; [|exact Er].
  now apply sort_In, find_In in Hp.
Qed.

Lemma supplied_some v s :
  v = Some s -> s <> "" -> PropertyController.supplied v = Some s.
Proof.
  intros -> Hs. unfold PropertyController.supplied, JS.truthy.
  apply String.eqb_neq in Hs. now rewrite Hs.
Qed.

Lemma truthy_some v s : v = Some s -> s <> "" -> JS.truthy v = true.
Proof.
  intros -> Hs. unfold JS.truthy. apply String.eqb_neq in Hs. now rewrite Hs.
Qed.

Lemma parseInt_nonempty s n : JS.parseInt s = Some n -> s <> "".
Proof. intros H ->. discriminate. Qed.

End ListingFacts.

Section ListingTheorems.
Variable regexTest : string -> string -> string -> bool.

Lemma inAny_exists wanted have :
  PropertyController.inAny wanted have = true ->
  exists a, In a wanted /\ In a have.
Proof.
  unfold PropertyController.inAny. intros H.
  apply existsb_exists in H. destruct H as [a [Ha H]].
  apply existsb_exists in H. destruct H as [b [Hb E]].
  apply String.eqb_eq in E. subst b. eauto.
Qed.

Lemma matches_meetsFilters q p :
  PropertyController.matches regexTest (PropertyController.buildQuery q) p = true ->
  Spec.meetsFilters regexTest q p.
Proof.
  unfold PropertyController.matches, PropertyController.buildQuery.
  cbn [PropertyController.status_eq PropertyController.or_regex
       PropertyController.city_regex PropertyController.propertyType_eq
       PropertyController.price_gte PropertyController.price_lte
       PropertyController.bedrooms_gte PropertyController.furnishing_eq
       PropertyController.possession_eq PropertyController.area_gte
       PropertyController.area_lte PropertyController.amenities_in].
  rewrite !andb_true_iff.
  intros [[[[[[[[[[[Hst Hor] Hcity] Hty] Hpg] Hpl] Hbed] Hfur] Hpos] Hag] Hal] Ham].
  unfold Spec.meetsFilters. repeat apply conj.
  - now apply String.eqb_eq.
  - intros s Hs Hne. rewrite (supplied_some _ _ Hs Hne) in Hor. cbn in Hor.
    rewrite !orb_true_iff in Hor. destruct Hor as [[H|H]|H].
    + now left.
    + right; left. unfold PropertyController.regexOpt in H.
      destruct (Property.description p) as [d|]; [eauto|discriminate].
    + right; right. unfold PropertyController.regexValue in H.
      destruct (Property.location p); try discriminate. eauto.
  - intros s Hs Hne. rewrite (supplied_some _ _ Hs Hne) in Hcity. cbn in Hcity.
    unfold PropertyController.regexOpt in Hcity.
    destruct (Property.city p) as [c|]; [eauto|discriminate].
  - intros s Hs Hne. rewrite (supplied_some _ _ Hs Hne) in Hty. cbn in Hty.
    unfold PropertyController.eqOpt in Hty.
    destruct (Property.propertyType p) as [t|]; [|discriminate].
    apply String.eqb_eq in Hty. now subst.
  - intros s Hs Hne. rewrite (supplied_some _ _ Hs Hne) in Hfur. cbn in Hfur.
    unfold PropertyController.eqValue in Hfur.
    destruct (Property.furnishing p); try discriminate.
    apply String.eqb_eq in Hfur. now subst.
  - intros s Hs Hne. rewrite (supplied_some _ _ Hs Hne) in Hpos. cbn in Hpos.
    unfold PropertyController.eqOpt in Hpos.
    destruct (Property.possession p) as [t|]; [|discriminate].
    apply String.eqb_eq in Hpos. now subst.
  - intros s n Hs Hn.
    rewrite (supplied_some _ _ Hs (parseInt_nonempty _ _ Hn)) in Hbed.
    cbn in Hbed. rewrite Hn in Hbed.
    unfold PropertyController.gteValue in Hbed.
    destruct (Property.bedrooms p) as [|x| | | |]; try discriminate. eauto.
  - intros s Hs Hne. rewrite Hs in Ham. cbn in Ham.
    apply String.eqb_neq in Hne. rewrite Hne in Ham. cbn in Ham.
    apply inAny_exists in Ham. destruct Ham as [a [[<-|[]] Ha]]. exact Ha.
  - intros l Hl. rewrite Hl in Ham. cbn in Ham. now apply inAny_exists.
  - intros s Hs Hne.
    rewrite (truthy_some _ _ Hs Hne), (supplied_some _ _ Hs Hne) in Hpg.
    exact Hpg.
  - intros s Hs Hne.
    rewrite (truthy_some _ _ Hs Hne), orb_true_r, (supplied_some _ _ Hs Hne) in Hpl.
    exact Hpl.
  - intros s n Hs Hn. pose proof (parseInt_nonempty _ _ Hn) as Hne.
    rewrite (truthy_some _ _ Hs Hne), (supplied_some _ _ Hs Hne) in Hag.
    cbn in Hag. rewrite Hn in Hag.
    destruct (Property.area p) as [a|]; [eauto|discriminate].
  - intros s n Hs Hn. pose proof (parseInt_nonempty _ _ Hn) as Hne.
    rewrite (truthy_some _ _ Hs Hne), orb_true_r, (supplied_some _ _ Hs Hne) in Hal.
    cbn in Hal. rewrite Hn in Hal.
    destruct (Property.area p) as [a|]; [eauto|discriminate].
Qed.

End ListingTheorems.

(** C1. Every property on a page returned by the listing endpoint has
    status 'active' and satisfies every supplied filter: search matches the
    title or the description or the location; the city matches location;
    propertyType, furnishing and possession are equal to the requested
    values; bedrooms is a number at least the requested integer; the
    amenity list shares an element with the requested ones, a single value
    standing for a one-element list; price and area lie within the
    requested bounds. *)
Theorem getProperties_page_meets_all_filters
        (regexTest : string -> string -> string -> bool) (q : Query.t) (db : Db)
        (l : PropertyController.Listing) (p : Property.t) :
  payload (PropertyController.getProperties regexTest q db) = Some l ->
  In p (PropertyController.data l) ->
  Spec.meetsFilters regexTest q p.
Proof.
  intros Hl Hp. apply matches_meetsFilters.
  eapply listing_matches; eassumption.
Qed.

Lemma getProperties_page_meets_all_filters_witness :
  exists l,
    payload (PropertyController.getProperties Sample.regexTest Sample.request Sample.db)
    = Some l
    /\ In Sample.flat (PropertyController.data l)
    /\ Spec.meetsFilters Sample.regexTest Sample.request Sample.flat.
Proof.
  eexists. split; [vm_compute; reflexivity|].
  split; [left; reflexivity|].
  eapply (getProperties_page_meets_all_filters Sample.regexTest Sample.request Sample.db).
  - vm_compute. reflexivity.
  - left. reflexivity.
Defined.

Lemma matches_oneToTwoCrore regexTest p :
  PropertyController.matches regexTest
    (PropertyController.buildQuery Sample.oneToTwoCrore) p
  = Spec.activeOneToTwoCrore p.
Proof.
  unfold PropertyController.matches, Spec.activeOneToTwoCrore.
  change (PropertyController.buildQuery Sample.oneToTwoCrore)
    with {| PropertyController.status_eq := "active";
            PropertyController.or_regex := None;
            PropertyController.city_regex := None;
            PropertyController.propertyType_eq := None;
            PropertyController.price_gte := Some 10000000%float;
            PropertyController.price_lte := Some 20000000%float;
            PropertyController.bedrooms_gte := None;
            PropertyController.furnishing_eq := None;
            PropertyController.possession_eq := None;
            PropertyController.area_gte := None;
            PropertyController.area_lte := None;
            PropertyController.amenities_in := None |}.
  cbn. unfold PropertyController.gteNum, PropertyController.lteNum.
  now rewrite !andb_true_r.
Qed.

(** C2. A supplied minPrice or maxPrice is multiplied by 10,000,000 and is
    an inclusive bound on the price of every returned property.  For
    minPrice=1 and maxPrice=2 the endpoint answers with the first page (12
    items, newest first) of exactly the active properties priced within
    [10000000, 20000000], reports their number as the total, and returns
    all of them when they fit the page. *)
Theorem getProperties_price_bounds_in_crore
        (regexTest : string -> string -> string -> bool) (db : Db) :
  (forall q l p,
      payload (PropertyController.getProperties regexTest q db) = Some l ->
      In p (PropertyController.data l) ->
      Spec.priceHolds q p)
  /\ exists l,
      PropertyController.getProperties regexTest Sample.oneToTwoCrore db
      = mkReply 200 (Envelope true None (Some l))
      /\ PropertyController.data l
         = firstn 12 (Mongo.sort (PropertyController.sortLe "createdAt" (-1))
                        (filter Spec.activeOneToTwoCrore (properties db)))
      /\ PropertyController.total l
         = Z.of_nat (List.length (filter Spec.activeOneToTwoCrore (properties db)))
      /\ (forall p, In p (PropertyController.data l) ->
                    In p (properties db)
                    /\ Property.status p = "active"
                    /\ (10000000 <=? Property.price p)%float = true
                    /\ (Property.price p <=? 20000000)%float = true)
      /\ (PropertyController.total l <= 12 ->
          Permutation (PropertyController.data l)
                      (filter Spec.activeOneToTwoCrore (properties db))).
Proof.
  split.
  - intros q l p Hl Hp.
    apply (matches_meetsFilters regexTest q p).
    eapply listing_matches; eassumption.
  - unfold PropertyController.getProperties, PropertyController.runListing.
    change (PropertyController.castFilter
              (PropertyController.buildQuery Sample.oneToTwoCrore))
      with (Ok (PropertyController.buildQuery Sample.oneToTwoCrore)).
    cbn [bind].
    change (Mongo.skipLimit _ _ ?l) with (Ok (firstn 12 l)).
    cbn [bind].
    unfold Mongo.find, Mongo.countDocuments.
    rewrite (filter_ext _ _ (matches_oneToTwoCrore regexTest)).
    eexists. split; [reflexivity|].
    cbn [PropertyController.data PropertyController.total].
    split; [reflexivity|]. split; [reflexivity|]. split.
    + intros p Hp.
      assert (Hin : In p (filter Spec.activeOneToTwoCrore (properties db))).
      { eapply sort_In. rewrite <- (firstn_skipn 12 (Mongo.sort _ _)).
        apply in_or_app. left. exact Hp. }
      apply filter_In in Hin. destruct Hin as [Hin Hr].
      unfold Spec.activeOneToTwoCrore in Hr.
      rewrite !andb_true_iff, String.eqb_eq in Hr. tauto.
    + intros Hle. rewrite firstn_all2.
      * apply sort_perm.
      * rewrite sort_length. lia.
Qed.

Lemma getProperties_price_bounds_in_crore_witness :
  Spec.priceHolds Sample.request Sample.flat
  /\ (JS.parseFloat "1" * 10000000 <=? Property.price Sample.flat)%float = true
  /\ (Property.price Sample.flat <=? JS.parseFloat "2" * 10000000)%float = true.
Proof.
  destruct (getProperties_price_bounds_in_crore Sample.regexTest Sample.db) as [Hb _].
  assert (H : Spec.priceHolds Sample.request Sample.flat).
  { eapply Hb; [vm_compute; reflexivity | left; reflexivity]. }
  split; [exact H|]. destruct H as [Hmin Hmax]. split.
  - apply Hmin; [reflexivity | discriminate].
  - apply Hmax; [reflexivity | discriminate].
Defined.

(* ================================================================== *)
(** * Pagination *)
(* ================================================================== *)

Lemma firstn_plus {A} (a b : nat) (l : list A) :
  firstn (a + b) l = (firstn a l ++ firstn b (skipn a l))%list.
Proof.
  revert l. induction a as [|a IH]; intros [|x l]; simpl; trivial.
  - now rewrite firstn_nil.
  - now rewrite IH.
Qed.

(** Consecutive slices of length [n] at offsets 0, n, 2n, ... rebuild the
    list they are cut from. *)
Lemma slices_concat {A} (n pages : nat) (l : list A) :
  List.concat (map (fun k => firstn n (skipn (k * n) l)) (seq 0 pages))
  = firstn (pages * n) l.
Proof.
  induction pages as [|k IH].
  - reflexivity.
  - rewrite seq_S, map_app, concat_app, IH. simpl.
    rewrite app_nil_r, <- firstn_plus. f_equal. lia.
Qed.

(** For a page number of at least 1 and a positive limit, the handler
    returns the slice of the filtered, sorted list at offset
    [(page - 1) * limit]. *)
Lemma listing_page_slice regexTest (q : Query.t) (db : Db) (page limit : Z) :
  JS.parseInt (JS.orDefault (Query.page q) "1") = Some page ->
  JS.parseInt (JS.orDefault (Query.limit q) "12") = Some limit ->
  1 <= page -> 0 < limit ->
  forall f, PropertyController.castFilter (PropertyController.buildQuery q) = Ok f ->
  exists l,
    payload (PropertyController.getProperties regexTest q db) = Some l
    /\ PropertyController.data l
       = firstn (Z.to_nat limit)
           (skipn (Z.to_nat (page - 1) * Z.to_nat limit)
              (Mongo.sort
                 (PropertyController.sortLe
                    (JS.orDefault (Query.sort q) "createdAt")
                    (if (JS.orDefault (Query.order q) "desc" =? "desc")%string
                     then -1 else 1))
                 (Mongo.find (PropertyController.matches regexTest f) (properties db)))).
Proof.
  intros Hp Hl Hp1 Hl0 f Hf.
  unfold PropertyController.getProperties, PropertyController.runListing.
  rewrite Hf, Hp, Hl. cbn [bind PropertyController.skipOf Mongo.skipLimit].
  destruct (Z.ltb_spec ((page - 1) * limit) 0) as [Hneg|_]; [nia|].
  cbn [bind]. eexists. split; [reflexivity|].
  cbn [PropertyController.data]. unfold Mongo.limit.
  destruct (Z.eqb_spec limit 0) as [->|_]; [lia|].
  rewrite Z.abs_eq by lia. f_equal. f_equal. nia.
Qed.

(** C3. The listing handler does not clamp the page number: for page=0
    and the default limit it computes the offset (0 - 1) * 12 = -12, which
    the engine refuses, and the request ends in the 500 reply, whereas the
    helper [getPagination] turns the same input into page 1 at offset 0.
    Nor is a limit of 0 a bound: the engine reads it as no limit, and both
    stored properties come back. *)
Theorem getProperties_page_zero_is_not_clamped
        (regexTest : string -> string -> string -> bool) (db : Db) :
  PropertyController.skipOf (JS.parseInt "0") (JS.parseInt "12") = Some (-12)
  /\ PropertyController.getProperties regexTest Sample.pageZero db
     = failure 500 "Error fetching properties"
  /\ Helpers.getPagination (Some "0") (Some "12")
     = {| Helpers.currentPage := 1%float; Helpers.perPage := 12%float;
          Helpers.skip := 0%float |}
  /\ option_map (fun l => List.length (PropertyController.data l))
       (payload (PropertyController.getProperties regexTest
                   (Sample.pageOf "1" "0") Sample.db))
     = Some 2%nat.
Proof.
  split; [reflexivity|]. split; [reflexivity|]. split; [reflexivity|].
  unfold PropertyController.getProperties, PropertyController.runListing.
  change (PropertyController.castFilter
            (PropertyController.buildQuery (Sample.pageOf "1" "0")))
    with (Ok (PropertyController.buildQuery (Sample.pageOf "1" "0"))).
  cbn [bind].
  change (Mongo.skipLimit _ _ ?l) with (Ok l).
  cbn [bind payload body option_map PropertyController.data].
  rewrite sort_length. reflexivity.
Qed.

(* ================================================================== *)
(** * The contact route *)
(* ================================================================== *)

(** C4. A contact message with name, email and message is stored and
    answered with 200; the same message without its required [message]
    field fails validation inside [Contact.create], and the route's only
    [catch] answers 500 with the error text, not 400.  Nothing is stored. *)
Theorem contact_without_message_answers_500 (now : Z) (db : Db) :
  Server.contact Sample.connected Sample.noMessage now db
  = (db, mkReply 500
           (ErrorOnly "Contact validation failed: message: Path `message` is required."))
  /\ snd (Server.contact Sample.connected Sample.message now db)
     = mkReply 200 (Envelope true (Some "Message sent") None)
  /\ List.length (contacts (fst (Server.contact Sample.connected Sample.message now db)))
     = S (List.length (contacts db)).
Proof.
  split; [reflexivity|]. split; [reflexivity|].
  cbn. rewrite length_app. simpl. lia.
Qed.

(* ================================================================== *)
(** * Ownership of updates and deletions *)
(* ================================================================== *)

Lemma isAdminRole_true r : User.isAdminRole r = true <-> r = User.admin.
Proof. destruct r; simpl; split; congruence. Qed.

(** Closes the three parts of an authorization statement once the reply
    is known. *)
Ltac close_authorization :=
  cbn; repeat apply conj;
  [ first [ discriminate
          | intros _; first [ left; eexists; split; [reflexivity | assumption]
                            | right; assumption ] ]
  | let Ho := fresh "Ho" in
    intros ? Ho ? ?;
    first [ discriminate Ho | injection Ho as <-; first [ reflexivity | congruence ] ]
  | first [ intros _; reflexivity | intros ?; congruence ] ].

Section Authorization.
Variables (u : User.t) (id : string) (db : Db) (p : Property.t).
Hypothesis Hfound :
  PropertyController.findById id (properties db) = Ok (Some p).

Lemma notAuthorized_cases :
  (Property.owner p = None
   /\ exists w, PropertyController.notAuthorized u p = Throw (TypeError w))
  \/ (mayChange u p /\ PropertyController.notAuthorized u p = Ok false)
  \/ ((exists o, Property.owner p = Some o
                 /\ PropertyController.ownerToString o <> User._id u)
      /\ User.role u <> User.admin
      /\ PropertyController.notAuthorized u p = Ok true).
Proof.
  unfold PropertyController.notAuthorized, mayChange.
  destruct (Property.owner p) as [o|]; [|left; eauto].
  right.
  destruct (String.eqb_spec (PropertyController.ownerToString o) (User._id u)) as [E|E].
  - left. split; [left; eauto | reflexivity].
  - destruct (User.isAdminRole (User.role u)) eqn:Ea.
    + left. split; [right; now apply isAdminRole_true | reflexivity].
    + right. split; [eauto|]. split; [|reflexivity].
      intros Hr. apply isAdminRole_true in Hr. congruence.
Qed.

(** An update succeeds only for the owner or an admin; a requester who
    is neither, on a property that carries an owner, gets 403; and
    whenever the reply is not 200 the database is as it was. *)
Lemma updateProperty_authorization b :
  let r := PropertyController.updateProperty u id b db in
  (status (snd r) = 200 -> mayChange u p)
  /\ (forall o, Property.owner p = Some o ->
                PropertyController.ownerToString o <> User._id u ->
                User.role u <> User.admin ->
                r = (db, failure 403 "Not authorized to update this property"))
  /\ (status (snd r) <> 200 -> fst r = db).
Proof.
  cbv zeta.
  unfold PropertyController.updateProperty, PropertyController.tryUpdate.
  rewrite Hfound. cbn [bind].
  destruct notAuthorized_cases
    as [[Hnone [w ->]] | [[Hmay ->] | [[o [Ho Hne]] [Hrole ->]]]]; cbn [bind].
  - rewrite Hnone. close_authorization.
  - destruct (PropertyController.findByIdAndUpdate id b (properties db))
      as [[l' d]|[m errs|path| |w|w]]; cbn;
      (split; [first [discriminate | intros _; exact Hmay]|]);
      (split; [|first [intros _; reflexivity | intros ?; congruence]]);
      intros o Ho Hne Hr; destruct Hmay as [[o' [Ho' E]]|Ha]; congruence.
  - rewrite Ho. close_authorization.
Qed.

Lemma deleteProperty_authorization :
  let r := PropertyController.deleteProperty u id db in
  (status (snd r) = 200 -> mayChange u p)
  /\ (forall o, Property.owner p = Some o ->
                PropertyController.ownerToString o <> User._id u ->
                User.role u <> User.admin ->
                r = (db, failure 403 "Not authorized to delete this property"))
  /\ (status (snd r) <> 200 -> fst r = db).
Proof.
  cbv zeta.
  unfold PropertyController.deleteProperty, PropertyController.tryDelete.
  rewrite Hfound. cbn [bind].
  destruct notAuthorized_cases
    as [[Hnone [w ->]] | [[Hmay ->] | [[o [Ho Hne]] [Hrole ->]]]]; cbn [bind].
  - rewrite Hnone. close_authorization.
  - destruct (PropertyController.findByIdAndDelete id (properties db))
      as [l'|[m errs|path| |w|w]]; cbn;
      (split; [first [discriminate | intros _; exact Hmay]|]);
      (split; [|first [intros _; reflexivity | intros ?; congruence]]);
      intros o Ho Hne Hr; destruct Hmay as [[o' [Ho' E]]|Ha]; congruence.
  - rewrite Ho. close_authorization.
Qed.

End Authorization.

(** C5. On a stored property that carries no owner, an update or a
    deletion requested by an authenticated user who is not an admin does
    not end in 403: reading [toString] of the missing owner throws, and the
    handler answers 500.  The record is left as it was.  Such a property
    arises through the API itself, once its owner has sent
    [{ owner: null }] in an update. *)
Theorem updateProperty_without_owner_answers_500 :
  PropertyController.findById Sample.villaId (properties Sample.db)
  = Ok (Some Sample.villa)
  /\ Property.owner Sample.villa = None
  /\ User.role Sample.bob = User.user
  /\ PropertyController.updateProperty Sample.bob Sample.villaId Sample.retitle Sample.db
     = (Sample.db, failure 500 "Error updating property")
  /\ PropertyController.deleteProperty Sample.bob Sample.villaId Sample.db
     = (Sample.db, failure 500 "Error deleting property")
  /\ (let r := PropertyController.updateProperty
                 Sample.alice Sample.flatId Sample.disown Sample.db in
      status (snd r) = 200
      /\ PropertyController.updateProperty Sample.bob Sample.flatId Sample.retitle (fst r)
         = (fst r, failure 500 "Error updating property")).
Proof. repeat split. Qed.

(* ================================================================== *)
(** * Registration and password login *)
(* ================================================================== *)

Lemma findOne_none_existsb {A} (g : A -> bool) (l : list A) :
  Mongo.findOne g l = None -> existsb g l = false.
Proof.
  unfold Mongo.findOne. induction l as [|x r IH]; simpl; trivial.
  destruct (g x); [discriminate|]. exact IH.
Qed.

Lemma findOne_snoc {A} (g : A -> bool) (l : list A) (x : A) :
  Mongo.findOne g l = None -> g x = true -> Mongo.findOne g (l ++ [x]) = Some x.
Proof.
  unfold Mongo.findOne. induction l as [|y r IH]; simpl.
  - now intros _ ->.
  - destruct (g y); [discriminate|]. exact IH.
Qed.

Lemma truthy_inv v : JS.truthy v = true -> exists s, v = Some s /\ s <> "".
Proof.
  destruct v as [s|]; [|discriminate]. simpl. intros H.
  exists s. split; trivial. apply String.eqb_neq.
  now destruct (s =? "")%string.
Qed.

(** What a created user looks like, and where it is stored. *)
Lemma create_inv doc docs l u :
  UserModel.create doc docs = Ok (l, u) ->
  u = UserModel.normalize doc /\ l = (docs ++ [u])%list
  /\ User.name u <> "" /\ User.email u <> "".
Proof.
  unfold UserModel.create, UserModel.requiredErrors.
  destruct (String.eqb_spec (User.name (UserModel.normalize doc)) "") as [|Hn];
    [discriminate|].
  destruct (String.eqb_spec (User.email (UserModel.normalize doc)) "") as [|He];
    [discriminate|].
  cbn [app]. destruct (existsb _ docs); [discriminate|].
  intros H. injection H as <- <-. auto.
Qed.

Section PasswordLogin.
Context {B : Bcrypt} {S : BcryptSpec B}.
Variables (cfg : Server.Config) (b : Server.Credentials).
Variables (salt : string) (now : Z) (newId : ObjectId) (db : Db).

(** What a 201 from the register route tells about the request and the
    state it leaves. *)
Lemma register_created :
  status (snd (Server.register cfg b salt now newId db)) = 201 ->
  exists n e pw u,
    Server.name b = Some n /\ Server.email b = Some e
    /\ Server.password b = Some pw /\ pw <> ""
    /\ Server.mongoUri cfg = true
    /\ UserModel.findOneByEmail (Some e) (users db) = None
    /\ User.email u = User.emailSetter e
    /\ User.password u = Some (hash pw salt)
    /\ User._id u = newId
    /\ fst (Server.register cfg b salt now newId db)
       = Server.setUsers db (users db ++ [u]).
Proof.
  unfold Server.register, Server.tryRegister.
  destruct (JS.truthy (Server.name b)) eqn:Hn; cbn [negb orb]; [|cbn; discriminate].
  destruct (JS.truthy (Server.email b)) eqn:He; cbn [negb orb]; [|cbn; discriminate].
  destruct (JS.truthy (Server.password b)) eqn:Hp; cbn [negb orb]; [|cbn; discriminate].
  destruct (Server.mongoUri cfg); [|cbn; discriminate].
  apply truthy_inv in Hn, He, Hp.
  destruct Hn as [n [-> _]], He as [e [-> _]], Hp as [pw [-> Hpw]].
  destruct (UserModel.findOneByEmail (Some e) (users db)) eqn:Hf; [cbn; discriminate|].
  cbn [JS.orDefault].
  destruct (UserModel.create _ (users db)) as [[l u]|ex] eqn:Hc; cbn [bind];
    [|cbn; discriminate].
  intros _. apply create_inv in Hc. destruct Hc as [Hu [-> _]].
  exists n, e, pw, u. subst u. cbn. repeat split; trivial.
Qed.

End PasswordLogin.


Lemma toyBcrypt_spec : BcryptSpec Sample.toyBcrypt.
Proof.
  split.
  - intros password salt. cbn. discriminate.
  - intros password salt candidate.
    change (compare candidate (hash password salt))
      with ("$2b$12$" ++ bcryptKey password =? "$2b$12$" ++ bcryptKey candidate)%string.
    rewrite String.eqb_eq. cbn [append].
    split; [intros H; injection H as H; now symmetry | now intros ->].
Qed.



(* ================================================================== *)
(** * Federated login *)
(* ================================================================== *)

Lemma save_In (u u' : User.t) (docs : list User.t) :
  In u docs -> User._id u' = User._id u -> In u' (UserModel.save u' docs).
Proof.
  unfold UserModel.save. intros Hin Hid.
  induction docs as [|v r IH]; simpl; [destruct Hin|].
  destruct (String.eqb_spec (User._id v) (User._id u')) as [E|E].
  - now left.
  - right. apply IH. destruct Hin as [->|Hin]; [congruence|exact Hin].
Qed.

Lemma save_length (u' : User.t) (docs : list User.t) :
  List.length (UserModel.save u' docs) = List.length docs.
Proof.
  unfold UserModel.save. induction docs as [|v r IH]; simpl; trivial.
  destruct (User._id v =? User._id u')%string; simpl; congruence.
Qed.

Lemma findOne_In {A} (g : A -> bool) (l : list A) (x : A) :
  Mongo.findOne g l = Some x -> In x l /\ g x = true.
Proof. apply find_some. Qed.

(** C8. The server's Google verify callback resolves a profile that has
    an email, with the database configured, in this order.  If a user with
    the profile's subject id exists, that user gets lastLogin set to the
    clock and avatar set to the profile's photo, is saved and is the user
    logged in.  Otherwise, if a user with the profile's email exists, that
    user gets the subject id as googleId, the photo as avatar and provider
    'google', is saved and is logged in.  Otherwise a new user is created
    from the profile (a display name and an email that are not blank) and
    logged in. *)
Theorem verify_resolves_by_googleId_then_email_then_creates
        (cfg : Server.Config) (p : Server.Profile) (now : Z) (newId : ObjectId)
        (db : Db) (e : string) (rest : list string) :
  Server.mongoUri cfg = true ->
  Server.emails p = e :: rest ->
  let r := Server.verify cfg p now newId db in
  match UserModel.findOneByGoogleId (Server.profileId p) (users db) with
  | Some u =>
      let u' := Server.touch now (Server.firstPhoto p) u in
      r = (Server.setUsers db (UserModel.save u' (users db)), Ok u')
      /\ User.lastLogin u' = now
      /\ User.avatar u' = Server.firstPhoto p
      /\ User._id u' = User._id u
      /\ In u' (users (fst r))
      /\ List.length (users (fst r)) = List.length (users db)
  | None =>
      match UserModel.findOneByEmail (Some e) (users db) with
      | Some u =>
          let u' := Server.link (Server.profileId p) (Server.firstPhoto p) u in
          r = (Server.setUsers db (UserModel.save u' (users db)), Ok u')
          /\ User.googleId u' = Some (Server.profileId p)
          /\ User.provider u' = User.google
          /\ User._id u' = User._id u
          /\ In u' (users (fst r))
          /\ List.length (users (fst r)) = List.length (users db)
      | None =>
          JS.trim (Server.displayName p) <> "" ->
          User.emailSetter e <> "" ->
          let u' := UserModel.normalize (Server.fromProfile p e now newId) in
          r = (Server.setUsers db (users db ++ [u']), Ok u')
          /\ User.googleId u' = Some (Server.profileId p)
          /\ User.name u' = JS.trim (Server.displayName p)
          /\ User.email u' = User.emailSetter e
          /\ User.provider u' = User.google
          /\ User.lastLogin u' = now
      end
  end.
Proof.
  intros Hcfg He. cbv zeta.
  unfold Server.verify, Server.tryVerify, Server.firstEmail.
  rewrite He, Hcfg. cbn [bind negb].
  destruct (UserModel.findOneByGoogleId (Server.profileId p) (users db)) as [u|] eqn:Hg.
  - cbn [fst users Server.setUsers]. repeat split.
    + apply save_In with (u := u); [|reflexivity].
      unfold UserModel.findOneByGoogleId in Hg. now apply findOne_In in Hg.
    + apply save_length.
  - destruct (UserModel.findOneByEmail (Some e) (users db)) as [u|] eqn:Hm.
    + cbn [fst users Server.setUsers]. repeat split.
      * apply save_In with (u := u); [|reflexivity].
        unfold UserModel.findOneByEmail in Hm. now apply findOne_In in Hm.
      * apply save_length.
    + intros Hname Hemail.
      unfold UserModel.create, UserModel.requiredErrors.
      cbn [UserModel.normalize Server.fromProfile User.name User.email].
      apply String.eqb_neq in Hname, Hemail. rewrite Hname, Hemail. cbn [app].
      assert (Hfresh : existsb
                (fun v => (User.email v =? User.emailSetter e)%string
                          || UserModel.sameGoogleId v
                               (UserModel.normalize (Server.fromProfile p e now newId)))%bool
                (users db) = false).
      { apply not_true_is_false. intros Hex.
        apply existsb_exists in Hex. destruct Hex as [v [Hv Hor]].
        apply orb_true_iff in Hor. destruct Hor as [H|H].
        - unfold UserModel.findOneByEmail in Hm.
          apply findOne_none_existsb in Hm.
          assert (existsb (fun u => (User.email u =? User.emailSetter e)%string)
                          (users db) = true)
            by (apply existsb_exists; eauto).
          congruence.
        - unfold UserModel.findOneByGoogleId in Hg.
          apply findOne_none_existsb in Hg.
          assert (existsb (fun u => match User.googleId u with
                                    | Some g => (g =? Server.profileId p)%string
                                    | None => false
                                    end) (users db) = true).
          { apply existsb_exists. exists v. split; [exact Hv|].
            unfold UserModel.sameGoogleId in H. cbn in H. exact H. }
          congruence. }
      rewrite Hfresh. cbn [bind fst snd]. repeat split.
Qed.

Lemma verify_resolves_by_googleId_then_email_then_creates_witness :
  snd (Server.verify Sample.connected Sample.bobProfile 7 Sample.carolId Sample.db)
  = Ok (Server.touch 7 (Some "new.png") Sample.bob)
  /\ snd (Server.verify Sample.connected Sample.aliceProfile 7 Sample.carolId Sample.db)
     = Ok (Server.link "g-alice" None Sample.alice)
  /\ users (fst (Server.verify Sample.connected Sample.daveProfile 7
                   Sample.carolId Sample.db))
     = [Sample.alice; Sample.bob;
        {| User._id := Sample.carolId; User.googleId := Some "g-dave";
           User.name := "Dave"; User.email := "dave@x.com";
           User.password := None; User.avatar := Some "dave.png";
           User.provider := User.google; User.role := User.user;
           User.lastLogin := 7 |}].
Proof.
  pose proof (verify_resolves_by_googleId_then_email_then_creates
                Sample.connected Sample.bobProfile 7 Sample.carolId Sample.db
                "bob@x.com" [] eq_refl eq_refl) as Hbob.
  pose proof (verify_resolves_by_googleId_then_email_then_creates
                Sample.connected Sample.aliceProfile 7 Sample.carolId Sample.db
                "Alice@X.com" [] eq_refl eq_refl) as Halice.
  pose proof (verify_resolves_by_googleId_then_email_then_creates
                Sample.connected Sample.daveProfile 7 Sample.carolId Sample.db
                "Dave@X.com" [] eq_refl eq_refl) as Hdave.
  cbv zeta in Hbob, Halice, Hdave.
  change (UserModel.findOneByGoogleId (Server.profileId Sample.bobProfile)
            (users Sample.db)) with (Some Sample.bob) in Hbob.
  change (UserModel.findOneByGoogleId (Server.profileId Sample.aliceProfile)
            (users Sample.db)) with (@None User.t) in Halice.
  change (UserModel.findOneByEmail (Some "Alice@X.com") (users Sample.db))
    with (Some Sample.alice) in Halice.
  change (UserModel.findOneByGoogleId (Server.profileId Sample.daveProfile)
            (users Sample.db)) with (@None User.t) in Hdave.
  change (UserModel.findOneByEmail (Some "Dave@X.com") (users Sample.db))
    with (@None User.t) in Hdave.
  cbv iota in Hbob, Halice, Hdave.
  destruct Hbob as [Hbob _]. destruct Halice as [Halice _].
  destruct Hdave as [Hdave _]; [discriminate | discriminate |].
  rewrite Hbob, Halice, Hdave. repeat split.
Defined.

(** The strategy module under [config/] resolves in the same order but
    returns a user found by subject id as stored, without touching
    lastLogin or avatar, and links by email without changing the provider
    tag.  The server registers its own callback, not this one. *)
Lemma passportConfig_verify_leaves_found_user_untouched :
  PassportConfig.verify Sample.bobProfile 7 Sample.carolId Sample.db
  = (Sample.db, Ok Sample.bob)
  /\ User.avatar Sample.bob = Some "old.png"
  /\ User.lastLogin Sample.bob = 0
  /\ option_map User.provider
       (match snd (PassportConfig.verify Sample.aliceProfile 7 Sample.carolId Sample.db) with
        | Ok u => Some u
        | Throw _ => None
        end)
     = Some User.manual.
Proof. repeat split. Qed.

(* ================================================================== *)
(** * More on favorites *)
(* ================================================================== *)

Lemma deleteOne_length {A} (g : A -> bool) (l : list A) :
  existsb g l = true -> List.length l = S (List.length (Mongo.deleteOne g l)).
Proof.
  induction l as [|x r IH]; simpl; [discriminate|].
  destruct (g x); simpl; [reflexivity|]. intros H. now rewrite IH.
Qed.

Lemma deleteOne_keeps {A} (g : A -> bool) (l : list A) (x : A) :
  g x = false -> (In x (Mongo.deleteOne g l) <-> In x l).
Proof.
  intros Hx. induction l as [|y r IH]; simpl; [tauto|].
  destruct (g y) eqn:Hy; simpl.
  - split; [auto|]. intros [->|H]; [congruence|exact H].
  - rewrite IH. tauto.
Qed.

Lemma deleteOne_none {A} (g : A -> bool) (l : list A) :
  existsb g l = false -> Mongo.deleteOne g l = l.
Proof.
  induction l as [|x r IH]; simpl; trivial.
  destruct (g x); simpl; [discriminate|]. intros H. now rewrite IH.
Qed.

Lemma deleteOne_snoc {A} (g : A -> bool) (l : list A) (x : A) :
  existsb g l = false -> g x = true -> Mongo.deleteOne g (l ++ [x]) = l.
Proof.
  induction l as [|y r IH]; simpl.
  - now intros _ ->.
  - destruct (g y); simpl; [discriminate|]. intros H Hx. now rewrite IH.
Qed.

Lemma findOne_existsb {A} (g : A -> bool) (l : list A) :
  existsb g l = match Mongo.findOne g l with Some _ => true | None => false end.
Proof.
  unfold Mongo.findOne. induction l as [|x r IH]; simpl; trivial.
  destruct (g x); simpl; trivial.
Qed.

Lemma setFavorites_same db : FavoriteController.setFavorites db (favorites db) = db.
Proof. now destruct db. Qed.

(** X1. Removing a favorite: a property id that is no ObjectId is answered
    500 and an absent favorite 404, both with the database untouched; a
    present one is answered 200, exactly one record goes, it is a record of
    the requester for that property, and every other record, user and
    property stays. *)
Theorem removeFavorite_outcomes (u : User.t) (propertyId : string) (db : Db) :
  let r := FavoriteController.removeFavorite u propertyId db in
  match castObjectId "property" propertyId with
  | Throw _ => r = (db, failure 500 "Error removing from favorites")
  | Ok pid =>
      if existsb (FavoriteController.isPair (User._id u) pid) (favorites db)
      then
        snd r = mkReply 200 (Envelope true (Some "Property removed from favorites") None)
        /\ List.length (favorites db) = S (List.length (favorites (fst r)))
        /\ (forall f, Favorite.user f <> User._id u \/ Favorite.property f <> pid ->
                      (In f (favorites (fst r)) <-> In f (favorites db)))
        /\ (forall f, In f (favorites (fst r)) -> In f (favorites db))
        /\ users (fst r) = users db
        /\ properties (fst r) = properties db
        /\ contacts (fst r) = contacts db
      else r = (db, failure 404 "Favorite not found")
  end.
Proof.
  cbv zeta. unfold FavoriteController.removeFavorite, FavoriteController.findOneAndDelete.
  destruct (castObjectId "property" propertyId) as [pid|e]; cbn [bind]; [|reflexivity].
  rewrite findOne_existsb.
  destruct (Mongo.findOne _ (favorites db)) as [f0|] eqn:Hf; [|reflexivity].
  cbn [fst snd favorites users properties contacts FavoriteController.setFavorites].
  assert (Hex : existsb (FavoriteController.isPair (User._id u) pid) (favorites db) = true)
    by (rewrite findOne_existsb, Hf; reflexivity).
  repeat split; trivial.
  - now apply deleteOne_length.
  - apply deleteOne_keeps.
    apply not_true_is_false. rewrite isPair_spec. tauto.
  - apply deleteOne_keeps.
    apply not_true_is_false. rewrite isPair_spec. tauto.
  - apply deleteOne_incl.
Qed.

(** X2. A favorite that was added with 201 is reported by checkFavorite,
    and removing it again is answered 200 and gives back the database as it
    was before the add, where checkFavorite reported false. *)
Theorem addFavorite_then_removeFavorite_restores
        (u : User.t) (propertyId : string) (notes : option string) (now : Z) (db : Db) :
  status (snd (FavoriteController.addFavorite u propertyId notes now db)) = 201 ->
  let db1 := fst (FavoriteController.addFavorite u propertyId notes now db) in
  payload (FavoriteController.checkFavorite u propertyId db) = Some false
  /\ payload (FavoriteController.checkFavorite u propertyId db1) = Some true
  /\ FavoriteController.removeFavorite u propertyId db1
     = (db, mkReply 200 (Envelope true (Some "Property removed from favorites") None)).
Proof.
  unfold FavoriteController.addFavorite, FavoriteController.tryAdd.
  destruct (PropertyController.findById propertyId (properties db)) as [[p|]|e] eqn:Hp;
    cbn [bind]; try (destruct e; cbn; discriminate); [|cbn; discriminate].
  pose proof (castObjectId_path _ "property" _ _ (findById_found _ _ _ Hp)) as Hc.
  rewrite Hc. cbn [bind].
  destruct (Mongo.findOne _ (favorites db)) eqn:Hf; [cbn; discriminate|].
  destruct (FavoriteController.create _ (favorites db)) as [l|e] eqn:Hcr; cbn [bind];
    [|destruct e; cbn; discriminate].
  intros _. cbv zeta. cbn [fst snd].
  apply create_inserts in Hcr. destruct Hcr as [-> Hex]. cbn in Hex.
  unfold FavoriteController.checkFavorite, FavoriteController.removeFavorite,
    FavoriteController.findOneAndDelete.
  rewrite Hc. cbn [bind payload body favorites FavoriteController.setFavorites].
  rewrite Hex. split; [reflexivity|].
  assert (Hnew : FavoriteController.isPair (User._id u) (Property._id p)
                   {| Favorite.user := User._id u; Favorite.property := Property._id p;
                      Favorite.addedAt := now; Favorite.notes := notes |} = true)
    by (apply isPair_spec; split; reflexivity).
  split.
  - rewrite existsb_app, Hex. cbn [existsb orb]. now rewrite Hnew.
  - rewrite (findOne_snoc _ _ _ Hf Hnew), (deleteOne_snoc _ _ _ Hex Hnew).
    destruct db; reflexivity.
Qed.

Lemma addFavorite_then_removeFavorite_restores_witness :
  payload (FavoriteController.checkFavorite Sample.alice Sample.flatId
             (fst (FavoriteController.addFavorite Sample.alice Sample.flatId
                     (Some "sea view") 3 Sample.db)))
  = Some true
  /\ fst (FavoriteController.removeFavorite Sample.alice Sample.flatId
            (fst (FavoriteController.addFavorite Sample.alice Sample.flatId
                    (Some "sea view") 3 Sample.db)))
     = Sample.db.
Proof.
  destruct (addFavorite_then_removeFavorite_restores
              Sample.alice Sample.flatId (Some "sea view") 3 Sample.db eq_refl)
    as [_ [Hcheck Hremove]].
  split; [exact Hcheck|]. now rewrite Hremove.
Defined.

(** X3. What addFavorite answers and changes.  An id that is no ObjectId
    is answered 500 and an unknown property 404.  A note of more than 500
    characters on a property not yet favorited is answered 500, the
    validation error having no branch of its own.  Every reply other than
    201 leaves the database untouched; a 201 appends exactly one favorite,
    of the requester, for the stored property, stamped with the clock and
    carrying the note, and touches no other collection. *)
Theorem addFavorite_outcomes
        (u : User.t) (propertyId : string) (notes : option string) (now : Z) (db : Db) :
  let r := FavoriteController.addFavorite u propertyId notes now db in
  (forall e, castObjectId "_id" propertyId = Throw e ->
             r = (db, failure 500 "Error adding to favorites"))
  /\ (PropertyController.findById propertyId (properties db) = Ok None ->
      r = (db, failure 404 "Property not found"))
  /\ (forall p n,
        PropertyController.findById propertyId (properties db) = Ok (Some p) ->
        existsb (FavoriteController.isPair (User._id u) (Property._id p)) (favorites db)
        = false ->
        notes = Some n -> (500 < String.length n)%nat ->
        r = (db, failure 500 "Error adding to favorites"))
  /\ (status (snd r) <> 201 -> fst r = db)
  /\ (status (snd r) = 201 ->
      exists p,
        PropertyController.findById propertyId (properties db) = Ok (Some p)
        /\ favorites (fst r)
           = (favorites db
              ++ [ {| Favorite.user := User._id u; Favorite.property := Property._id p;
                      Favorite.addedAt := now; Favorite.notes := notes |} ])%list
        /\ users (fst r) = users db
        /\ properties (fst r) = properties db
        /\ contacts (fst r) = contacts db).
Proof.
  cbv zeta. unfold FavoriteController.addFavorite, FavoriteController.tryAdd.
  split; [|split; [|split]].
  - intros e He. unfold PropertyController.findById. rewrite He. cbn [bind].
    unfold castObjectId in He. destruct (_ && _)%bool; [discriminate|].
    injection He as <-. reflexivity.
  - intros ->. reflexivity.
  - intros p n Hp Hex -> Hlen. rewrite Hp. cbn [bind].
    rewrite (castObjectId_path _ "property" _ _ (findById_found _ _ _ Hp)). cbn [bind].
    rewrite findOne_existsb in Hex.
    destruct (Mongo.findOne _ (favorites db)); [discriminate|].
    unfold FavoriteController.create. cbn [Favorite.notes].
    apply Nat.ltb_lt in Hlen. rewrite Hlen. reflexivity.
  - destruct (PropertyController.findById propertyId (properties db)) as [[p|]|e] eqn:Hp;
      cbn [bind].
    + rewrite (castObjectId_path _ "property" _ _ (findById_found _ _ _ Hp)). cbn [bind].
      destruct (Mongo.findOne _ (favorites db)); [cbn; split; [reflexivity|discriminate]|].
      destruct (FavoriteController.create _ (favorites db)) as [l|e] eqn:Hc; cbn [bind].
      * apply create_inserts in Hc. destruct Hc as [-> _]. cbn.
        split; [congruence|]. intros _. exists p. repeat split.
      * destruct e; cbn; (split; [reflexivity|discriminate]).
    + cbn. split; [reflexivity|discriminate].
    + destruct e; cbn; (split; [reflexivity|discriminate]).
Qed.

Lemma addFavorite_outcomes_witness :
  FavoriteController.addFavorite Sample.alice "not-an-id" None 3 Sample.db
  = (Sample.db, failure 500 "Error adding to favorites")
  /\ FavoriteController.addFavorite Sample.alice Sample.carolId None 3 Sample.db
     = (Sample.db, failure 404 "Property not found")
  /\ List.length
       (favorites (fst (FavoriteController.addFavorite Sample.alice Sample.flatId
                          None 3 Sample.db))) = 1%nat.
Proof.
  destruct (addFavorite_outcomes Sample.alice "not-an-id" None 3 Sample.db)
    as [Hbad _].
  destruct (addFavorite_outcomes Sample.alice Sample.carolId None 3 Sample.db)
    as [_ [Hmissing _]].
  destruct (addFavorite_outcomes Sample.alice Sample.flatId None 3 Sample.db)
    as [_ [_ [_ [_ Hadded]]]].
  split; [eapply Hbad; reflexivity|]. split; [apply Hmissing; reflexivity|].
  destruct (Hadded eq_refl) as [p [_ [-> _]]]. reflexivity.
Defined.

(** X4. getFavorites answers 200 with the requester's favorites and no
    others, each once, the most recently added first. *)
Theorem getFavorites_own_newest_first (u : User.t) (db : Db) :
  exists l,
    FavoriteController.getFavorites u db = mkReply 200 (Envelope true None (Some l))
    /\ Permutation l
         (filter (fun f => (Favorite.user f =? User._id u)%string) (favorites db))
    /\ (forall f, In f l <-> In f (favorites db) /\ Favorite.user f = User._id u)
    /\ StronglySorted (fun a b => Favorite.addedAt b <= Favorite.addedAt a) l.
Proof.
  eexists. split; [reflexivity|]. split; [apply sort_perm|]. split.
  - intros f. rewrite sort_In, find_In. unfold FavoriteController.ofUser.
    now rewrite String.eqb_eq.
  - apply StronglySorted_impl
      with (R := fun a b => (Favorite.addedAt b <=? Favorite.addedAt a) = true).
    + intros a b. apply Z.leb_le.
    + apply sort_sorted.
      * intros a b. rewrite Z.leb_gt, Z.leb_le. lia.
      * intros a b c. rewrite !Z.leb_le. lia.
Qed.

Lemma filter_filter_other (u v : ObjectId) (l : list Favorite.t) :
  v <> u ->
  filter (FavoriteController.ofUser v)
    (filter (fun f => negb (FavoriteController.ofUser u f)) l)
  = filter (FavoriteController.ofUser v) l.
Proof.
  intros Hne. unfold FavoriteController.ofUser.
  induction l as [|f r IH]; simpl; trivial.
  destruct (String.eqb_spec (Favorite.user f) u) as [Eu|Eu]; simpl.
  - destruct (String.eqb_spec (Favorite.user f) v) as [Ev|Ev]; [congruence|exact IH].
  - destruct (Favorite.user f =? v)%string; [now rewrite IH|exact IH].
Qed.

(** X5. After clearAllFavorites the requester's list is empty and no
    property is reported as a favorite of theirs, while the list of every
    other user is what it was. *)
Theorem clearAllFavorites_then_reads (u : User.t) (db : Db) :
  let db' := fst (FavoriteController.clearAllFavorites u db) in
  payload (FavoriteController.getFavorites u db') = Some []
  /\ (forall propertyId b,
         payload (FavoriteController.checkFavorite u propertyId db') = Some b ->
         b = false)
  /\ (forall v, User._id v <> User._id u ->
                FavoriteController.getFavorites v db'
                = FavoriteController.getFavorites v db).
Proof.
  cbv zeta. unfold FavoriteController.clearAllFavorites, Mongo.deleteMany.
  cbn [fst favorites FavoriteController.setFavorites].
  assert (Hnone : filter (FavoriteController.ofUser (User._id u))
                    (filter (fun d => negb (FavoriteController.ofUser (User._id u) d))
                       (favorites db)) = []).
  { induction (favorites db) as [|f r IH]; simpl; trivial.
    destruct (FavoriteController.ofUser (User._id u) f) eqn:E; simpl; [exact IH|].
    now rewrite E. }
  split; [|split].
  - unfold FavoriteController.getFavorites, Mongo.find.
    cbn [favorites FavoriteController.setFavorites]. now rewrite Hnone.
  - intros propertyId b. unfold FavoriteController.checkFavorite.
    destruct (castObjectId "property" propertyId) as [pid|e]; [|discriminate].
    cbn [payload body favorites FavoriteController.setFavorites].
    intros H. injection H as <-.
    apply not_true_is_false. intros Hex.
    apply existsb_exists in Hex. destruct Hex as [f [Hin Hp]].
    apply isPair_spec in Hp. destruct Hp as [Hu _].
    assert (In f []) as [].
    rewrite <- Hnone. apply filter_In. split; [exact Hin|].
    unfold FavoriteController.ofUser. now apply String.eqb_eq.
  - intros v Hv. unfold FavoriteController.getFavorites, Mongo.find.
    cbn [favorites FavoriteController.setFavorites].
    now rewrite filter_filter_other.
Qed.

(* ================================================================== *)
(** * More on updating and deleting properties *)
(* ================================================================== *)

Lemma findById_cases id docs :
  (exists i p, castObjectId "_id" id = Ok i
               /\ PropertyController.findById id docs = Ok (Some p)
               /\ In p docs /\ Property._id p = i)
  \/ (exists i, castObjectId "_id" id = Ok i
                /\ PropertyController.findById id docs = Ok None
                /\ forall p, In p docs -> Property._id p <> i)
  \/ (castObjectId "_id" id = Throw (CastError "_id")
      /\ PropertyController.findById id docs = Throw (CastError "_id")).
Proof.
  unfold PropertyController.findById.
  destruct (castObjectId "_id" id) as [i|e] eqn:Hc; cbn [bind].
  - destruct (Mongo.findOne (fun p => (Property._id p =? i)%string) docs) as [p|] eqn:Hf.
    + left. exists i, p. apply findOne_In in Hf. destruct Hf as [Hin He].
      apply String.eqb_eq in He. auto.
    + right; left. exists i. repeat split; trivial.
      intros p Hin He. unfold Mongo.findOne in Hf.
      apply (find_none _ _ Hf p) in Hin. apply String.eqb_neq in Hin. contradiction.
  - right; right. unfold castObjectId in Hc.
    destruct (_ && _)%bool; [discriminate|]. injection Hc as <-. auto.
Qed.

(** X7. An update or a deletion under an id that is no ObjectId is
    answered 400 'Invalid property ID', and under an id no stored property
    carries 404, whoever asks and whatever the body; the database is
    untouched in both cases. *)
Theorem update_delete_unknown_property
        (u : User.t) (id : string) (b : PropertyController.Patch) (db : Db) :
  match PropertyController.findById id (properties db) with
  | Throw _ =>
      PropertyController.updateProperty u id b db
      = (db, failure 400 "Invalid property ID")
      /\ PropertyController.deleteProperty u id db
         = (db, failure 400 "Invalid property ID")
  | Ok None =>
      PropertyController.updateProperty u id b db
      = (db, failure 404 "Property not found")
      /\ PropertyController.deleteProperty u id db
         = (db, failure 404 "Property not found")
  | Ok (Some p) => In p (properties db)
  end.
Proof.
  unfold PropertyController.updateProperty, PropertyController.tryUpdate,
    PropertyController.deleteProperty, PropertyController.tryDelete.
  destruct (findById_cases id (properties db))
    as [(i & p & _ & -> & Hin & _) | [(i & _ & -> & _) | [_ ->]]]; cbn [bind].
  - exact Hin.
  - split; reflexivity.
  - split; reflexivity.
Qed.

Lemma deleteOne_unique_gone (i : ObjectId) (l : list Property.t) :
  uniquePropertyIds l ->
  forall p, In p (Mongo.deleteOne (fun q => (Property._id q =? i)%string) l) ->
            Property._id p <> i.
Proof.
  unfold uniquePropertyIds. induction l as [|q r IH]; simpl; [tauto|].
  intros Hnd p. inversion Hnd as [|? ? Hnin Hr]; subst.
  destruct (String.eqb_spec (Property._id q) i) as [E|E].
  - intros Hin He. apply Hnin. rewrite E, <- He. now apply in_map.
  - intros [<-|Hin]; [exact E|]. now apply IH.
Qed.

Lemma setProperties_frame db l :
  users (PropertyController.setProperties db l) = users db
  /\ favorites (PropertyController.setProperties db l) = favorites db
  /\ contacts (PropertyController.setProperties db l) = contacts db
  /\ properties (PropertyController.setProperties db l) = l.
Proof. repeat split. Qed.

(** What a 200 from deleteProperty tells. *)
Lemma deleteProperty_ok u id db :
  status (snd (PropertyController.deleteProperty u id db)) = 200 ->
  exists i p,
    castObjectId "_id" id = Ok i
    /\ In p (properties db) /\ Property._id p = i
    /\ fst (PropertyController.deleteProperty u id db)
       = PropertyController.setProperties db
           (Mongo.deleteOne (fun q => (Property._id q =? i)%string) (properties db)).
Proof.
  unfold PropertyController.deleteProperty, PropertyController.tryDelete.
  destruct (findById_cases id (properties db))
    as [(i & p & Hc & Hf & Hin & Hi) | [(i & _ & -> & _) | [_ ->]]]; cbn [bind];
    [|cbn; discriminate|cbn; discriminate].
  rewrite Hf. cbn [bind].
  destruct (PropertyController.notAuthorized u p) as [[|]|e]; cbn [bind];
    [cbn; discriminate| |destruct e; cbn; discriminate].
  unfold PropertyController.findByIdAndDelete. rewrite Hc. cbn [bind fst snd].
  intros _. exists i, p. auto.
Qed.

(** X8. A deletion answered 200 removes exactly one stored property, one
    that carries the requested id, and keeps every property with another
    id; users, favorites and contacts are untouched.  When ids are unique
    no property with the requested id is left. *)
Theorem deleteProperty_removes_one (u : User.t) (id : string) (db : Db) :
  status (snd (PropertyController.deleteProperty u id db)) = 200 ->
  let db' := fst (PropertyController.deleteProperty u id db) in
  exists i,
    castObjectId "_id" id = Ok i
    /\ List.length (properties db) = S (List.length (properties db'))
    /\ (forall p, Property._id p <> i ->
                  (In p (properties db') <-> In p (properties db)))
    /\ (forall p, In p (properties db') -> In p (properties db))
    /\ (uniquePropertyIds (properties db) ->
        forall p, In p (properties db') -> Property._id p <> i)
    /\ users db' = users db
    /\ favorites db' = favorites db
    /\ contacts db' = contacts db.
Proof.
  intros H200. cbv zeta.
  destruct (deleteProperty_ok u id db H200) as (i & p & Hc & Hin & Hi & ->).
  exists i. cbn [properties users favorites contacts PropertyController.setProperties].
  repeat split; trivial.
  - apply deleteOne_length. apply existsb_exists. exists p.
    split; [exact Hin|]. now apply String.eqb_eq.
  - apply deleteOne_keeps. now apply String.eqb_neq.
  - apply deleteOne_keeps. now apply String.eqb_neq.
  - apply deleteOne_incl.
  - intros Hu q. now apply deleteOne_unique_gone.
Qed.

Lemma deleteProperty_removes_one_witness :
  properties (fst (PropertyController.deleteProperty Sample.alice Sample.flatId Sample.db))
  = [Sample.villa].
Proof.
  destruct (deleteProperty_removes_one Sample.alice Sample.flatId Sample.db eq_refl)
    as [i _].
  reflexivity.
Defined.

(** X6. Deleting a property does not touch the favorites that point to
    it.  With unique property ids, after a deletion answered 200 the
    property can no longer be added to anybody's favorites (404), while
    checkFavorite answers for it what it answered before. *)
Theorem deleteProperty_leaves_favorites_behind (u : User.t) (id : string) (db : Db) :
  status (snd (PropertyController.deleteProperty u id db)) = 200 ->
  uniquePropertyIds (properties db) ->
  let db' := fst (PropertyController.deleteProperty u id db) in
  favorites db' = favorites db
  /\ (forall v notes now,
         FavoriteController.addFavorite v id notes now db'
         = (db', failure 404 "Property not found"))
  /\ (forall v,
         FavoriteController.checkFavorite v id db'
         = FavoriteController.checkFavorite v id db).
Proof.
  intros H200 Hu. cbv zeta.
  destruct (deleteProperty_ok u id db H200) as (i & p & Hc & Hin & Hi & ->).
  split; [reflexivity|]. split.
  - intros v notes now.
    unfold FavoriteController.addFavorite, FavoriteController.tryAdd.
    destruct (findById_cases id
                (properties (PropertyController.setProperties db
                   (Mongo.deleteOne (fun q => (Property._id q =? i)%string) (properties db)))))
      as [(j & q & Hj & _ & Hq & Hqi) | [(j & _ & -> & _) | [Hj _]]]; cbn [bind].
    + exfalso. assert (Hji : j = i) by congruence.
      cbn [properties PropertyController.setProperties] in Hq.
      apply (deleteOne_unique_gone i _ Hu q Hq). congruence.
    + reflexivity.
    + congruence.
  - intros v. reflexivity.
Qed.

Lemma deleteProperty_leaves_favorites_behind_witness :
  let db0 := fst (FavoriteController.addFavorite Sample.bob Sample.flatId None 3 Sample.db) in
  let db' := fst (PropertyController.deleteProperty Sample.alice Sample.flatId db0) in
  payload (FavoriteController.checkFavorite Sample.bob Sample.flatId db') = Some true
  /\ FavoriteController.addFavorite Sample.alice Sample.flatId None 4 db'
     = (db', failure 404 "Property not found").
Proof.
  cbv zeta.
  destruct (deleteProperty_leaves_favorites_behind Sample.alice Sample.flatId
              (fst (FavoriteController.addFavorite Sample.bob Sample.flatId None 3 Sample.db))
              eq_refl)
    as [_ [Hadd Hcheck]].
  - repeat constructor; simpl; intuition discriminate.
  - split; [rewrite Hcheck; reflexivity | apply Hadd].
Defined.

Lemma updateOne_length {A} (g : A -> bool) (f : A -> A) (l : list A) :
  List.length (Mongo.updateOne g f l) = List.length l.
Proof.
  induction l as [|x r IH]; simpl; trivial.
  destruct (g x); simpl; congruence.
Qed.

Lemma updateOne_hit {A} (g : A -> bool) (f : A -> A) (l : list A) (x : A) :
  Mongo.findOne g l = Some x -> In (f x) (Mongo.updateOne g f l).
Proof.
  unfold Mongo.findOne. induction l as [|y r IH]; simpl; [discriminate|].
  destruct (g y).
  - intros H. injection H as <-. now left.
  - intros H. right. now apply IH.
Qed.

Lemma updateOne_keeps {A} (g : A -> bool) (f : A -> A) (l : list A) (x : A) :
  g x = false -> In x l -> In x (Mongo.updateOne g f l).
Proof.
  intros Hx. induction l as [|y r IH]; simpl; [tauto|].
  destruct (g y) eqn:Hy; simpl.
  - intros [->|H]; [congruence|now right].
  - intros [->|H]; [now left|right; now apply IH].
Qed.

Lemma findByIdAndUpdate_cases id b docs i :
  castObjectId "_id" id = Ok i ->
  (acceptablePatch b
   /\ PropertyController.findByIdAndUpdate id b docs
      = Ok (Mongo.updateOne (fun p => (Property._id p =? i)%string)
              (PropertyController.applyPatch b) docs,
            option_map (PropertyController.applyPatch b)
              (Mongo.findOne (fun p => (Property._id p =? i)%string) docs)))
  \/ (~ castablePatch b
      /\ exists path,
           PropertyController.findByIdAndUpdate id b docs = Throw (CastError path))
  \/ (PropertyController.set_title b = Some ""
      /\ castablePatch b
      /\ PropertyController.findByIdAndUpdate id b docs
         = Throw (ValidationError "Property" [("title", "Path `title` is required.")])).
Proof.
  intros Hc. unfold PropertyController.findByIdAndUpdate, acceptablePatch, castablePatch.
  rewrite Hc. cbn [bind].
  assert (Harea :
            (exists x, PropertyController.set_area b = Some (Some x) /\ is_nan x = true)
            \/ (forall x, PropertyController.set_area b = Some (Some x) -> is_nan x = false)).
  { destruct (PropertyController.set_area b) as [[x|]|]; try (right; intros; congruence).
    destruct (is_nan x) eqn:Hn; [left; eauto|right; intros; congruence]. }
  destruct Harea as [(x & Hx & Hn)|Harea].
  { right; left. rewrite Hx, Hn. cbn [bind]. split; [|eauto].
    intros [_ H]. rewrite (H x eq_refl) in Hn. discriminate. }
  assert (Hok : match PropertyController.set_area b with
                | Some (Some x) => if is_nan x then Throw (CastError "area") else Ok tt
                | _ => Ok tt
                end = Ok tt).
  { destruct (PropertyController.set_area b) as [[x|]|]; trivial.
    now rewrite (Harea x eq_refl). }
  rewrite Hok. cbn [bind].
  destruct (PropertyController.set_price b) as [x|] eqn:Hp.
  - destruct (is_nan x) eqn:Hn; cbn [bind].
    + right; left. split; [|eauto].
      intros [H _]. rewrite (H x eq_refl) in Hn. discriminate.
    + destruct (PropertyController.set_title b) as [[|c t]|] eqn:Ht; cbn [bind].
      * right; right. repeat split; trivial. intros y Hy. congruence.
      * left. repeat split; trivial; try discriminate. intros y Hy. congruence.
      * left. repeat split; trivial; try discriminate. intros y Hy. congruence.
  - cbn [bind].
    destruct (PropertyController.set_title b) as [[|c t]|] eqn:Ht; cbn [bind].
    + right; right. repeat split; trivial. discriminate.
    + left. repeat split; trivial; discriminate.
    + left. repeat split; trivial; discriminate.
Qed.



(** X10. The owner of a property, and an admin on any property that
    carries an owner, get through: a deletion is answered 200, and so is an
    update whose body casts and passes the validators.  An update that
    sets an empty title, in a body that casts, is answered 400 with the
    validator's message and changes nothing. *)
Theorem owner_or_admin_may_update_and_delete
        (u : User.t) (id : string) (b : PropertyController.Patch) (db : Db)
        (p : Property.t) (o : Property.OwnerRef) :
  PropertyController.findById id (properties db) = Ok (Some p) ->
  Property.owner p = Some o ->
  PropertyController.ownerToString o = User._id u \/ User.role u = User.admin ->
  status (snd (PropertyController.deleteProperty u id db)) = 200
  /\ (acceptablePatch b ->
      status (snd (PropertyController.updateProperty u id b db)) = 200)
  /\ (PropertyController.set_title b = Some "" ->
      castablePatch b ->
      PropertyController.updateProperty u id b db
      = (db, failure 400 "Path `title` is required.")).
Proof.
  intros Hf Ho Hmay.
  assert (Hauth : PropertyController.notAuthorized u p = Ok false).
  { unfold PropertyController.notAuthorized. rewrite Ho.
    destruct Hmay as [E|E].
    - apply String.eqb_eq in E. now rewrite E.
    - rewrite E. cbn. now rewrite andb_false_r. }
  destruct (findById_cases id (properties db))
    as [(i & p' & Hc & Hf' & _) | [(i & _ & Hf' & _) | [_ Hf']]]; try congruence.
  unfold PropertyController.deleteProperty, PropertyController.tryDelete,
    PropertyController.updateProperty, PropertyController.tryUpdate.
  rewrite Hf. cbn [bind]. rewrite Hauth. cbn [bind].
  split; [|split].
  - unfold PropertyController.findByIdAndDelete. rewrite Hc. reflexivity.
  - intros Hacc.
    destruct (findByIdAndUpdate_cases id b (properties db) i Hc)
      as [[_ ->] | [[Hn _] | [Ht _]]].
    + reflexivity.
    + destruct Hacc as [_ Hp]. contradiction.
    + destruct Hacc as [Hne _]. contradiction.
  - intros Ht Hp.
    destruct (findByIdAndUpdate_cases id b (properties db) i Hc)
      as [[[Hne _] _] | [[Hn _] | [_ [_ ->]]]].
    + contradiction.
    + contradiction.
    + reflexivity.
Qed.

Lemma owner_or_admin_may_update_and_delete_witness :
  status (snd (PropertyController.deleteProperty Sample.alice Sample.flatId Sample.db))
  = 200
  /\ status (snd (PropertyController.updateProperty
                    Sample.alice Sample.flatId Sample.retitle Sample.db)) = 200.
Proof.
  destruct (owner_or_admin_may_update_and_delete
              Sample.alice Sample.flatId Sample.retitle Sample.db Sample.flat
              (Property.OwnerId Sample.aliceId) eq_refl eq_refl (or_introl eq_refl))
    as [Hdel [Hupd _]].
  split; [exact Hdel|]. apply Hupd.
  split; [discriminate|]. split; intros x Hx; discriminate.
Defined.

(* ================================================================== *)
(** * More on the listing endpoint and on pagination *)
(* ================================================================== *)

Lemma limit_le_length {A} (n : Z) (l : list A) :
  (List.length (Mongo.limit n l) <= List.length l)%nat.
Proof.
  unfold Mongo.limit. destruct (n =? 0); [lia|].
  rewrite length_firstn. lia.
Qed.

Lemma ceilDiv_bounds total n :
  0 < n ->
  exists tp, PropertyController.ceilDiv total (Some n) = Some tp
             /\ tp * n - n < total <= tp * n.
Proof.
  intros Hn. unfold PropertyController.ceilDiv.
  destruct (Z.eqb_spec n 0); [lia|].
  eexists. split; [reflexivity|].
  pose proof (Z.div_mod (- total) n ltac:(lia)) as Hd.
  pose proof (Z.mod_pos_bound (- total) n Hn) as Hm.
  nia.
Qed.

(** X11. The numbers of a listing reply.  [count] is the number of items
    on the page and never exceeds [total]; [total] is the number of stored
    properties that satisfy the filter, whatever the page, the limit and
    the sort.  For a positive limit the page holds at most that many items,
    [totalPages] is the least number of pages of that size that hold
    [total] items, and a page past it is answered with an empty list. *)
Theorem getProperties_counts
        (regexTest : string -> string -> string -> bool) (q : Query.t) (db : Db)
        (l : PropertyController.Listing) :
  payload (PropertyController.getProperties regexTest q db) = Some l ->
  PropertyController.count l = Z.of_nat (List.length (PropertyController.data l))
  /\ PropertyController.total l
     = Z.of_nat (List.length
         (filter (PropertyController.matches regexTest (PropertyController.buildQuery q))
                 (properties db)))
  /\ PropertyController.count l <= PropertyController.total l
  /\ PropertyController.currentPage l = JS.parseInt (JS.orDefault (Query.page q) "1")
  /\ (forall n, JS.parseInt (JS.orDefault (Query.limit q) "12") = Some n -> 0 < n ->
        PropertyController.count l <= n
        /\ exists tp,
             PropertyController.totalPages l = Some tp
             /\ tp * n - n < PropertyController.total l <= tp * n
             /\ (forall k, PropertyController.currentPage l = Some k -> tp < k ->
                           PropertyController.data l = [])).
Proof.
  unfold PropertyController.getProperties.
  destruct (PropertyController.runListing regexTest q (properties db)) as [l'|e] eqn:E;
    [|discriminate].
  cbn. intros H. injection H as ->.
  unfold PropertyController.runListing in E.
  destruct (PropertyController.castFilter _) as [f|e] eqn:Ef; cbn [bind] in E;
    [|discriminate].
  apply castFilter_ok in Ef. subst f.
  destruct (Mongo.skipLimit _ _ _) as [r|e] eqn:Er; cbn [bind] in E; [|discriminate].
  injection E as <-.
  cbn [PropertyController.count PropertyController.total PropertyController.data
       PropertyController.currentPage PropertyController.totalPages].
  unfold Mongo.skipLimit, PropertyController.skipOf in Er.
  destruct (JS.parseInt (JS.orDefault (Query.page q) "1")) as [k|]; [|discriminate].
  destruct (JS.parseInt (JS.orDefault (Query.limit q) "12")) as [n|]; [|discriminate].
  destruct (Z.ltb_spec ((k - 1) * n) 0) as [|Hs]; [discriminate|].
  injection Er as <-.
  set (found := Mongo.sort _ _).
  assert (Hfound : List.length found
                   = List.length (filter (PropertyController.matches regexTest
                                            (PropertyController.buildQuery q))
                                         (properties db)))
    by apply sort_length.
  unfold Mongo.countDocuments. rewrite <- Hfound.
  assert (Hle : (List.length (Mongo.limit n (skipn (Z.to_nat ((k - 1) * n)) found))
                 <= List.length found)%nat).
  { etransitivity; [apply limit_le_length|]. rewrite length_skipn. lia. }
  split; [reflexivity|]. split; [reflexivity|]. split; [lia|]. split; [reflexivity|].
  intros n' Hn' Hpos. injection Hn' as <-.
  split.
  - apply limit_length. exact Hpos.
  - destruct (ceilDiv_bounds (Z.of_nat (List.length found)) n Hpos) as [tp [Htp Hb]].
    exists tp. split; [exact Htp|]. split; [exact Hb|].
    intros k' Hk' Hlt. injection Hk' as <-.
    rewrite skipn_all2; [unfold Mongo.limit; destruct (n =? 0); [reflexivity|apply firstn_nil]|].
    nia.
Qed.

Lemma getProperties_counts_witness :
  exists l,
    payload (PropertyController.getProperties Sample.regexTest
               (Sample.pageOf "3" "1") Sample.db) = Some l
    /\ PropertyController.total l = 2
    /\ PropertyController.totalPages l = Some 2
    /\ PropertyController.data l = [].
Proof.
  eexists. split; [vm_compute; reflexivity|].
  match goal with |- context [PropertyController.total ?l] =>
    destruct (getProperties_counts Sample.regexTest (Sample.pageOf "3" "1") Sample.db l
                eq_refl) as (_ & Ht & _ & Hc & Hlim)
  end.
  destruct (Hlim 1 eq_refl eq_refl) as [_ [tp [Htp [Hb Hpast]]]].
  split; [exact Ht|]. split; [reflexivity|].
  apply (Hpast 3 Hc). injection Htp as <-. reflexivity.
Defined.

(* ================================================================== *)
(** * The pagination helper and the doubles it computes with *)
(* ================================================================== *)

Lemma shr_1_nonneg mrs : 0 <= shr_m mrs -> 0 <= shr_m (shr_1 mrs).
Proof.
  destruct mrs as [m r s]. destruct m as [|[p|p|]|[p|p|]]; simpl; lia.
Qed.

Lemma iter_shr_1_nonneg p : forall mrs, 0 <= shr_m mrs -> 0 <= shr_m (iter_pos shr_1 p mrs).
Proof.
  induction p as [p IH|p IH|]; intros mrs H; simpl.
  - apply IH, IH, shr_1_nonneg, H.
  - apply IH, IH, H.
  - apply shr_1_nonneg, H.
Qed.

Lemma shr_fexp_nonneg m e l :
  0 <= m -> 0 <= shr_m (fst (shr_fexp prec emax m e l)).
Proof.
  intros H. unfold shr_fexp, shr.
  assert (H0 : 0 <= shr_m (shr_record_of_loc m l)) by (destruct l as [|[]]; exact H).
  destruct (fexp prec emax (Zdigits2 m + e) - e) as [|p|p]; simpl; trivial.
  now apply iter_shr_1_nonneg.
Qed.

Lemma round_nearest_even_nonneg m l : 0 <= m -> 0 <= round_nearest_even m l.
Proof.
  intros H. destruct l as [|[]]; simpl; try lia. destruct (Z.even m); lia.
Qed.

Lemma binary_round_aux_signed s m e l :
  0 <= m -> signed s (binary_round_aux prec emax s m e l).
Proof.
  intros H. unfold binary_round_aux.
  pose proof (shr_fexp_nonneg m e l H) as H1.
  destruct (shr_fexp prec emax m e l) as [mrs' e'] eqn:E1. cbn [fst] in H1.
  pose proof (shr_fexp_nonneg _ e' loc_Exact
                (round_nearest_even_nonneg _ (loc_of_shr_record mrs') H1)) as H2.
  destruct (shr_fexp prec emax (round_nearest_even _ _) e' loc_Exact) as [mrs'' e''].
  cbn [fst] in H2.
  destruct (shr_m mrs'') as [|q|q]; [reflexivity| |lia].
  destruct (e'' <=? emax - prec); reflexivity.
Qed.

Lemma binary_round_signed s m e : signed s (binary_round prec emax s m e).
Proof.
  unfold binary_round. destruct (shl_align _ _ _) as [mz ez].
  apply binary_round_aux_signed. lia.
Qed.

(** The product of two numbers that are not negative, the second one
    finite and not zero. *)
Lemma SFmul_signed x my ey :
  signed false x -> signed false (SFmul prec emax x (S754_finite false my ey)).
Proof.
  destruct x as [s|s| |s m e]; simpl; try tauto.
  - intros ->. cbn. reflexivity.
  - intros ->. cbn. reflexivity.
  - intros ->. cbn [xorb]. apply binary_round_aux_signed. lia.
Qed.

Lemma SFmul_signed_l mx ex y :
  signed false y -> signed false (SFmul prec emax (S754_finite false mx ex) y).
Proof.
  destruct y as [s|s| |s m e]; cbn [signed]; intros H; subst; cbn;
    try tauto; try reflexivity.
  apply binary_round_aux_signed. lia.
Qed.

Lemma SFadd_signed x my ey :
  signed false x -> signed false (SFadd prec emax x (S754_finite false my ey)).
Proof.
  destruct x as [s|s| |s m e]; simpl; try tauto.
  intros ->. cbn [cond_Zopp].
  destruct (shl_align m e (Z.min e ey)) as [a ea], (shl_align my ey (Z.min e ey)) as [b eb].
  cbn [fst Z.add binary_normalize]. apply binary_round_signed.
Qed.

Lemma signed_not_nan s x : signed s (Prim2SF x) -> is_nan x = false.
Proof.
  intros H. unfold is_nan. rewrite eqb_spec. unfold SFeqb.
  destruct (Prim2SF x) as [s'|s'| |s' m e]; simpl in *; try tauto.
  - now destruct s'.
  - destruct s'; rewrite Z.compare_refl, Pos.compare_cont_refl; reflexivity.
Qed.

Lemma nan_is_nan x : Prim2SF x = S754_nan -> is_nan x = true.
Proof.
  intros H. unfold is_nan. rewrite eqb_spec, H. reflexivity.
Qed.

Lemma not_nan_cases x :
  is_nan x = false -> exists s, signed s (Prim2SF x).
Proof.
  intros H. destruct (Prim2SF x) as [s|s| |s m e] eqn:E.
  - exists s; reflexivity.
  - exists s; reflexivity.
  - apply nan_is_nan in E. congruence.
  - exists s; reflexivity.
Qed.

Lemma one_SF : Prim2SF 1 = S754_finite false 4503599627370496 (-52).
Proof. reflexivity. Qed.

Lemma two_SF : Prim2SF 2 = S754_finite false 4503599627370496 (-51).
Proof. reflexivity. Qed.

Lemma fifty_SF : Prim2SF 50 = S754_finite false 7036874417766400 (-47).
Proof. reflexivity. Qed.

Lemma zero_SF : Prim2SF 0 = S754_zero false.
Proof. reflexivity. Qed.

Lemma exactOfPos_signed p : signed false (Prim2SF (JS.exactOfPos p)).
Proof.
  induction p as [q IH|q IH|]; cbn [JS.exactOfPos].
  - rewrite add_spec, mul_spec, one_SF, two_SF. apply SFadd_signed, SFmul_signed_l, IH.
  - rewrite mul_spec, two_SF. apply SFmul_signed_l, IH.
  - rewrite one_SF. reflexivity.
Qed.

Lemma floatOfPos_signed p : signed false (Prim2SF (JS.floatOfPos p)).
Proof.
  unfold JS.floatOfPos.
  destruct (Z.log2 (Z.pos p) + 1 - 53 <=? 0); [apply exactOfPos_signed|].
  match goal with |- context [match ?m with Zpos _ => _ | _ => _ end] => destruct m as [|q|q] end;
    try (rewrite zero_SF; reflexivity).
  unfold Z.iter. destruct (Z.log2 (Z.pos p) + 1 - 53) as [|k|k];
    try apply exactOfPos_signed.
  apply Pos.iter_invariant; [|apply exactOfPos_signed].
  intros x Hx. rewrite mul_spec, two_SF. now apply SFmul_signed_l.
Qed.

Lemma floatOfZ_not_nan z : is_nan (JS.floatOfZ z) = false.
Proof.
  destruct z as [|p|p]; cbn [JS.floatOfZ].
  - reflexivity.
  - apply (signed_not_nan false), floatOfPos_signed.
  - apply (signed_not_nan true). rewrite opp_spec.
    pose proof (floatOfPos_signed p) as H.
    destruct (Prim2SF (JS.floatOfPos p)); cbn in *; subst; tauto.
Qed.

Lemma floatOfZ_nonpos z : z <= 0 -> (1 <? JS.floatOfZ z)%float = false.
Proof.
  intros Hz. destruct z as [|p|p]; cbn [JS.floatOfZ]; [reflexivity|lia|].
  rewrite ltb_spec, opp_spec, one_SF.
  pose proof (floatOfPos_signed p) as H.
  destruct (Prim2SF (JS.floatOfPos p)); cbn in *; subst; tauto.
Qed.

Lemma SFcompare_antisym x y :
  SFcompare y x = option_map CompOpp (SFcompare x y).
Proof.
  destruct x as [s|s| |s m e], y as [s'|s'| |s' m' e']; cbn;
    try reflexivity; try (destruct s, s'; reflexivity); try (destruct s; reflexivity);
    try (destruct s'; reflexivity).
  change (Pos.compare_cont Eq m' m) with (m' ?= m)%positive.
  change (Pos.compare_cont Eq m m') with (m ?= m')%positive.
  rewrite (Z.compare_antisym e e'), (Pos.compare_antisym m m').
  destruct s, s'; trivial;
    destruct (e ?= e'); cbn; try reflexivity;
    destruct (m ?= m')%positive; reflexivity.
Qed.

Lemma ltb_leb a b : (a <? b)%float = true -> (a <=? b)%float = true.
Proof.
  rewrite ltb_spec, leb_spec. unfold SFltb, SFleb.
  destruct (SFcompare _ _) as [[]|]; congruence.
Qed.

Lemma not_ltb_leb a b :
  is_nan a = false -> is_nan b = false ->
  (a <? b)%float = false -> (b <=? a)%float = true.
Proof.
  intros Ha Hb. rewrite ltb_spec, leb_spec. unfold SFltb, SFleb.
  rewrite (SFcompare_antisym (Prim2SF a) (Prim2SF b)).
  destruct (not_nan_cases a Ha) as [sa Hsa], (not_nan_cases b Hb) as [sb Hsb].
  destruct (SFcompare (Prim2SF a) (Prim2SF b)) as [[]|] eqn:E; cbn; try congruence.
  destruct (Prim2SF a), (Prim2SF b); cbn in *; try tauto; discriminate.
Qed.

Lemma mathMax_one x :
  is_nan x = false ->
  (JS.mathMax 1 x = x /\ (1 <? x)%float = true)
  \/ (JS.mathMax 1 x = 1%float /\ (1 <? x)%float = false).
Proof.
  intros H. unfold JS.mathMax. rewrite H.
  change (is_nan 1) with false. cbn [orb].
  destruct (1 <? x)%float; [now left|right].
  split; trivial. destruct (x <? 1)%float; reflexivity.
Qed.

Lemma mathMax_one_bound x : is_nan x = false -> (1 <=? JS.mathMax 1 x)%float = true.
Proof.
  intros H. destruct (mathMax_one x H) as [[-> Hlt]|[-> _]]; [now apply ltb_leb|reflexivity].
Qed.

Lemma mathMax_one_not_nan x : is_nan x = false -> is_nan (JS.mathMax 1 x) = false.
Proof.
  intros H. destruct (mathMax_one x H) as [[-> _]|[-> _]]; trivial.
Qed.

Lemma mathMin_fifty m :
  is_nan m = false -> (1 <=? m)%float = true ->
  (JS.mathMin 50 m = 50%float \/ JS.mathMin 50 m = m)
  /\ (1 <=? JS.mathMin 50 m)%float = true
  /\ (JS.mathMin 50 m <=? 50)%float = true.
Proof.
  intros H H1. unfold JS.mathMin. rewrite H.
  change (is_nan 50) with false. cbn [orb].
  destruct (50 <? m)%float eqn:E; [repeat split; auto|].
  assert (Hle : (m <=? 50)%float = true) by now apply not_ltb_leb.
  destruct (m <? 50)%float; [repeat split; auto|].
  change (get_sign 50) with false. cbn iota. repeat split; auto.
Qed.

Lemma mathMax_nan_r a : JS.mathMax a nan = nan.
Proof. unfold JS.mathMax. change (is_nan nan) with true. now rewrite orb_true_r. Qed.

Lemma mathMin_nan_r a : JS.mathMin a nan = nan.
Proof. unfold JS.mathMin. change (is_nan nan) with true. now rewrite orb_true_r. Qed.

(** A number between 1 and 50 is finite and positive. *)
Lemma between_finite s :
  (1 <=? s)%float = true -> (s <=? 50)%float = true ->
  exists m e, Prim2SF s = S754_finite false m e.
Proof.
  rewrite !leb_spec, one_SF, fifty_SF. unfold SFleb.
  destruct (Prim2SF s) as [b|b| |b m e]; try destruct b; cbn [SFcompare];
    intros G1 G2; try discriminate G1; try discriminate G2.
  eauto.
Qed.

Lemma digits2_pos_le p : 2 ^ (Z.pos (digits2_pos p) - 1) <= Z.pos p.
Proof.
  induction p as [q IH|q IH|]; cbn [digits2_pos]; [| |cbn; lia];
    rewrite Pos2Z.inj_succ;
    replace (Z.succ (Z.pos (digits2_pos q)) - 1) with (Z.succ (Z.pos (digits2_pos q) - 1))
      by lia;
    rewrite Z.pow_succ_r by lia; lia.
Qed.

Lemma iter_xO_le m d : Z.pos m <= Z.pos (Pos.iter xO m d).
Proof.
  apply Pos.iter_invariant; [|lia]. intros x Hx. lia.
Qed.

(** [c - 1] is not negative when [c] is at least 1. *)
Lemma sub_one_signed c :
  (1 <=? c)%float = true -> signed false (Prim2SF (c - 1)).
Proof.
  rewrite leb_spec, sub_spec, one_SF. unfold SFleb.
  pose proof (Prim2SF_valid c) as Hv.
  destruct (Prim2SF c) as [b|b| |b m e]; try destruct b; cbn [SFcompare];
    intros Hc; try discriminate Hc.
  - reflexivity.
  - unfold SF64sub, SFsub. cbn [cond_Zopp].
    assert (Hge : 4503599627370496
                  <= Z.pos (fst (shl_align m e (Z.min e (-52))))
                  /\ fst (shl_align 4503599627370496 (-52) (Z.min e (-52)))
                     = 4503599627370496%positive).
    { destruct (Z.compare_spec (-52) e) as [<-|Hlt|Hgt]; [| |discriminate].
      - rewrite Z.min_id. unfold shl_align. rewrite Z.sub_diag. cbn [fst].
        split; trivial.
        destruct (Pos.compare_cont Eq 4503599627370496 m) eqn:E; try discriminate;
          change (Pos.compare_cont Eq 4503599627370496 m)
            with (4503599627370496 ?= m)%positive in E.
        + apply Pos.compare_eq in E. rewrite <- E. apply Z.le_refl.
        + apply Z.lt_le_incl. exact E.
      - rewrite Z.min_r by lia. unfold shl_align. rewrite Z.sub_diag. cbn [fst].
        split; trivial.
        cbn [valid_binary] in Hv. unfold bounded, canonical_mantissa in Hv.
        apply andb_prop in Hv. destruct Hv as [Hcan _].
        apply Z.eqb_eq in Hcan. unfold fexp, emin in Hcan.
        change prec with 53 in Hcan. change emax with 1024 in Hcan.
        assert (Hd : Z.pos (digits2_pos m) = 53) by lia.
        pose proof (digits2_pos_le m) as Hm. rewrite Hd in Hm.
        change (2 ^ (53 - 1)) with 4503599627370496 in Hm.
        destruct (-52 - e) as [|d|d] eqn:Ed; cbn [fst]; try lia.
        pose proof (iter_xO_le m d). lia. }
    destruct Hge as [Hge ->].
    destruct (Z.pos (fst (shl_align m e (Z.min e (-52)))) - Z.pos 4503599627370496)
      as [|q|q] eqn:Ed; cbn [binary_normalize].
    + reflexivity.
    + apply binary_round_signed.
    + lia.
Qed.

Lemma signed_nonneg x : signed false (Prim2SF x) -> (0 <=? x)%float = true.
Proof.
  rewrite leb_spec, zero_SF. unfold SFleb.
  destruct (Prim2SF x) as [b|b| |b m e]; cbn [SFcompare signed]; try tauto;
    intros ->; reflexivity.
Qed.

Lemma mul_signed x s :
  signed false (Prim2SF x) ->
  (1 <=? s)%float = true -> (s <=? 50)%float = true ->
  signed false (Prim2SF (x * s)).
Proof.
  intros Hx H1 H50. destruct (between_finite s H1 H50) as (m & e & Hs).
  rewrite mul_spec, Hs. now apply SFmul_signed.
Qed.

Lemma zero_mul s :
  (1 <=? s)%float = true -> (s <=? 50)%float = true -> (0 * s)%float = 0%float.
Proof.
  intros H1 H50. destruct (between_finite s H1 H50) as (m & e & Hs).
  apply Prim2SF_inj. rewrite mul_spec, Hs, zero_SF. reflexivity.
Qed.

Lemma nan_sub_mul s : is_nan ((nan - 1) * s) = true.
Proof.
  apply nan_is_nan. rewrite mul_spec, sub_spec. reflexivity.
Qed.

Lemma mul_nan x : is_nan (x * nan) = true.
Proof.
  apply nan_is_nan. rewrite mul_spec.
  change (Prim2SF nan) with S754_nan. unfold SF64mul, SFmul.
  destruct (Prim2SF x); reflexivity.
Qed.

Lemma floatOfZ_le_one k : k <= 1 -> (1 <? JS.floatOfZ k)%float = false.
Proof.
  intros Hk. destruct (Z.eq_dec k 1) as [->|Hne]; [reflexivity|].
  apply floatOfZ_nonpos. lia.
Qed.

Lemma small_limit_kept n :
  1 <= n <= 50 -> JS.mathMin 50 (JS.mathMax 1 (JS.floatOfZ n)) = JS.floatOfZ n.
Proof.
  intros Hn.
  assert (H : forall m : nat,
             (m < 50)%nat ->
             JS.mathMin 50 (JS.mathMax 1 (JS.floatOfZ (Z.of_nat (S m))))
             = JS.floatOfZ (Z.of_nat (S m))).
  { intros m Hm. do 50 (destruct m as [|m]; [reflexivity|]). lia. }
  replace n with (Z.of_nat (S (Z.to_nat (n - 1)))) by lia.
  apply H. lia.
Qed.

(** X12. The pagination helper, in doubles.  When the page reads as an
    integer, the page it returns is at least 1: it is that integer as a
    double, or 1, and it is 1 for every integer up to 1.  When the limit
    reads as an integer, the page size lies between 1 and 50, and is the
    limit itself when that lies in this range.  When both read, the offset
    is never negative, and is 0 on the first page.  When one of them does
    not read as an integer, the offset is NaN. *)
Theorem getPagination_is_clamped (page limit : JS.field) :
  let pg := Helpers.getPagination page limit in
  let p := JS.parseInt (JS.orDefault page "1") in
  let l := JS.parseInt (JS.orDefault limit "10") in
  (forall k, p = Some k ->
     (1 <=? Helpers.currentPage pg)%float = true
     /\ (Helpers.currentPage pg = 1%float \/ Helpers.currentPage pg = JS.floatOfZ k)
     /\ (k <= 1 -> Helpers.currentPage pg = 1%float))
  /\ (forall n, l = Some n ->
     (1 <=? Helpers.perPage pg)%float = true
     /\ (Helpers.perPage pg <=? 50)%float = true
     /\ (Helpers.perPage pg = 1%float \/ Helpers.perPage pg = 50%float
         \/ Helpers.perPage pg = JS.floatOfZ n)
     /\ (1 <= n <= 50 -> Helpers.perPage pg = JS.floatOfZ n))
  /\ (forall k n, p = Some k -> l = Some n ->
     (0 <=? Helpers.skip pg)%float = true
     /\ (k <= 1 -> Helpers.skip pg = 0%float))
  /\ (p = None \/ l = None -> is_nan (Helpers.skip pg) = true).
Proof.
  cbv zeta. unfold Helpers.getPagination.
  cbn [Helpers.currentPage Helpers.perPage Helpers.skip].
  assert (Hpage : forall k,
             (1 <=? JS.mathMax 1 (JS.floatOfZ k))%float = true
             /\ (JS.mathMax 1 (JS.floatOfZ k) = 1%float
                 \/ JS.mathMax 1 (JS.floatOfZ k) = JS.floatOfZ k)
             /\ (k <= 1 -> JS.mathMax 1 (JS.floatOfZ k) = 1%float)).
  { intros k. split; [apply mathMax_one_bound, floatOfZ_not_nan|].
    destruct (mathMax_one _ (floatOfZ_not_nan k)) as [[E Hlt]|[E _]].
    - split; [now right|]. intros Hk. rewrite (floatOfZ_le_one k Hk) in Hlt. discriminate.
    - split; [now left|trivial]. }
  assert (Hsize : forall n,
             let s := JS.mathMin 50 (JS.mathMax 1 (JS.floatOfZ n)) in
             (1 <=? s)%float = true /\ (s <=? 50)%float = true
             /\ (s = 1%float \/ s = 50%float \/ s = JS.floatOfZ n)).
  { intros n. cbv zeta.
    destruct (mathMin_fifty _ (mathMax_one_not_nan _ (floatOfZ_not_nan n))
                (mathMax_one_bound _ (floatOfZ_not_nan n))) as [Hs [H1 H50]].
    split; trivial. split; trivial.
    destruct Hs as [Hs|Hs]; rewrite Hs; [now right; left|].
    destruct (mathMax_one _ (floatOfZ_not_nan n)) as [[E _]|[E _]]; rewrite E; auto. }
  split; [|split; [|split]].
  - intros k ->. apply Hpage.
  - intros n ->. cbn [JS.number]. destruct (Hsize n) as [H1 [H50 Hs]].
    repeat split; trivial. apply small_limit_kept.
  - intros k n -> ->. cbn [JS.number].
    destruct (Hpage k) as [Hc [_ Hone]]. destruct (Hsize n) as [H1 [H50 _]].
    split.
    + apply signed_nonneg, mul_signed; trivial. now apply sub_one_signed.
    + intros Hk. rewrite (Hone Hk).
      change (1 - 1)%float with 0%float. now apply zero_mul.
  - intros [E|E]; rewrite E; cbn [JS.number].
    + rewrite mathMax_nan_r. apply nan_sub_mul.
    + rewrite mathMax_nan_r, mathMin_nan_r. apply mul_nan.
Qed.

(* ================================================================== *)
(** * More on registration, login and sessions *)
(* ================================================================== *)

(** X13. The login route with the database configured.  An unknown email,
    an account without a password (one that only ever signed in with
    Google) and a wrong password get the very same reply, 401 'Invalid
    credentials'.  A 401 leaves the session as it was, and so does every
    reply of a server that runs without the passport middleware, where no
    login is answered 200.  A 200 takes a stored user under that email, a
    password sent, bcrypt's approval, the middleware and a session layer
    that stores the principal; the session then holds that user's id.
    When the session layer refuses instead, the reply is 500 'Session
    error' and the session holds what that layer left in it. *)
Theorem login_outcomes {B : Bcrypt}
        (cfg : Server.Config) (b : Server.Credentials)
        (outcome : Server.SessionOutcome)
        (session : option ObjectId) (db : Db) :
  Server.mongoUri cfg = true ->
  let r := Server.login cfg b outcome session db in
  let denied := (session, failure 401 "Invalid credentials") in
  (UserModel.findOneByEmail (Server.email b) (users db) = None -> r = denied)
  /\ (forall u, UserModel.findOneByEmail (Server.email b) (users db) = Some u ->
                User.password u = None -> r = denied)
  /\ (forall u pw h,
         UserModel.findOneByEmail (Server.email b) (users db) = Some u ->
         User.password u = Some h -> Server.password b = Some pw ->
         compare pw h = false -> r = denied)
  /\ (status (snd r) = 401 -> fst r = session)
  /\ (Server.googleOAuth cfg = false -> status (snd r) <> 200 /\ fst r = session)
  /\ (status (snd r) = 200 ->
      exists u pw h,
        UserModel.findOneByEmail (Server.email b) (users db) = Some u
        /\ User.password u = Some h /\ h <> ""
        /\ Server.password b = Some pw
        /\ compare pw h = true
        /\ Server.googleOAuth cfg = true
        /\ outcome = Server.Stored
        /\ fst r = Some (User._id u))
  /\ (forall u pw h kept,
         UserModel.findOneByEmail (Server.email b) (users db) = Some u ->
         User.password u = Some h -> h <> "" -> Server.password b = Some pw ->
         compare pw h = true -> Server.googleOAuth cfg = true ->
         outcome = Server.Refused kept ->
         r = (kept, failure 500 "Session error")).
Proof.
  intros Hcfg. cbv zeta. unfold Server.login, Server.tryLogin. rewrite Hcfg. cbn [negb].
  split; [|split; [|split]].
  - intros ->. reflexivity.
  - intros u -> ->. reflexivity.
  - intros u pw h -> Hh Hpw Hc. rewrite Hh, Hpw.
    destruct (JS.truthy (Some h)); cbn [negb]; [|reflexivity].
    cbn [JS.orDefault Server.comparePassword bind]. now rewrite Hc.
  - destruct (UserModel.findOneByEmail (Server.email b) (users db)) as [u|];
      [|cbn; repeat first [apply conj | intro]; congruence].
    destruct (User.password u) as [h|] eqn:Hh;
      [|cbn; repeat first [apply conj | intro]; congruence].
    destruct (JS.truthy (Some h)) eqn:Ht; cbn [negb].
    2:{ cbn in Ht. apply negb_false_iff, String.eqb_eq in Ht.
        cbn. repeat first [apply conj | intro]; congruence. }
    destruct (Server.password b) as [pw|] eqn:Hpw;
      cbn [JS.orDefault Server.comparePassword bind];
      [|cbn; repeat first [apply conj | intro]; congruence].
    destruct (compare pw h) eqn:Hc; cbn [negb];
      [|cbn; repeat first [apply conj | intro]; congruence].
    destruct (Server.googleOAuth cfg) eqn:Hg; cbn [negb];
      [|cbn; repeat first [apply conj | intro]; congruence].
    destruct outcome as [|kept0]; cbn.
    + split; [congruence|]. split; [congruence|]. split; [|intros; congruence].
      intros _. exists u, pw, h. repeat split; trivial.
      apply truthy_inv in Ht. destruct Ht as [s [Hs Hne]]. congruence.
    + repeat first [apply conj | intro]; congruence.
Qed.

Lemma login_outcomes_witness :
  @Server.login Sample.toyBcrypt Sample.connected
    {| Server.name := None; Server.email := Some "nobody@x.com";
       Server.password := Some "pw" |} Server.Stored None Sample.db
  = (None, failure 401 "Invalid credentials")
  /\ @Server.login Sample.toyBcrypt Sample.connected
       {| Server.name := None; Server.email := Some "bob@x.com";
          Server.password := Some "pw" |} Server.Stored None Sample.db
     = (None, failure 401 "Invalid credentials").
Proof.
  destruct (@login_outcomes Sample.toyBcrypt Sample.connected
              {| Server.name := None; Server.email := Some "nobody@x.com";
                 Server.password := Some "pw" |} Server.Stored None Sample.db eq_refl)
    as [Hunknown _].
  destruct (@login_outcomes Sample.toyBcrypt Sample.connected
              {| Server.name := None; Server.email := Some "bob@x.com";
                 Server.password := Some "pw" |} Server.Stored None Sample.db eq_refl)
    as [_ [Hnopw _]].
  split; [apply Hunknown; reflexivity|].
  apply (Hnopw Sample.bob); reflexivity.
Defined.

(** X14. The register route.  Every reply other than 201 leaves the
    database untouched.  A 201 took a name, an email and a password that
    are not empty and the database configured, and appends exactly one
    user: it has the supplied id, the trimmed name, the trimmed lowercase
    email, the bcrypt hash as password, provider 'manual', role 'user', no
    googleId and the clock as lastLogin.  Properties, favorites and
    contacts stay. *)
Theorem register_outcomes {B : Bcrypt}
        (cfg : Server.Config) (b : Server.Credentials)
        (salt : string) (now : Z) (newId : ObjectId) (db : Db) :
  let r := Server.register cfg b salt now newId db in
  (status (snd r) <> 201 -> fst r = db)
  /\ (status (snd r) = 201 ->
      exists n e pw,
        Server.name b = Some n /\ Server.email b = Some e
        /\ Server.password b = Some pw
        /\ n <> "" /\ e <> "" /\ pw <> ""
        /\ JS.trim n <> "" /\ User.emailSetter e <> ""
        /\ Server.mongoUri cfg = true
        /\ users (fst r)
           = (users db
              ++ [ {| User._id := newId; User.googleId := None;
                      User.name := JS.trim n; User.email := User.emailSetter e;
                      User.password := Some (hash pw salt);
                      User.avatar := Some ""; User.provider := User.manual;
                      User.role := User.user; User.lastLogin := now |} ])%list
        /\ properties (fst r) = properties db
        /\ favorites (fst r) = favorites db
        /\ contacts (fst r) = contacts db).
Proof.
  cbv zeta. unfold Server.register, Server.tryRegister.
  destruct (JS.truthy (Server.name b)) eqn:Hn; cbn [negb orb];
    [|cbn; split; [reflexivity|discriminate]].
  destruct (JS.truthy (Server.email b)) eqn:He; cbn [negb orb];
    [|cbn; split; [reflexivity|discriminate]].
  destruct (JS.truthy (Server.password b)) eqn:Hp; cbn [negb orb];
    [|cbn; split; [reflexivity|discriminate]].
  destruct (Server.mongoUri cfg); [|cbn; split; [reflexivity|discriminate]].
  apply truthy_inv in Hn, He, Hp.
  destruct Hn as [n [-> Hn]], He as [e [-> He]], Hp as [pw [-> Hpw]].
  destruct (UserModel.findOneByEmail (Some e) (users db));
    [cbn; split; [reflexivity|discriminate]|].
  cbn [JS.orDefault].
  destruct (UserModel.create _ (users db)) as [[l u]|ex] eqn:Hc; cbn [bind];
    [|cbn; split; [reflexivity|discriminate]].
  apply create_inv in Hc. destruct Hc as [-> [-> [Hname Hemail]]].
  cbn. split; [congruence|]. intros _.
  exists n, e, pw. repeat split; trivial.
Qed.

Lemma register_outcomes_witness :
  map User.email
    (users (fst (@Server.register Sample.toyBcrypt Sample.connected Sample.carol
                   "salt" 5 Sample.carolId Sample.db)))
  = ["alice@x.com"; "bob@x.com"; "carol@x.com"].
Proof.
  destruct (@register_outcomes Sample.toyBcrypt Sample.connected Sample.carol
              "salt" 5 Sample.carolId Sample.db) as [_ H].
  destruct (H eq_refl) as (n & e & pw & Hn & He & _ & _ & _ & _ & _ & _ & _ & -> & _).
  injection Hn as <-. injection He as <-. reflexivity.
Defined.

Lemma create_fresh doc docs l u :
  UserModel.create doc docs = Ok (l, u) ->
  u = UserModel.normalize doc /\ l = (docs ++ [u])%list
  /\ (forall v, In v docs -> User.email v <> User.email u)
  /\ (forall v g, In v docs -> User.googleId u = Some g -> User.googleId v <> Some g).
Proof.
  unfold UserModel.create.
  destruct (UserModel.requiredErrors (UserModel.normalize doc)); [|discriminate].
  destruct (existsb _ docs) eqn:Hex; [discriminate|].
  intros H. injection H as <- <-. repeat split.
  - intros v Hv He.
    assert (existsb (fun v0 => (User.email v0 =? User.email (UserModel.normalize doc))%string
                               || UserModel.sameGoogleId v0 (UserModel.normalize doc))%bool
                    docs = true); [|congruence].
    apply existsb_exists. exists v. split; trivial.
    apply orb_true_iff. left. now apply String.eqb_eq.
  - intros v g Hv Hg Hvg.
    assert (existsb (fun v0 => (User.email v0 =? User.email (UserModel.normalize doc))%string
                               || UserModel.sameGoogleId v0 (UserModel.normalize doc))%bool
                    docs = true); [|congruence].
    apply existsb_exists. exists v. split; trivial.
    apply orb_true_iff. right. unfold UserModel.sameGoogleId.
    rewrite Hvg, Hg. apply String.eqb_refl.
Qed.

(** Saving a loaded document replaces it where it stands. *)
Lemma save_replaces (u u' : User.t) (docs : list User.t) :
  uniqueUserIds docs -> In u docs -> User._id u' = User._id u ->
  exists l1 l2, docs = (l1 ++ u :: l2)%list
                /\ UserModel.save u' docs = (l1 ++ u' :: l2)%list.
Proof.
  unfold uniqueUserIds, UserModel.save. intros Hnd Hin Hid.
  induction docs as [|v r IH]; [destruct Hin|].
  inversion Hnd as [|? ? Hnin Hr]; subst. simpl.
  destruct (String.eqb_spec (User._id v) (User._id u')) as [E|E].
  - destruct Hin as [->|Hin].
    + exists [], r. split; reflexivity.
    + exfalso. apply Hnin. rewrite E, Hid. now apply in_map.
  - destruct Hin as [->|Hin]; [congruence|].
    destruct (IH Hr Hin) as (l1 & l2 & -> & ->).
    exists (v :: l1), l2. split; reflexivity.
Qed.

Lemma NoDup_middle {A} (a : A) (l1 l2 : list A) :
  NoDup (l1 ++ l2) -> ~ In a (l1 ++ l2) -> NoDup (l1 ++ a :: l2).
Proof.
  intros Hnd Hnin.
  apply (Permutation_NoDup (Permutation_middle l1 l2 a)).
  now constructor.
Qed.

Lemma googleIds_app l1 l2 : googleIds (l1 ++ l2) = (googleIds l1 ++ googleIds l2)%list.
Proof. unfold googleIds. apply flat_map_app. Qed.

Lemma googleIds_cons u l :
  googleIds (u :: l)
  = (match User.googleId u with Some g => [g] | None => [] end ++ googleIds l)%list.
Proof. reflexivity. Qed.

Lemma googleIds_absent gid docs :
  UserModel.findOneByGoogleId gid docs = None -> ~ In gid (googleIds docs).
Proof.
  unfold UserModel.findOneByGoogleId. intros Hf Hin.
  apply findOne_none_existsb in Hf.
  unfold googleIds in Hin. apply in_flat_map in Hin. destruct Hin as [v [Hv Hg]].
  assert (existsb (fun u => match User.googleId u with
                            | Some g => (g =? gid)%string
                            | None => false
                            end) docs = true); [|congruence].
  apply existsb_exists. exists v. split; trivial.
  destruct (User.googleId v) as [g|]; [|destruct Hg].
  destruct Hg as [->|[]]. apply String.eqb_refl.
Qed.

Lemma NoDup_snoc {A} (a : A) (l : list A) :
  NoDup l -> ~ In a l -> NoDup (l ++ [a]).
Proof.
  intros Hnd Hnin. apply NoDup_middle; rewrite app_nil_r; assumption.
Qed.

(** Appending a user that a successful [create] returned keeps the three
    indexes, as long as its id is new. *)
Lemma create_keeps_indexes doc docs l u :
  uniqueUserIds docs -> uniqueEmails docs -> uniqueGoogleIds docs ->
  ~ In (User._id doc) (map User._id docs) ->
  UserModel.create doc docs = Ok (l, u) ->
  uniqueUserIds l /\ uniqueEmails l /\ uniqueGoogleIds l.
Proof.
  unfold uniqueUserIds, uniqueEmails, uniqueGoogleIds.
  intros Hi He Hg Hnew Hc.
  apply create_fresh in Hc. destruct Hc as (Hu & -> & Hemail & Hgid).
  rewrite !map_app, googleIds_app. cbn [map].
  split; [|split].
  - apply NoDup_snoc; trivial. now rewrite Hu.
  - apply NoDup_snoc; trivial. intros Hin.
    apply in_map_iff in Hin. destruct Hin as [v [Hv Hin]].
    exact (Hemail v Hin Hv).
  - unfold googleIds at 2. cbn [flat_map]. rewrite app_nil_r.
    destruct (User.googleId u) as [g|] eqn:Hug.
    + apply NoDup_snoc; trivial. intros Hin.
      unfold googleIds in Hin. apply in_flat_map in Hin. destruct Hin as [v [Hv Hvg]].
      destruct (User.googleId v) as [g'|] eqn:Hv'; [|destruct Hvg].
      destruct Hvg as [->|[]]. exact (Hgid v g Hv eq_refl Hv').
    + now rewrite app_nil_r.
Qed.

(** Saving a user whose id and email are those of a stored one keeps the
    indexes, when its googleId is the stored one or one nobody has. *)
Lemma save_keeps_indexes (u u' : User.t) (docs : list User.t) :
  uniqueUserIds docs -> uniqueEmails docs -> uniqueGoogleIds docs ->
  In u docs ->
  User._id u' = User._id u -> User.email u' = User.email u ->
  (User.googleId u' = User.googleId u
   \/ exists g, User.googleId u' = Some g /\ ~ In g (googleIds docs)) ->
  uniqueUserIds (UserModel.save u' docs)
  /\ uniqueEmails (UserModel.save u' docs)
  /\ uniqueGoogleIds (UserModel.save u' docs).
Proof.
  intros Hi He Hg Hin Hid Hem Hgo.
  destruct (save_replaces u u' docs Hi Hin Hid) as (l1 & l2 & -> & ->).
  unfold uniqueUserIds, uniqueEmails, uniqueGoogleIds in *.
  rewrite !map_app in *. cbn [map] in *. rewrite Hid, Hem.
  split; [exact Hi|]. split; [exact He|].
  rewrite googleIds_app, googleIds_cons.
  rewrite googleIds_app, googleIds_cons in Hg.
  destruct Hgo as [Hsame|[g [Hg' Hnew]]].
  - now rewrite Hsame.
  - rewrite googleIds_app, googleIds_cons in Hnew.
    rewrite Hg'. cbn [app].
    apply NoDup_middle.
    + destruct (User.googleId u) as [old|]; cbn [app] in Hg.
      * now apply NoDup_remove_1 in Hg.
      * exact Hg.
    + intros Hin'. apply Hnew. apply in_app_or in Hin'.
      apply in_or_app. destruct Hin' as [H|H]; [now left|].
      right. apply in_or_app. now right.
Qed.

(** X15. Unique user ids, unique emails and unique googleIds are kept by
    the register route and by the server's Google verify callback, when
    the id the run time draws for a new document is not one in use. *)
Theorem user_indexes_are_kept {B : Bcrypt}
        (cfg : Server.Config) (salt : string) (now : Z) (newId : ObjectId) (db : Db) :
  uniqueUserIds (users db) -> uniqueEmails (users db) -> uniqueGoogleIds (users db) ->
  ~ In newId (map User._id (users db)) ->
  (forall b,
      let db' := fst (Server.register cfg b salt now newId db) in
      uniqueUserIds (users db') /\ uniqueEmails (users db')
      /\ uniqueGoogleIds (users db'))
  /\ (forall p,
      let db' := fst (Server.verify cfg p now newId db) in
      uniqueUserIds (users db') /\ uniqueEmails (users db')
      /\ uniqueGoogleIds (users db')).
Proof.
  intros Hi He Hg Hnew. split.
  - intros b. cbv zeta. unfold Server.register, Server.tryRegister.
    destruct (_ || _ || _)%bool; [now cbn|].
    destruct (Server.mongoUri cfg); [|now cbn].
    destruct (UserModel.findOneByEmail _ _); [now cbn|].
    destruct (UserModel.create _ (users db)) as [[l u]|ex] eqn:Hc; cbn [bind];
      [|now cbn].
    cbn [fst users Server.setUsers].
    eapply create_keeps_indexes; [exact Hi|exact He|exact Hg| |exact Hc]. exact Hnew.
  - intros p. cbv zeta. unfold Server.verify, Server.tryVerify.
    destruct (Server.firstEmail p) as [e|ex]; cbn [bind]; [|now cbn].
    destruct (Server.mongoUri cfg); cbn [negb]; [|now cbn].
    destruct (UserModel.findOneByGoogleId (Server.profileId p) (users db)) as [u|] eqn:Hf.
    + cbn [fst users Server.setUsers].
      unfold UserModel.findOneByGoogleId in Hf. apply findOne_In in Hf.
      apply save_keeps_indexes with (u := u); try tauto; try reflexivity.
    + destruct (UserModel.findOneByEmail (Some e) (users db)) as [u|] eqn:Hm.
      * cbn [fst users Server.setUsers].
        unfold UserModel.findOneByEmail in Hm. apply findOne_In in Hm.
        apply save_keeps_indexes with (u := u); try tauto; try reflexivity.
        right. exists (Server.profileId p). split; [reflexivity|].
        now apply googleIds_absent.
      * destruct (UserModel.create _ (users db)) as [[l u]|ex] eqn:Hc; cbn [bind];
          [|now cbn].
        cbn [fst users Server.setUsers].
        eapply create_keeps_indexes; [exact Hi|exact He|exact Hg| |exact Hc]. exact Hnew.
Qed.

Lemma user_indexes_are_kept_witness :
  uniqueEmails
    (users (fst (@Server.register Sample.toyBcrypt Sample.connected Sample.carol
                   "salt" 5 Sample.carolId Sample.db)))
  /\ uniqueGoogleIds
       (users (fst (Server.verify Sample.connected Sample.aliceProfile 7
                      Sample.carolId Sample.db))).
Proof.
  assert (Hi : uniqueUserIds (users Sample.db))
    by (repeat constructor; simpl; intuition discriminate).
  assert (He : uniqueEmails (users Sample.db))
    by (repeat constructor; simpl; intuition discriminate).
  assert (Hg : uniqueGoogleIds (users Sample.db))
    by (repeat constructor; simpl; intuition discriminate).
  assert (Hn : ~ In Sample.carolId (map User._id (users Sample.db)))
    by (simpl; intuition discriminate).
  destruct (@user_indexes_are_kept Sample.toyBcrypt Sample.connected "salt" 5
              Sample.carolId Sample.db Hi He Hg Hn) as [Hreg _].
  destruct (@user_indexes_are_kept Sample.toyBcrypt Sample.connected "salt" 7
              Sample.carolId Sample.db Hi He Hg Hn) as [_ Hver].
  split; [apply (Hreg Sample.carol) | apply (Hver Sample.aliceProfile)].
Defined.

Lemma findOne_unique_id (u : User.t) (docs : list User.t) :
  uniqueUserIds docs -> In u docs ->
  Mongo.findOne (fun v => (User._id v =? User._id u)%string) docs = Some u.
Proof.
  unfold uniqueUserIds, Mongo.findOne. induction docs as [|v r IH]; [intros _ []|].
  intros Hnd Hin. inversion Hnd as [|? ? Hnin Hr]; subst. simpl.
  destruct (String.eqb_spec (User._id v) (User._id u)) as [E|E].
  - destruct Hin as [->|Hin]; [reflexivity|].
    exfalso. apply Hnin. rewrite E. now apply in_map.
  - destruct Hin as [->|Hin]; [congruence|]. now apply IH.
Qed.

Lemma deserializeUser_stored (cfg : Server.Config) (u : User.t) (db : Db) :
  In u (users db) -> uniqueUserIds (users db) -> validId (User._id u) ->
  Server.mongoUri cfg = true ->
  Session.deserializeUser cfg (Server.serializeUser u) db = Ok (Some u).
Proof.
  intros Hin Hu Hv Hcfg.
  unfold Session.deserializeUser, Session.findById, Server.serializeUser.
  unfold validId in Hv. rewrite Hcfg, Hv. cbn [bind].
  now rewrite findOne_unique_id.
Qed.

(** X16. What the session keeps for a user brings that user back: with
    the database configured, unique user ids and an id in ObjectId form,
    deserializing the serialized id of a stored user yields that user.
    Without the database it yields no principal, and an id that is no
    ObjectId is an error. *)
Theorem deserializeUser_of_serializeUser
        (cfg : Server.Config) (u : User.t) (db : Db) :
  In u (users db) -> uniqueUserIds (users db) -> validId (User._id u) ->
  (Server.mongoUri cfg = true ->
   Session.deserializeUser cfg (Server.serializeUser u) db = Ok (Some u))
  /\ (Server.mongoUri cfg = false ->
      Session.deserializeUser cfg (Server.serializeUser u) db = Ok None)
  /\ (forall id e, castObjectId "_id" id = Throw e -> Server.mongoUri cfg = true ->
                   Session.deserializeUser cfg id db = Throw e).
Proof.
  intros Hin Hu Hv. split; [|split];
    unfold Session.deserializeUser, Session.findById, Server.serializeUser.
  - intros Hcfg. now apply deserializeUser_stored.
  - intros ->. reflexivity.
  - intros id e He ->. now rewrite He.
Qed.

Lemma deserializeUser_of_serializeUser_witness :
  Session.deserializeUser Sample.connected (Server.serializeUser Sample.bob) Sample.db
  = Ok (Some Sample.bob).
Proof.
  apply (deserializeUser_of_serializeUser Sample.connected Sample.bob Sample.db).
  - right. left. reflexivity.
  - repeat constructor; simpl; intuition discriminate.
  - reflexivity.
  - reflexivity.
Defined.

(** X17. Login, check, logout.  After a login answered 200, with unique
    user ids in ObjectId form, the auth check of the next request reports
    an authenticated principal: the stored user the login found, the one
    under the email sent.  After a logout the check reports nobody. *)
Theorem login_then_check_then_logout {B : Bcrypt}
        (cfg : Server.Config) (b : Server.Credentials) (session : option ObjectId)
        (db : Db) :
  uniqueUserIds (users db) ->
  (forall u, In u (users db) -> validId (User._id u)) ->
  status (snd (Server.login cfg b Server.Stored session db)) = 200 ->
  let session1 := fst (Server.login cfg b Server.Stored session db) in
  let session2 := fst (Session.logout session1) in
  exists u,
    UserModel.findOneByEmail (Server.email b) (users db) = Some u
    /\ Session.principal cfg session1 db = Ok (Some u)
    /\ payload (Session.check (Some u))
       = Some {| Session.isAuthenticated := true;
                 Session.user := Some (u, Server.calculateEmailDigitsSum (User.email u)) |}
    /\ Session.principal cfg session2 db = Ok None
    /\ payload (Session.check None)
       = Some {| Session.isAuthenticated := false; Session.user := None |}.
Proof.
  intros Hu Hv H200. cbv zeta.
  unfold Server.login, Server.tryLogin in *.
  destruct (Server.mongoUri cfg) eqn:Hcfg; cbn [negb] in *; [|cbn in H200; discriminate].
  destruct (UserModel.findOneByEmail (Server.email b) (users db)) as [u|] eqn:Hf;
    [|cbn in H200; discriminate].
  destruct (negb (JS.truthy (User.password u))); [cbn in H200; discriminate|].
  destruct (Server.comparePassword _ _) as [[|]|e]; cbn [bind negb] in *;
    [|cbn in H200; discriminate|cbn in H200; discriminate].
  destruct (Server.googleOAuth cfg) eqn:Hg; cbn [negb] in *;
    [|cbn in H200; discriminate].
  cbn [fst]. exists u.
  assert (Hin : In u (users db)).
  { unfold UserModel.findOneByEmail in Hf. destruct (Server.email b); [|discriminate].
    now apply findOne_In in Hf. }
  unfold Session.principal. rewrite Hg.
  split; [reflexivity|]. split; [|repeat split].
  apply (deserializeUser_stored cfg u db Hin Hu (Hv u Hin) Hcfg).
Qed.

Lemma login_then_check_then_logout_witness :
  let db1 := fst (@Server.register Sample.toyBcrypt Sample.connected Sample.carol
                    "salt" 5 Sample.carolId Sample.db) in
  let session1 := fst (@Server.login Sample.toyBcrypt Sample.connected Sample.carol
                          Server.Stored None db1) in
  option_map (option_map User.name) 
    (match Session.principal Sample.connected session1 db1 with
     | Ok p => Some p
     | Throw _ => None
     end) = Some (Some "Carol").
Proof.
  cbv zeta.
  destruct (@login_then_check_then_logout Sample.toyBcrypt Sample.connected Sample.carol
              None
              (fst (@Server.register Sample.toyBcrypt Sample.connected Sample.carol
                      "salt" 5 Sample.carolId Sample.db)))
    as (u & Hf & -> & _).
  - repeat constructor; simpl; intuition discriminate.
  - intros u [<-|[<-|[<-|[]]]]; reflexivity.
  - reflexivity.
  - injection Hf as <-. reflexivity.
Defined.

Lemma save_ids (u' : User.t) (docs : list User.t) :
  map User._id (UserModel.save u' docs) = map User._id docs.
Proof.
  unfold UserModel.save. induction docs as [|v r IH]; simpl; trivial.
  destruct (String.eqb_spec (User._id v) (User._id u')) as [E|E]; simpl.
  - now rewrite E.
  - now rewrite IH.
Qed.

(** X18. The server's verify callback and the one of the strategy module
    under [config/] pick the same account.  For a profile with an email and
    the database configured, either both fail and change nothing, or both
    hand over a user with the same id, googleId, name, email, password and
    role, and leave the same user ids stored in the same order. *)
Theorem verify_callbacks_pick_same_account
        (cfg : Server.Config) (p : Server.Profile) (now : Z) (newId : ObjectId)
        (db : Db) (e : string) (rest : list string) :
  Server.mongoUri cfg = true ->
  Server.emails p = e :: rest ->
  match Server.verify cfg p now newId db, PassportConfig.verify p now newId db with
  | (db1, Ok u1), (db2, Ok u2) =>
      sameAccount u1 u2
      /\ map User._id (users db1) = map User._id (users db2)
  | (db1, Throw _), (db2, Throw _) => db1 = db /\ db2 = db
  | _, _ => False
  end.
Proof.
  intros Hcfg He.
  unfold Server.verify, Server.tryVerify, PassportConfig.verify, PassportConfig.tryVerify,
    Server.firstEmail.
  rewrite He, Hcfg. cbn [bind negb].
  destruct (UserModel.findOneByGoogleId (Server.profileId p) (users db)) as [u|].
  - cbn [users Server.setUsers]. split; [repeat split|apply save_ids].
  - destruct (UserModel.findOneByEmail (Some e) (users db)) as [u|].
    + cbn [users Server.setUsers]. split; [repeat split|].
      now rewrite !save_ids.
    + destruct (UserModel.create _ (users db)) as [[l u]|ex]; cbn [bind fst snd].
      * split; [repeat split|reflexivity].
      * split; reflexivity.
Qed.

Lemma verify_callbacks_pick_same_account_witness :
  option_map User._id
    (match snd (Server.verify Sample.connected Sample.aliceProfile 7
                  Sample.carolId Sample.db) with
     | Ok u => Some u | Throw _ => None end)
  = option_map User._id
      (match snd (PassportConfig.verify Sample.aliceProfile 7 Sample.carolId Sample.db) with
       | Ok u => Some u | Throw _ => None end).
Proof.
  pose proof (verify_callbacks_pick_same_account Sample.connected Sample.aliceProfile 7
                Sample.carolId Sample.db "Alice@X.com" [] eq_refl eq_refl) as H.
  destruct (Server.verify Sample.connected Sample.aliceProfile 7 Sample.carolId Sample.db)
    as [db1 [u1|e1]];
    destruct (PassportConfig.verify Sample.aliceProfile 7 Sample.carolId Sample.db)
      as [db2 [u2|e2]]; cbn [snd option_map]; try contradiction.
  - destruct H as [[Hid _] _]. now rewrite Hid.
  - reflexivity.
Defined.

(** X19. A Google login never removes a user and, with unique user ids,
    never alters the id, name, email, password or role of a stored one:
    whatever the profile and the outcome, every stored user is still
    stored with these fields as they were. *)
Theorem verify_keeps_credentials
        (cfg : Server.Config) (p : Server.Profile) (now : Z) (newId : ObjectId) (db : Db) :
  uniqueUserIds (users db) ->
  let db' := fst (Server.verify cfg p now newId db) in
  (List.length (users db) <= List.length (users db'))%nat
  /\ (forall u, In u (users db) ->
                exists u', In u' (users db') /\ sameCredentials u u')
  /\ properties db' = properties db
  /\ favorites db' = favorites db
  /\ contacts db' = contacts db.
Proof.
  intros Hu. cbv zeta.
  assert (Hsame : forall u, sameCredentials u u) by (intros u; repeat split).
  assert (Hsaved : forall u0 u0',
             In u0 (users db) -> sameCredentials u0 u0' ->
             forall u, In u (users db) ->
                       exists u', In u' (UserModel.save u0' (users db))
                                  /\ sameCredentials u u').
  { intros u0 u0' Hin0 Hc u Hin.
    destruct (save_replaces u0 u0' (users db) Hu Hin0) as (l1 & l2 & Hl & ->).
    { symmetry. apply Hc. }
    rewrite Hl in Hin. apply in_app_or in Hin. destruct Hin as [Hin|[<-|Hin]].
    - exists u. split; [apply in_or_app; now left|apply Hsame].
    - exists u0'. split; [apply in_or_app; right; now left|exact Hc].
    - exists u. split; [apply in_or_app; right; now right|apply Hsame]. }
  unfold Server.verify, Server.tryVerify.
  destruct (Server.firstEmail p) as [e|ex]; cbn [bind];
    [|cbn; repeat split; eauto].
  destruct (Server.mongoUri cfg); cbn [negb]; [|cbn; repeat split; eauto].
  destruct (UserModel.findOneByGoogleId (Server.profileId p) (users db)) as [u0|] eqn:Hf.
  - cbn [fst users properties favorites contacts Server.setUsers].
    unfold UserModel.findOneByGoogleId in Hf. apply findOne_In in Hf.
    repeat split; trivial.
    + rewrite save_length. lia.
    + apply Hsaved with (u0 := u0); [tauto|repeat split].
  - destruct (UserModel.findOneByEmail (Some e) (users db)) as [u0|] eqn:Hm.
    + cbn [fst users properties favorites contacts Server.setUsers].
      unfold UserModel.findOneByEmail in Hm. apply findOne_In in Hm.
      repeat split; trivial.
      * rewrite save_length. lia.
      * apply Hsaved with (u0 := u0); [tauto|repeat split].
    + destruct (UserModel.create _ (users db)) as [[l u]|ex] eqn:Hc; cbn [bind];
        [|cbn; repeat split; eauto].
      apply create_inv in Hc. destruct Hc as [_ [-> _]].
      cbn [fst users properties favorites contacts Server.setUsers].
      repeat split; trivial.
      * rewrite length_app. lia.
      * intros v Hv. exists v. split; [apply in_or_app; now left|apply Hsame].
Qed.

Lemma verify_keeps_credentials_witness :
  exists u', In u' (users (fst (Server.verify Sample.connected Sample.bobProfile 7
                                  Sample.carolId Sample.db)))
             /\ sameCredentials Sample.bob u'.
Proof.
  destruct (verify_keeps_credentials Sample.connected Sample.bobProfile 7
              Sample.carolId Sample.db) as [_ [H _]].
  - repeat constructor; simpl; intuition discriminate.
  - apply H. right. left. reflexivity.
Defined.

(* ================================================================== *)
(** * More on the contact route *)
(* ================================================================== *)

Lemma contact_errors_nil (b : ContactModel.Body) :
  ContactModel.errors b = [] <-> completeContact b = true.
Proof.
  unfold ContactModel.errors, completeContact, ContactModel.castErrors,
    ContactModel.unsetErrors, ContactModel.setErrors.
  destruct (ContactModel.name b) as [|[|c1 s1]|m1]; cbn; try (split; discriminate);
  destruct (ContactModel.email b) as [|[|c2 s2]|m2]; cbn; try (split; discriminate);
  destruct (ContactModel.message b) as [|[|c3 s3]|m3]; cbn; try (split; discriminate);
  destruct (ContactModel.phone b) as [|v4|m4]; cbn; try (split; discriminate);
  destruct (ContactModel.subject b) as [|v5|m5]; cbn; try (split; discriminate);
  destruct (ContactModel.propertyInterest b) as [|v6|m6]; cbn;
    try (split; discriminate);
  destruct (ContactModel.createdAt b) as [|v7|m7]; cbn; try (split; discriminate);
  split; reflexivity.
Qed.



(* ================================================================== *)
(** * The email analysis *)
(* ================================================================== *)

Lemma sumOf_cons d ds : EmailDigits.sumOf (d :: ds) = d + EmailDigits.sumOf ds.
Proof.
  unfold EmailDigits.sumOf. simpl.
  assert (Hacc : forall l a, fold_left Z.add l a = a + fold_left Z.add l 0).
  { induction l as [|x r IH]; intros a; simpl; [lia|].
    rewrite IH, (IH x). lia. }
  rewrite Hacc. lia.
Qed.

Lemma totals_cons (c : EmailDigits.Calculation) cs :
  fold_left (fun total c => total + EmailDigits.digitsSum c) (c :: cs) 0
  = EmailDigits.digitsSum c
    + fold_left (fun total c => total + EmailDigits.digitsSum c) cs 0.
Proof.
  simpl.
  assert (Hacc : forall l a,
             fold_left (fun total c => total + EmailDigits.digitsSum c) l a
             = a + fold_left (fun total c => total + EmailDigits.digitsSum c) l 0).
  { induction l as [|x r IH]; intros a; simpl; [lia|].
    rewrite IH, (IH (EmailDigits.digitsSum x)). lia. }
  apply Hacc.
Qed.

Lemma isDigit_decDigit c :
  Utils.isDigit c = match JS.decDigit c with Some _ => true | None => false end.
Proof.
  unfold Utils.isDigit, Utils.between, JS.decDigit.
  now destruct ((48 <=? nat_of_ascii c)%nat && (nat_of_ascii c <=? 57)%nat)%bool.
Qed.

Lemma decDigit_range c d : JS.decDigit c = Some d -> 0 <= d <= 9.
Proof.
  unfold JS.decDigit.
  destruct (Nat.leb_spec 48 (nat_of_ascii c)) as [Hlo|]; cbn [andb]; [|discriminate].
  destruct (Nat.leb_spec (nat_of_ascii c) 57) as [Hhi|]; [|discriminate].
  intros Hd. injection Hd as <-. lia.
Qed.

(** The sum and the number of the digits in the groups of a string are
    those of the string. *)
Lemma numberGroups_digits s :
  flat_map EmailDigits.digitsOf (EmailDigits.numberGroups s) = EmailDigits.digitsOf s.
Proof.
  induction s as [|c r IH]; [reflexivity|].
  change (EmailDigits.digitsOf (String c r))
    with (match JS.decDigit c with
          | Some d => d :: EmailDigits.digitsOf r
          | None => EmailDigits.digitsOf r
          end).
  rewrite <- IH. clear IH.
  destruct r as [|c' r'].
  - cbn. rewrite isDigit_decDigit. destruct (JS.decDigit c) eqn:Hc; cbn; [now rewrite Hc|reflexivity].
  - change (EmailDigits.numberGroups (String c (String c' r')))
      with (if Utils.isDigit c
            then if Utils.isDigit c'
                 then match EmailDigits.numberGroups (String c' r') with
                      | g :: gs => String c g :: gs
                      | [] => [String c ""]
                      end
                 else String c "" :: EmailDigits.numberGroups (String c' r')
            else EmailDigits.numberGroups (String c' r')).
    rewrite !isDigit_decDigit.
    destruct (JS.decDigit c) as [d|] eqn:Hc; [|reflexivity].
    destruct (JS.decDigit c') as [d'|] eqn:Hc'.
    + destruct (EmailDigits.numberGroups (String c' r')) as [|g gs].
      * cbn. now rewrite Hc.
      * cbn [flat_map EmailDigits.digitsOf]. now rewrite Hc.
    + cbn [flat_map EmailDigits.digitsOf app]. now rewrite Hc.
Qed.

Lemma numberGroups_nil_iff s :
  EmailDigits.numberGroups s = [] <-> EmailDigits.digitsOf s = [].
Proof.
  induction s as [|c r IH]; [tauto|].
  change (EmailDigits.digitsOf (String c r))
    with (match JS.decDigit c with
          | Some d => d :: EmailDigits.digitsOf r
          | None => EmailDigits.digitsOf r
          end).
  cbn [EmailDigits.numberGroups]. rewrite isDigit_decDigit.
  destruct (JS.decDigit c) as [d|]; [|exact IH].
  split; [|discriminate].
  destruct r as [|c' r']; [discriminate|].
  destruct (Utils.isDigit c'); [|discriminate].
  destruct (EmailDigits.numberGroups (String c' r')); discriminate.
Qed.

Lemma digitsOf_sum s : EmailDigits.sumOf (EmailDigits.digitsOf s) = Server.digitsSum s.
Proof.
  induction s as [|c r IH]; [reflexivity|].
  cbn [EmailDigits.digitsOf Server.digitsSum].
  destruct (JS.decDigit c); [|exact IH].
  now rewrite sumOf_cons, IH.
Qed.

Lemma sumOf_app l1 l2 :
  EmailDigits.sumOf (l1 ++ l2) = EmailDigits.sumOf l1 + EmailDigits.sumOf l2.
Proof.
  induction l1 as [|d r IH]; [reflexivity|].
  cbn [app]. rewrite !sumOf_cons, IH. lia.
Qed.

Lemma digitsOf_bounds s :
  0 <= EmailDigits.sumOf (EmailDigits.digitsOf s)
    <= 9 * Z.of_nat (List.length (EmailDigits.digitsOf s)).
Proof.
  induction s as [|c r IH]; [cbn; lia|].
  cbn [EmailDigits.digitsOf].
  destruct (JS.decDigit c) as [d|] eqn:Hc; [|exact IH].
  apply decDigit_range in Hc. rewrite sumOf_cons. cbn [List.length]. lia.
Qed.

Lemma calculations_digits (gs : list string) :
  flat_map EmailDigits.digits (map EmailDigits.calculate gs)
  = flat_map EmailDigits.digitsOf gs.
Proof.
  induction gs as [|g r IH]; [reflexivity|].
  cbn [map flat_map]. now rewrite IH.
Qed.

Lemma calculations_total (gs : list string) :
  fold_left (fun total c => total + EmailDigits.digitsSum c)
    (map EmailDigits.calculate gs) 0
  = EmailDigits.sumOf (flat_map EmailDigits.digitsOf gs).
Proof.
  induction gs as [|g r IH]; [reflexivity|].
  cbn [map flat_map]. rewrite totals_cons, IH, sumOf_app. reflexivity.
Qed.

(** X21. The fields of the email analysis agree with one another and
    with the short form of the function that the other server file keeps:
    the total is the sum of all decimal digits of the address, and of the
    listed individual digits; the digit count is their number; the group
    count is the number of groups; the per-group sums add up to the total;
    the total lies between 0 and 9 times the digit count; and hasNumbers
    tells whether the address has a digit at all. *)
Theorem calculateEmailDigitsSum_is_consistent (email : string) :
  let a := EmailDigits.calculateEmailDigitsSum email in
  EmailDigits.totalDigitsSum a = Server.calculateEmailDigitsSum email
  /\ EmailDigits.individualDigits a = EmailDigits.digitsOf email
  /\ EmailDigits.totalDigitsSum a = EmailDigits.sumOf (EmailDigits.individualDigits a)
  /\ EmailDigits.totalDigitsCount a
     = Z.of_nat (List.length (EmailDigits.individualDigits a))
  /\ EmailDigits.numberGroupCount a = Z.of_nat (List.length (EmailDigits.groups a))
  /\ List.length (EmailDigits.digitCalculations a) = List.length (EmailDigits.groups a)
  /\ 0 <= EmailDigits.totalDigitsSum a <= 9 * EmailDigits.totalDigitsCount a
  /\ (EmailDigits.hasNumbers a = true <-> EmailDigits.individualDigits a <> []).
Proof.
  cbv zeta. unfold EmailDigits.calculateEmailDigitsSum, Server.calculateEmailDigitsSum.
  cbn [EmailDigits.totalDigitsSum EmailDigits.individualDigits
       EmailDigits.totalDigitsCount EmailDigits.numberGroupCount EmailDigits.groups
       EmailDigits.digitCalculations EmailDigits.hasNumbers].
  rewrite calculations_digits, calculations_total, !numberGroups_digits.
  split; [apply digitsOf_sum|]. split; [reflexivity|]. split; [reflexivity|].
  split; [reflexivity|]. split; [reflexivity|]. split; [apply length_map|].
  split; [apply digitsOf_bounds|].
  pose proof (numberGroups_nil_iff email) as Hnil.
  destruct (EmailDigits.numberGroups email) as [|g gs].
  - cbn. split; [discriminate|]. intros Hne. exfalso. apply Hne. now apply Hnil.
  - cbn [List.length Nat.ltb Nat.leb]. split; [|reflexivity]. intros _ Hd.
    apply Hnil in Hd. discriminate.
Qed.

(* ================================================================== *)
(** * The validators and the slug *)
(* ================================================================== *)

Lemma allDigits_prefix (r : string) :
  Utils.allDigits r = true ->
  forall acc n,
    exists v,
      JS.digitsPrefix JS.decDigit 10 r acc n
      = (acc * 10 ^ Z.of_nat (String.length r) + v, (n + String.length r)%nat, "")
      /\ 0 <= v < 10 ^ Z.of_nat (String.length r).
Proof.
  induction r as [|c r IH]; intros Hd acc n.
  - exists 0. cbn [JS.digitsPrefix String.length]. split; [|cbn; lia].
    apply f_equal2; [apply f_equal2|]; [cbn; lia|lia|reflexivity].
  - cbn [Utils.allDigits] in Hd. apply andb_true_iff in Hd. destruct Hd as [Hc Hr].
    rewrite isDigit_decDigit in Hc.
    destruct (JS.decDigit c) as [d|] eqn:Hcd; [|discriminate].
    pose proof (decDigit_range c d Hcd) as Hrange.
    destruct (IH Hr (acc * 10 + d) (S n)) as [v [Hv Hb]].
    exists (d * 10 ^ Z.of_nat (String.length r) + v).
    cbn [JS.digitsPrefix String.length]. rewrite Hcd, Hv.
    rewrite Nat2Z.inj_succ, Z.pow_succ_r by lia.
    split; [|nia].
    apply f_equal2; [apply f_equal2|]; [lia|lia|reflexivity].
Qed.

Lemma parseInt_digit_first (c : ascii) (r : string) :
  Utils.between 49 57 c = true ->
  JS.parseInt (String c r)
  = match JS.digitsPrefix JS.decDigit 10 (String c r) 0 0%nat with
    | (v, S _, _) => Some v
    | (_, O, _) => None
    end.
Proof.
  intros Hc.
  destruct c as [[] [] [] [] [] [] [] []];
    try (vm_compute in Hc; discriminate Hc); reflexivity.
Qed.

(** X22. A string that validatePincode accepts has six characters and
    reads, through parseInt, as an integer between 100000 and 999999; a
    string of another length, the empty one included, is refused. *)
Theorem validatePincode_accepts_six_digit_numbers (pincode : string) :
  (Utils.validatePincode pincode = true ->
   String.length pincode = 6%nat
   /\ Utils.allDigits pincode = true
   /\ exists n, JS.parseInt pincode = Some n /\ 100000 <= n <= 999999)
  /\ (String.length pincode <> 6%nat -> Utils.validatePincode pincode = false).
Proof.
  unfold Utils.validatePincode. destruct pincode as [|c r].
  - split; [discriminate|reflexivity].
  - split.
    + rewrite !andb_true_iff. intros [[Hc Hlen] Hr].
      apply Nat.eqb_eq in Hlen.
      assert (Hc' : Utils.isDigit c = true).
      { unfold Utils.isDigit, Utils.between in *.
        apply andb_true_iff in Hc. destruct Hc as [Hlo Hhi].
        apply Nat.leb_le in Hlo. apply andb_true_iff.
        split; [apply Nat.leb_le; lia|exact Hhi]. }
      split; [cbn; now rewrite Hlen|].
      split; [cbn [Utils.allDigits]; now rewrite Hc', Hr|].
      rewrite (parseInt_digit_first c r Hc).
      cbn [JS.digitsPrefix].
      rewrite isDigit_decDigit in Hc'.
      destruct (JS.decDigit c) as [d|] eqn:Hcd; [|discriminate].
      destruct (allDigits_prefix r Hr (0 * 10 + d) 1%nat) as [v [-> Hv]].
      rewrite Hlen in *. cbn [Nat.add]. eexists. split; [reflexivity|].
      assert (Hd : 1 <= d <= 9).
      { unfold JS.decDigit in Hcd. unfold Utils.between in Hc.
        apply andb_true_iff in Hc. destruct Hc as [Hlo Hhi].
        apply Nat.leb_le in Hlo, Hhi.
        destruct ((48 <=? nat_of_ascii c)%nat && (nat_of_ascii c <=? 57)%nat)%bool;
          [|discriminate].
        injection Hcd as <-. lia. }
      change (10 ^ Z.of_nat 5) with 100000 in *. lia.
    + intros Hlen.
      destruct (Nat.eqb_spec (String.length r) 5) as [E|E].
      * exfalso. apply Hlen. cbn. now rewrite E.
      * now rewrite andb_false_r.
Qed.

Lemma validatePincode_accepts_six_digit_numbers_witness :
  JS.parseInt "400050" = Some 400050 /\ Utils.validatePincode "4000501" = false.
Proof.
  destruct (validatePincode_accepts_six_digit_numbers "400050") as [Hacc _].
  destruct (validatePincode_accepts_six_digit_numbers "4000501") as [_ Hrej].
  split.
  - destruct (Hacc eq_refl) as [_ [_ [n [Hn _]]]]. reflexivity.
  - apply Hrej. discriminate.
Defined.

Lemma afterCountryCode_suffix s t :
  In t (Utils.afterCountryCode s) ->
  exists pre, s = pre ++ t /\ (String.length pre <= 4)%nat.
Proof.
  unfold Utils.afterCountryCode. intros [<-|Hin].
  - exists "". split; [reflexivity|cbn; lia].
  - destruct s as [|c1 [|c2 [|c3 r]]]; try destruct Hin.
    destruct ((c1 =? "+")%char && (c2 =? "9")%char && (c3 =? "1")%char)%bool;
      [|destruct Hin].
    destruct Hin as [<-|Hin].
    + exists (String c1 (String c2 (String c3 ""))). split; [reflexivity|cbn; lia].
    + destruct r as [|c r']; [destruct Hin|].
      destruct (Utils.isHyphen c || Utils.isSpace c)%bool; [|destruct Hin].
      destruct Hin as [<-|[]].
      exists (String c1 (String c2 (String c3 (String c "")))).
      split; [reflexivity|cbn; lia].
Qed.

Lemma afterTrunkZero_suffix s t :
  In t (Utils.afterTrunkZero s) ->
  exists pre, s = pre ++ t /\ (String.length pre <= 1)%nat.
Proof.
  unfold Utils.afterTrunkZero. intros [<-|Hin].
  - exists "". split; [reflexivity|cbn; lia].
  - destruct s as [|c r]; [destruct Hin|].
    destruct (c =? "0")%char; [|destruct Hin].
    destruct Hin as [<-|[]]. exists (String c ""). split; [reflexivity|cbn; lia].
Qed.

Lemma afterBare91_suffix s t :
  In t (Utils.afterBare91 s) ->
  exists pre, s = pre ++ t /\ (String.length pre <= 2)%nat.
Proof.
  unfold Utils.afterBare91. intros [<-|Hin].
  - exists "". split; [reflexivity|cbn; lia].
  - destruct s as [|c1 [|c2 r]]; try destruct Hin.
    destruct ((c1 =? "9")%char && (c2 =? "1")%char)%bool; [|destruct Hin].
    destruct Hin as [<-|[]].
    exists (String c1 (String c2 "")). split; [reflexivity|cbn; lia].
Qed.

Lemma append_assoc_string (a b c : string) : (a ++ b) ++ c = a ++ (b ++ c).
Proof. induction a as [|x a IH]; cbn; [reflexivity|now rewrite IH]. Qed.

Lemma length_append_string (a b : string) :
  String.length (a ++ b) = (String.length a + String.length b)%nat.
Proof. induction a as [|x a IH]; cbn; [reflexivity|now rewrite IH]. Qed.

Lemma phone_candidate (s t1 t2 t : string) :
  In t1 (Utils.afterCountryCode s) -> In t2 (Utils.afterTrunkZero t1) ->
  In t (Utils.afterBare91 t2) -> Utils.mobileNumber t = true ->
  Utils.validatePhone s = true.
Proof.
  intros H1 H2 H3 Hm. unfold Utils.validatePhone.
  apply existsb_exists. exists t. split; [|exact Hm].
  apply in_flat_map. exists t2. split; [|exact H3].
  apply in_flat_map. exists t1. split; assumption.
Qed.

(** X23. A string that validatePhone accepts ends in a mobile number: ten
    digits, the first of them 7, 8 or 9, after a prefix of at most seven
    characters.  A mobile number is accepted bare, behind a trunk 0,
    behind 91, and behind +91 with or without a hyphen or a space. *)
Theorem validatePhone_accepts_mobile_numbers (phone : string) :
  (Utils.validatePhone phone = true ->
   exists pre c rest,
     phone = pre ++ String c rest
     /\ (String.length pre <= 7)%nat
     /\ Utils.between 55 57 c = true
     /\ String.length rest = 9%nat
     /\ Utils.allDigits rest = true)
  /\ (Utils.mobileNumber phone = true ->
      Utils.validatePhone phone = true
      /\ Utils.validatePhone ("0" ++ phone) = true
      /\ Utils.validatePhone ("91" ++ phone) = true
      /\ Utils.validatePhone ("+91" ++ phone) = true
      /\ Utils.validatePhone ("+91-" ++ phone) = true
      /\ Utils.validatePhone ("+91 " ++ phone) = true).
Proof.
  split.
  - unfold Utils.validatePhone. intros H.
    apply existsb_exists in H. destruct H as [t [Hin Hm]].
    apply in_flat_map in Hin. destruct Hin as [t2 [Hin2 Hin]].
    apply in_flat_map in Hin2. destruct Hin2 as [t1 [Hin1 Hin2]].
    apply afterCountryCode_suffix in Hin1. destruct Hin1 as [p1 [-> Hp1]].
    apply afterTrunkZero_suffix in Hin2. destruct Hin2 as [p2 [-> Hp2]].
    apply afterBare91_suffix in Hin. destruct Hin as [p3 [-> Hp3]].
    unfold Utils.mobileNumber in Hm. destruct t as [|c rest]; [discriminate|].
    rewrite !andb_true_iff in Hm. destruct Hm as [[Hc Hlen] Hd].
    apply Nat.eqb_eq in Hlen.
    exists (p1 ++ p2 ++ p3), c, rest.
    rewrite !append_assoc_string, !length_append_string.
    repeat split; trivial. lia.
  - intros Hm.
    assert (Hhead1 : forall s, In s (Utils.afterCountryCode s)) by (intros; now left).
    assert (Hhead2 : forall s, In s (Utils.afterTrunkZero s)) by (intros; now left).
    assert (Hhead3 : forall s, In s (Utils.afterBare91 s)) by (intros; now left).
    repeat split.
    + apply (phone_candidate phone phone phone phone); auto.
    + apply (phone_candidate ("0" ++ phone) ("0" ++ phone) phone phone); auto.
      cbn. right. left. reflexivity.
    + apply (phone_candidate ("91" ++ phone) ("91" ++ phone) ("91" ++ phone) phone); auto.
      cbn. right. left. reflexivity.
    + apply (phone_candidate ("+91" ++ phone) phone phone phone); auto.
      cbn. right. left. reflexivity.
    + apply (phone_candidate ("+91-" ++ phone) phone phone phone); auto.
      cbn. right. right. left. reflexivity.
    + apply (phone_candidate ("+91 " ++ phone) phone phone phone); auto.
      cbn. right. right. left. reflexivity.
Qed.

Lemma validatePhone_accepts_mobile_numbers_witness :
  Utils.validatePhone "+91 9876543210" = true
  /\ exists pre c rest,
       "+91-09198765432" ++ "10" = pre ++ String c rest
       /\ (String.length pre <= 7)%nat /\ String.length rest = 9%nat.
Proof.
  destruct (validatePhone_accepts_mobile_numbers "9876543210") as [_ Hforms].
  destruct (validatePhone_accepts_mobile_numbers "+91-0919876543210") as [Hshape _].
  split.
  - destruct (Hforms eq_refl) as (_ & _ & _ & _ & _ & H). exact H.
  - destruct (Hshape eq_refl) as (pre & c & rest & He & Hp & _ & Hr & _).
    exists pre, c, rest. repeat split; assumption.
Defined.

Lemma lowerChar_kept (c : ascii) :
  Utils.slugKeep (JS.lowerChar c) = true ->
  (Utils.isLower (JS.lowerChar c) || Utils.isDigit (JS.lowerChar c)
   || Utils.isSpace (JS.lowerChar c))%bool = true.
Proof.
  destruct c as [[] [] [] [] [] [] [] []]; vm_compute; intros H;
    first [exact H | reflexivity].
Qed.

Lemma slugChar_not_white (c : ascii) : Utils.slugChar c = true -> JS.isWhite c = false.
Proof.
  destruct c as [[] [] [] [] [] [] [] []]; vm_compute; intros H;
    first [reflexivity | discriminate H].
Qed.

Lemma keepChars_lower_class (s : string) :
  Utils.allChars (fun c => (Utils.isLower c || Utils.isDigit c || Utils.isSpace c)%bool)
    (Utils.keepChars Utils.slugKeep (JS.toLowerCase s)) = true.
Proof.
  induction s as [|c r IH]; [reflexivity|].
  cbn [JS.toLowerCase Utils.keepChars].
  destruct (Utils.slugKeep (JS.lowerChar c)) eqn:Hk; [|exact IH].
  cbn [Utils.allChars]. now rewrite (lowerChar_kept c Hk), IH.
Qed.

Lemma collapse_spaces_class (s : string) (inRun : bool) :
  Utils.allChars (fun c => (Utils.isLower c || Utils.isDigit c || Utils.isSpace c)%bool) s
  = true ->
  Utils.allChars Utils.slugChar (Utils.collapseRuns Utils.isSpace inRun s) = true.
Proof.
  revert inRun. induction s as [|c r IH]; intros inRun; [reflexivity|].
  cbn [Utils.allChars Utils.collapseRuns]. rewrite andb_true_iff. intros [Hc Hr].
  destruct (Utils.isSpace c) eqn:Hs.
  - destruct inRun; [now apply IH|].
    cbn [Utils.allChars]. now rewrite IH.
  - cbn [Utils.allChars]. rewrite IH by exact Hr.
    unfold Utils.slugChar. rewrite orb_false_r in Hc. now rewrite Hc.
Qed.

Lemma collapse_hyphens_class (s : string) (inRun : bool) :
  Utils.allChars Utils.slugChar s = true ->
  Utils.allChars Utils.slugChar (Utils.collapseRuns Utils.isHyphen inRun s) = true.
Proof.
  revert inRun. induction s as [|c r IH]; intros inRun; [reflexivity|].
  cbn [Utils.allChars Utils.collapseRuns]. rewrite andb_true_iff. intros [Hc Hr].
  destruct (Utils.isHyphen c).
  - destruct inRun; [now apply IH|].
    cbn [Utils.allChars]. now rewrite IH.
  - cbn [Utils.allChars]. now rewrite Hc, IH.
Qed.

Lemma noDoubleHyphen_cons (c : ascii) (s : string) :
  Utils.noDoubleHyphen (String c s)
  = (negb (Utils.isHyphen c && Utils.startsWithHyphen s) && Utils.noDoubleHyphen s)%bool.
Proof.
  destruct s as [|c' r]; cbn [Utils.noDoubleHyphen Utils.startsWithHyphen].
  - now rewrite andb_false_r.
  - reflexivity.
Qed.

Lemma collapse_hyphens_single (s : string) (inRun : bool) :
  Utils.noDoubleHyphen (Utils.collapseRuns Utils.isHyphen inRun s) = true
  /\ (inRun = true ->
      Utils.startsWithHyphen (Utils.collapseRuns Utils.isHyphen inRun s) = false).
Proof.
  revert inRun. induction s as [|c r IH]; intros inRun; [split; reflexivity|].
  cbn [Utils.collapseRuns].
  destruct (Utils.isHyphen c) eqn:Hc.
  - destruct inRun.
    + apply IH.
    + destruct (IH true) as [Hn Hs]. split; [|discriminate].
      rewrite noDoubleHyphen_cons, Hn, (Hs eq_refl). now rewrite andb_false_r.
  - destruct (IH false) as [Hn _]. split.
    + rewrite noDoubleHyphen_cons, Hn, Hc. reflexivity.
    + intros _. cbn [Utils.startsWithHyphen]. exact Hc.
Qed.

Lemma rev_string_class (cls : ascii -> bool) (s acc : string) :
  Utils.allChars cls s = true -> Utils.allChars cls acc = true ->
  Utils.allChars cls (JS.rev_string s acc) = true.
Proof.
  revert acc. induction s as [|c r IH]; intros acc Hs Ha; [exact Ha|].
  cbn [Utils.allChars] in Hs. apply andb_true_iff in Hs. destruct Hs as [Hc Hr].
  cbn [JS.rev_string]. apply IH; [exact Hr|].
  cbn [Utils.allChars]. now rewrite Hc, Ha.
Qed.

Lemma rev_string_twice (s acc acc' : string) :
  JS.rev_string (JS.rev_string s acc) acc' = JS.rev_string acc (s ++ acc').
Proof.
  revert acc acc'. induction s as [|c r IH]; intros acc acc'; [reflexivity|].
  cbn [JS.rev_string]. rewrite IH. reflexivity.
Qed.

Lemma append_empty_r (s : string) : s ++ "" = s.
Proof. induction s as [|c r IH]; cbn; [reflexivity|now rewrite IH]. Qed.

Lemma trimStart_no_white (s : string) :
  Utils.allChars (fun c => negb (JS.isWhite c)) s = true -> JS.trimStart s = s.
Proof.
  destruct s as [|c r]; [reflexivity|].
  cbn [Utils.allChars JS.trimStart]. rewrite andb_true_iff. intros [Hc _].
  apply negb_true_iff in Hc. now rewrite Hc.
Qed.

(** [trim] leaves a string without white space as it is. *)
Lemma trim_no_white (s : string) :
  Utils.allChars (fun c => negb (JS.isWhite c)) s = true -> JS.trim s = s.
Proof.
  intros Hs. unfold JS.trim.
  rewrite (trimStart_no_white s Hs).
  rewrite trimStart_no_white by (apply rev_string_class; [exact Hs|reflexivity]).
  rewrite rev_string_twice. cbn [JS.rev_string]. apply append_empty_r.
Qed.

Lemma allChars_impl (p q : ascii -> bool) (s : string) :
  (forall c, p c = true -> q c = true) ->
  Utils.allChars p s = true -> Utils.allChars q s = true.
Proof.
  intros Hpq. induction s as [|c r IH]; [reflexivity|].
  cbn [Utils.allChars]. rewrite !andb_true_iff. intros [Hc Hr].
  split; [now apply Hpq|now apply IH].
Qed.

Lemma substring_prefix_facts (n : nat) (s : string) :
  (String.length (substring 0 n s) <= n)%nat
  /\ (forall cls, Utils.allChars cls s = true ->
                  Utils.allChars cls (substring 0 n s) = true)
  /\ (Utils.noDoubleHyphen s = true -> Utils.noDoubleHyphen (substring 0 n s) = true)
  /\ (Utils.startsWithHyphen (substring 0 n s) = true -> Utils.startsWithHyphen s = true).
Proof.
  revert s. induction n as [|n IH]; intros s.
  - destruct s; cbn; repeat split; auto; discriminate.
  - destruct s as [|c r]; [cbn; repeat split; auto; lia|].
    cbn [substring]. destruct (IH r) as (Hl & Hc & Hn & Hs).
    split; [cbn; lia|]. split; [|split].
    + intros cls. cbn [Utils.allChars]. rewrite !andb_true_iff.
      intros [H1 H2]. split; [exact H1|now apply Hc].
    + rewrite !noDoubleHyphen_cons, !andb_true_iff, !negb_true_iff.
      intros [H1 H2]. split; [|now apply Hn].
      destruct (Utils.isHyphen c); [|reflexivity].
      cbn [andb] in *. destruct (Utils.startsWithHyphen (substring 0 n r)) eqn:E; [|reflexivity].
      rewrite (Hs eq_refl) in H1. discriminate.
    + cbn [Utils.startsWithHyphen]. trivial.
Qed.

(** X24. A slug is a prefix, a hyphen and the id.  The prefix has at most
    50 characters, all of them lowercase letters, digits or hyphens, and no
    two hyphens in it stand side by side. *)
Theorem generateSlug_shape (title id : string) :
  exists prefix,
    Utils.generateSlug title id = prefix ++ "-" ++ id
    /\ (String.length prefix <= 50)%nat
    /\ Utils.allChars Utils.slugChar prefix = true
    /\ Utils.noDoubleHyphen prefix = true.
Proof.
  unfold Utils.generateSlug.
  set (collapsed :=
         Utils.collapseRuns Utils.isHyphen false
           (Utils.collapseRuns Utils.isSpace false
              (Utils.keepChars Utils.slugKeep (JS.toLowerCase title)))).
  assert (Hclass : Utils.allChars Utils.slugChar collapsed = true).
  { apply collapse_hyphens_class, collapse_spaces_class, keepChars_lower_class. }
  assert (Hsingle : Utils.noDoubleHyphen collapsed = true)
    by apply collapse_hyphens_single.
  rewrite trim_no_white.
  2:{ apply allChars_impl with (p := Utils.slugChar); [|exact Hclass].
      intros c Hc. apply negb_true_iff. now apply slugChar_not_white. }
  destruct (substring_prefix_facts 50 collapsed) as (Hl & Hc & Hn & _).
  eexists. split; [reflexivity|]. auto.
Qed.

(* ================================================================== *)
(** * Interaction tracking *)
(* ================================================================== *)

Lemma assign_sets (k : string) (v : JS.field) (o : list (string * JS.field)) :
  In (k, v) (Tracking.assign k v o).
Proof.
  induction o as [|[k' v'] r IH]; cbn; [now left|].
  destruct (k' =? k)%string; [now left|now right].
Qed.

Lemma assign_keeps (k k0 : string) (v v0 : JS.field) (o : list (string * JS.field)) :
  k0 <> k -> In (k0, v0) o -> In (k0, v0) (Tracking.assign k v o).
Proof.
  intros Hne. induction o as [|[k' v'] r IH]; cbn; [tauto|].
  destruct (String.eqb_spec k' k) as [E|E].
  - intros [H|H]; [injection H as -> ->; congruence|now right].
  - intros [H|H]; [now left|right; now apply IH].
Qed.

(** X25. Interaction tracking.  Without a principal nothing is recorded
    and the session is left alone.  With one, the session afterwards holds
    a session id: the one it already held when that was not empty, else the
    MD5 of user agent, address and clock; a failed save records nothing but
    the id is kept all the same; a successful one appends exactly one
    interaction, of that user, under that session id and action, whose
    details carry the request's user agent and address. *)
Theorem trackInteraction_outcomes
        (md5 : string -> string) (req : Tracking.Request) (action : string)
        (details : list (string * JS.field)) (now : Z) (saveFails : bool)
        (st : Tracking.State) :
  let st' := Tracking.trackInteraction md5 req action details now saveFails st in
  (Tracking.reqUser req = None -> st' = st)
  /\ (forall u, Tracking.reqUser req = Some u ->
      exists sid,
        Tracking.sessionKey st' = Some sid
        /\ (JS.truthy (Tracking.sessionKey st) = true ->
            Tracking.sessionKey st' = Tracking.sessionKey st)
        /\ (JS.truthy (Tracking.sessionKey st) = false ->
            sid = Tracking.generateSessionId md5 req now)
        /\ (saveFails = true -> Tracking.interactions st' = Tracking.interactions st)
        /\ (saveFails = false ->
            exists i,
              Tracking.interactions st' = (Tracking.interactions st ++ [i])%list
              /\ Tracking.user i = User._id u
              /\ Tracking.sessionId i = sid
              /\ Tracking.action i = action
              /\ In ("userAgent", Tracking.userAgent req) (Tracking.details i)
              /\ In ("ip", Tracking.orElse (Tracking.ip req) (Tracking.remoteAddress req))
                    (Tracking.details i))).
Proof.
  cbv zeta. unfold Tracking.trackInteraction. split.
  - intros ->. reflexivity.
  - intros u ->. cbn [Tracking.sessionKey Tracking.interactions].
    eexists. split; [reflexivity|]. split; [|split; [|split]].
    + intros Ht. unfold Tracking.orElse. rewrite Ht.
      destruct (Tracking.sessionKey st); [reflexivity|discriminate].
    + intros Ht. unfold Tracking.orElse. rewrite Ht. reflexivity.
    + intros ->. reflexivity.
    + intros ->. eexists. split; [reflexivity|].
      cbn [Tracking.user Tracking.sessionId Tracking.action Tracking.details].
      repeat split.
      * apply assign_keeps; [discriminate|apply assign_sets].
      * apply assign_sets.
Qed.

Lemma trackInteraction_outcomes_witness :
  let req := {| Tracking.userAgent := Some "curl/8"; Tracking.ip := None;
                Tracking.remoteAddress := Some "10.0.0.1";
                Tracking.reqUser := Some Sample.alice;
                Tracking.originalUrl := "/home" |} in
  let st0 := {| Tracking.sessionKey := None; Tracking.interactions := [] |} in
  let st1 := Tracking.trackInteraction Sample2.md5 req "page_view" [] 5 false st0 in
  let st2 := Tracking.trackInteraction Sample2.md5 req "search" [] 6 true st1 in
  Tracking.sessionKey st1 = Some "curl/8-10.0.0.1-5"
  /\ Tracking.sessionKey st2 = Tracking.sessionKey st1
  /\ List.length (Tracking.interactions st2) = 1%nat.
Proof.
  cbv zeta.
  set (req := {| Tracking.userAgent := Some "curl/8"; Tracking.ip := None;
                 Tracking.remoteAddress := Some "10.0.0.1";
                 Tracking.reqUser := Some Sample.alice;
                 Tracking.originalUrl := "/home" |}).
  set (st0 := {| Tracking.sessionKey := None; Tracking.interactions := [] |}).
  destruct (trackInteraction_outcomes Sample2.md5 req "search" [] 6 true
              (Tracking.trackInteraction Sample2.md5 req "page_view" [] 5 false st0))
    as [_ H].
  destruct (H Sample.alice eq_refl) as (sid & _ & Hkeep & _ & Hfail & _).
  split; [reflexivity|]. split; [apply Hkeep; reflexivity|].
  rewrite (Hfail eq_refl). reflexivity.
Defined.
